(** * MSE record normalisation and report generation (main.py)

    A shallow embedding of the record normaliser ([create_or_update_record]),
    the value mapper ([map_value], [get_value_mappings]), the date renderer
    ([format_excel_date]), the sheet builder ([create_excel_worksheet]) and
    the workbook assembler ([create_excel_workbook]) of [src/main.py],
    followed by the properties the specification states about them. *)

From Stdlib Require Import ZArith NArith List Lia Bool Sorted.
From Stdlib Require Import Strings.String Strings.Ascii Numbers.DecimalString.
From Stdlib Require Import PrimFloat.
From stdpp Require Import base option list gmap.

#[local] Set Warnings "-inexact-float,-register-all,-clear-no-such-hyp".

Local Open Scope N_scope.

(** ** Python text

    A Python [str] is a sequence of Unicode code points; [len] counts code
    points, so Cyrillic labels are measured in letters, not in bytes. *)

Definition str : Type := list N.

(** Literals are written as Rocq strings (UTF-8 in the source file) and
    decoded to code points. *)
Fixpoint utf8_decode (bs : list N) (need : nat) (acc : N) : str :=
  match bs with
  | [] => []
  | b :: tl =>
      match need with
      | O =>
          if b <? 128 then b :: utf8_decode tl 0 0
          else if b <? 224 then utf8_decode tl 1 (b - 192)
          else if b <? 240 then utf8_decode tl 2 (b - 224)
          else utf8_decode tl 3 (b - 240)
      | S O => (acc * 64 + (b - 128)) :: utf8_decode tl 0 0
      | S n => utf8_decode tl n (acc * 64 + (b - 128))
      end
  end.

Fixpoint bytes_of_string (s : string) : list N :=
  match s with
  | EmptyString => []
  | String a tl => N_of_ascii a :: bytes_of_string tl
  end.

Definition u (s : string) : str := utf8_decode (bytes_of_string s) 0 0.

(** The part of the interpreter's Unicode tables the program consults
    outside the ASCII range, and [repr] of a string.  They belong to the
    Python runtime, not to the repository, and stay a parameter. *)
Record unicode_data := {
  ucd_isupper : N -> bool;          (* str.isupper of a one-character string *)
  ucd_lower_char : N -> str;        (* str.lower of a one-character string *)
  ucd_lower : str -> str;           (* str.lower of a string with a non-ASCII character *)
  ucd_isspace : N -> bool;          (* str.isspace of a one-character string *)
  ucd_decimal : N -> option N;      (* the digit value of a decimal digit (category Nd) *)
  ucd_repr : str -> str             (* repr of a str *)
}.

(** An instance that knows no character outside ASCII; used to evaluate the
    definitions on concrete inputs. *)
Definition ascii_only : unicode_data := {|
  ucd_isupper := fun _ => false;
  ucd_lower_char := fun c => [c];
  ucd_lower := fun s => s;
  ucd_isspace := fun _ => false;
  ucd_decimal := fun _ => None;
  ucd_repr := fun s => 39 :: s ++ [39]
|}.

Definition is_ascii (c : N) : bool := c <? 128.
Definition ascii_isupper (c : N) : bool := (65 <=? c) && (c <=? 90).
Definition ascii_lower (c : N) : N := if ascii_isupper c then c + 32 else c.
(* _Py_ascii_whitespace: \t \n \v \f \r, 0x1C..0x1F and the space *)
Definition ascii_isspace (c : N) : bool :=
  ((9 <=? c) && (c <=? 13)) || ((28 <=? c) && (c <=? 31)) || (c =? 32).
Definition ascii_digit (c : N) : option N :=
  if (48 <=? c) && (c <=? 57) then Some (c - 48) else None.

Fixpoint startswith (s p : str) : bool :=
  match p, s with
  | [], _ => true
  | y :: p', x :: s' => (x =? y) && startswith s' p'
  | _ :: _, [] => false
  end.

(** [sep.join(parts)] *)
Fixpoint join (sep : str) (parts : list str) : str :=
  match parts with
  | [] => []
  | [p] => p
  | p :: rest => p ++ sep ++ join sep rest
  end.

(** [s.split(c)] for a one-character separator: never empty, keeps empty
    pieces. *)
Fixpoint split_on (c : N) (s : str) : list str :=
  match s with
  | [] => [[]]
  | x :: tl =>
      if x =? c then [] :: split_on c tl
      else match split_on c tl with
           | [] => [[x]]
           | p :: ps => (x :: p) :: ps
           end
  end.

(** [c in s] for a one-character [c] *)
Definition contains_char (c : N) (s : str) : bool := existsb (N.eqb c) s.

(** [s[:n]] *)
Definition slice_to (n : nat) (s : str) : str := firstn n s.

Section Text.
Variable U : unicode_data.

Definition isupper (c : N) : bool :=
  if is_ascii c then ascii_isupper c else ucd_isupper U c.

Definition lower_char (c : N) : str :=
  if is_ascii c then [ascii_lower c] else ucd_lower_char U c.

Definition lower (s : str) : str :=
  if forallb is_ascii s then map ascii_lower s else ucd_lower U s.

Definition isspace (c : N) : bool :=
  if is_ascii c then ascii_isspace c else ucd_isspace U c.

(** [\d] of the [re] module on a [str] pattern, and the value [int] gives
    the character. *)
Definition decimal (c : N) : option N :=
  if is_ascii c then ascii_digit c
  else match ucd_decimal U c with
       | Some v => if v <? 10 then Some v else None
       | None => None
       end.

Fixpoint lstrip (s : str) : str :=
  match s with
  | [] => []
  | c :: tl => if isspace c then lstrip tl else s
  end.

Definition rstrip (s : str) : str := rev (lstrip (rev s)).

(** [s.strip()] *)
Definition strip (s : str) : str := rstrip (lstrip s).

(** [s.split()]: the maximal runs of non-space characters. *)
Fixpoint split_ws_aux (s : str) (cur : str) : list str :=
  match s with
  | [] => match cur with [] => [] | _ => [rev cur] end
  | c :: tl =>
      if isspace c
      then match cur with
           | [] => split_ws_aux tl []
           | _ => rev cur :: split_ws_aux tl []
           end
      else split_ws_aux tl (c :: cur)
  end.

Definition split_ws (s : str) : list str := split_ws_aux s [].

(** [s.lstrip('_')] *)
Fixpoint lstrip_char (c : N) (s : str) : str :=
  match s with
  | [] => []
  | x :: tl => if x =? c then lstrip_char c tl else s
  end.
End Text.

(** ** Calendar dates ([datetime.date]) *)

Record date := mk_date { year : N; month : N; day : N }.

Definition is_leap (y : N) : bool :=
  ((y mod 4 =? 0) && negb (y mod 100 =? 0)) || (y mod 400 =? 0).

Definition days_in_month (y m : N) : N :=
  match m with
  | 2 => if is_leap y then 29 else 28
  | 4 | 6 | 9 | 11 => 30
  | _ => 31
  end.

(** What the [date] constructor accepts (MINYEAR = 1, MAXYEAR = 9999);
    anything else is a [ValueError]. *)
Definition valid_date (d : date) : bool :=
  (1 <=? year d) && (year d <=? 9999) &&
  (1 <=? month d) && (month d <=? 12) &&
  (1 <=? day d) && (day d <=? days_in_month (year d) (month d)).

Definition digit_char (n : N) : N := 48 + n.
Definition pad2 (n : N) : str := [digit_char (n / 10 mod 10); digit_char (n mod 10)].
Definition pad4 (n : N) : str :=
  [digit_char (n / 1000 mod 10); digit_char (n / 100 mod 10);
   digit_char (n / 10 mod 10); digit_char (n mod 10)].

(** The three layouts the program reads: ["%Y-%m-%d"], ["%d.%m.%Y"] and
    ["%m/%d/%Y"]. *)
Inductive date_format := Fmt_Ymd | Fmt_dmY | Fmt_mdY.

(** The text of a date in a layout, the day and the month with two digits
    and the year with four, zero padded: the text [datetime.strptime]
    reads back, and for [Fmt_Ymd] what [str] and [isoformat] give.  The
    [strftime] of the interpreter prints this text for the years from 1000
    on; below, the C library does not pad the year: see [strftime_dmY]. *)
Definition strftime (f : date_format) (d : date) : str :=
  match f with
  | Fmt_Ymd => pad4 (year d) ++ [45] ++ pad2 (month d) ++ [45] ++ pad2 (day d)
  | Fmt_dmY => pad2 (day d) ++ [46] ++ pad2 (month d) ++ [46] ++ pad4 (year d)
  | Fmt_mdY => pad2 (month d) ++ [47] ++ pad2 (day d) ++ [47] ++ pad4 (year d)
  end.

(** *** [datetime.strptime]

    [_strptime] turns the format into a regular expression, matches it at
    the start of the text with the backtracking matcher of [re], refuses
    text left over, converts the groups with [int] and builds the date.  A
    matcher returns every way of matching a prefix, in the order [re] tries
    them; the first complete one is the match. *)
Definition matcher (A : Type) : Type := str -> list (A * str).

Definition m_bind {A B} (p : matcher A) (k : A -> matcher B) : matcher B :=
  fun s => flat_map (fun '(a, rest) => k a rest) (p s).

Definition m_ret {A} (a : A) : matcher A := fun s => [(a, s)].

Definition m_alt {A} (p q : matcher A) : matcher A := fun s => p s ++ q s.

Definition m_sat (ok : N -> bool) : matcher N :=
  fun s => match s with
           | c :: rest => if ok c then [(c, rest)] else []
           | [] => []
           end.

Definition m_lit (c : N) : matcher unit :=
  m_bind (m_sat (N.eqb c)) (fun _ => m_ret tt).

Definition in_range (lo hi : N) (c : N) : bool := (lo <=? c) && (c <=? hi).

Definition m_two (p q : N -> bool) : matcher str :=
  m_bind (m_sat p) (fun a => m_bind (m_sat q) (fun b => m_ret [a; b])).

Definition m_one (p : N -> bool) : matcher str :=
  m_bind (m_sat p) (fun a => m_ret [a]).

Section Strptime.
Variable U : unicode_data.

Definition re_digit (c : N) : bool := bool_decide (is_Some (decimal U c)).

(** [%Y]: [\d\d\d\d] *)
Definition re_Y : matcher str :=
  m_bind (m_sat re_digit) (fun a =>
  m_bind (m_sat re_digit) (fun b =>
  m_bind (m_sat re_digit) (fun c =>
  m_bind (m_sat re_digit) (fun d => m_ret [a; b; c; d])))).

(** [%m]: [1[0-2]|0[1-9]|[1-9]] *)
Definition re_m : matcher str :=
  m_alt (m_two (N.eqb 49) (in_range 48 50))
 (m_alt (m_two (N.eqb 48) (in_range 49 57))
        (m_one (in_range 49 57))).

(** [%d]: [3[0-1]|[1-2]\d|0[1-9]|[1-9]| [1-9]] *)
Definition re_d : matcher str :=
  m_alt (m_two (N.eqb 51) (in_range 48 49))
 (m_alt (m_two (in_range 49 50) re_digit)
 (m_alt (m_two (N.eqb 48) (in_range 49 57))
 (m_alt (m_one (in_range 49 57))
        (m_two (N.eqb 32) (in_range 49 57))))).

(** The groups of a match, as text: year, month, day. *)
Definition format_regex (f : date_format) : matcher (str * str * str) :=
  match f with
  | Fmt_Ymd =>
      m_bind re_Y (fun y => m_bind (m_lit 45) (fun _ =>
      m_bind re_m (fun m => m_bind (m_lit 45) (fun _ =>
      m_bind re_d (fun d => m_ret (y, m, d))))))
  | Fmt_dmY =>
      m_bind re_d (fun d => m_bind (m_lit 46) (fun _ =>
      m_bind re_m (fun m => m_bind (m_lit 46) (fun _ =>
      m_bind re_Y (fun y => m_ret (y, m, d))))))
  | Fmt_mdY =>
      m_bind re_m (fun m => m_bind (m_lit 47) (fun _ =>
      m_bind re_d (fun d => m_bind (m_lit 47) (fun _ =>
      m_bind re_Y (fun y => m_ret (y, m, d))))))
  end.

(** [int(text)]: surrounding white space is ignored, every character
    left must be a decimal digit, and there must be one. *)
Fixpoint int_digits (s : str) (acc : N) : option N :=
  match s with
  | [] => Some acc
  | c :: tl => match decimal U c with
               | Some v => int_digits tl (acc * 10 + v)
               | None => None
               end
  end.

Definition py_int (s : str) : option N :=
  match strip U s with
  | [] => None
  | t => int_digits t 0
  end.

(** [datetime.strptime(s, fmt).date()]; [None] stands for [ValueError]. *)
Definition strptime (f : date_format) (s : str) : option date :=
  match format_regex f s with
  | [] => None                                  (* does not match format *)
  | ((y, m, d), rest) :: _ =>
      match rest with
      | _ :: _ => None                          (* unconverted data remains *)
      | [] =>
          match py_int y, py_int m, py_int d with
          | Some yy, Some mm, Some dd =>
              let dt := mk_date yy mm dd in
              if valid_date dt then Some dt else None
          | _, _, _ => None
          end
      end
  end.

(** [for fmt in ("%Y-%m-%d", "%d.%m.%Y", "%m/%d/%Y"): try ... except
    ValueError: continue]: the first format that parses decides. *)
Definition date_formats : list date_format := [Fmt_Ymd; Fmt_dmY; Fmt_mdY].

Fixpoint try_formats (fmts : list date_format) (s : str) : option date :=
  match fmts with
  | [] => None
  | f :: rest =>
      match strptime f s with
      | Some d => Some d
      | None => try_formats rest s
      end
  end.
End Strptime.

(** ** Python values

    What a JSON payload, a stored row and a sheet cell can hold: [None],
    [bool], [int], [str], [datetime.date] and lists of these. *)
Inductive pyval :=
| PNone
| PBool (b : bool)
| PInt (z : Z)
| PStr (s : str)
| PDate (d : date)
| PList (l : list pyval).

(** [bool(v)] *)
Definition truthy (v : pyval) : bool :=
  match v with
  | PNone => false
  | PBool b => b
  | PInt z => negb (z =? 0)%Z
  | PStr s => match s with [] => false | _ => true end
  | PDate _ => true
  | PList l => match l with [] => false | _ => true end
  end.

(** [str(z)] for an [int] *)
Definition int_to_str (z : Z) : str :=
  bytes_of_string (NilZero.string_of_int (Z.to_int z)).

(** [%Y] as [date.strftime] prints it: the C library writes the year in
    decimal and does not pad it, so a year below 1000 has fewer than four
    digits. *)
Definition year_text (y : N) : str := int_to_str (Z.of_N y).

(** [d.strftime("%d.%m.%Y")] *)
Definition strftime_dmY (d : date) : str :=
  pad2 (day d) ++ [46] ++ pad2 (month d) ++ [46] ++ year_text (year d).

Section Values.
Variable U : unicode_data.

Fixpoint py_repr (v : pyval) : str :=
  match v with
  | PNone => u "None"
  | PBool true => u "True"
  | PBool false => u "False"
  | PInt z => int_to_str z
  | PStr s => ucd_repr U s
  | PDate d =>
      u "datetime.date(" ++ int_to_str (Z.of_N (year d)) ++ u ", "
        ++ int_to_str (Z.of_N (month d)) ++ u ", "
        ++ int_to_str (Z.of_N (day d)) ++ u ")"
  | PList l => u "[" ++ join (u ", ") (map py_repr l) ++ u "]"
  end.

(** [str(v)] *)
Definition py_str (v : pyval) : str :=
  match v with
  | PStr s => s
  | PDate d => strftime Fmt_Ymd d
  | _ => py_repr v
  end.

(** [format_excel_date] *)
Definition format_excel_date (date_value : pyval) : str :=
  match date_value with
  | PNone => []
  | PDate d => strftime_dmY d                          (* hasattr(date_value, 'strftime') *)
  | PStr s =>
      match try_formats U date_formats s with
      | Some date_obj => strftime_dmY date_obj
      | None => py_str date_value
      end
  | _ => py_str date_value
  end.
End Values.

(** ** Field normaliser: the transformation [create_or_update_record]
    applies to a payload before it talks to the record store *)

Record HTTPException := mk_http { status_code : Z; detail : str }.

Inductive result (A : Type) :=
| Ok (a : A)
| Raise (e : HTTPException).
Arguments Ok {A} a.
Arguments Raise {A} e.

Definition bind {A B} (r : result A) (k : A -> result B) : result B :=
  match r with
  | Ok a => k a
  | Raise e => Raise e
  end.

(** The outer [except Exception] handler: anything that is not an
    [HTTPException] becomes this one. *)
Definition save_error : HTTPException :=
  mk_http 500 (u "Ошибка при сохранении записи в базу данных").

Definition missing_mse_date : HTTPException :=
  mk_http 400 (u "Обязательное поле 'Дата проведения МСЭ' не заполнено").

(** The error for a date text no format parses; [key] is the key after the
    alias renaming, [value] the raw text. *)
Definition bad_date_format (key value : str) : HTTPException :=
  mk_http 400 (u "Неверный формат даты для поля " ++ key
               ++ u ". Ожидается YYYY-MM-DD. Ошибка: "
               ++ (u "Неверный формат даты: " ++ value)).

Definition date_fields : list str :=
  [u "mse_date"; u "decision_date"; u "reg_date"; u "birth_date"].

Definition rename_alias (key : str) : str :=
  if bool_decide (key = u "expertDocumentFormat") then u "documentFormat"
  else if bool_decide (key = u "expertPurpose") then u "purpose"
  else if bool_decide (key = u "pdoDevelopedExpert") then u "pdoDeveloped"
  else key.

(** [','.join(value)]: a [TypeError] unless every item is a [str]. *)
Fixpoint str_items (l : list pyval) : option (list str) :=
  match l with
  | [] => Some []
  | PStr s :: tl => match str_items tl with Some r => Some (s :: r) | None => None end
  | _ :: _ => None
  end.

Section Normaliser.
Variable U : unicode_data.

(** [''.join(['_' + c.lower() if c.isupper() else c for c in key]).lstrip('_')] *)
Definition snake_key (key : str) : str :=
  lstrip_char 95 (flat_map (fun c => if isupper U c then 95 :: lower_char U c else [c]) key).

(** The date branch of the loop body. *)
Definition normalize_date (key : str) (value : pyval) : result pyval :=
  match value with
  | PNone => Ok PNone
  | PStr [] => Ok PNone
  | PDate d => Ok value
  | PStr s =>
      match try_formats U date_formats s with
      | Some d => Ok (PDate d)
      | None => Raise (bad_date_format key s)
      end
  | _ => Ok value
  end.

(** One turn of [for key, value in record_data.items()]. *)
Definition transform_item (transformed_data : gmap str pyval) (key : str) (value : pyval)
  : result (gmap str pyval) :=
  if bool_decide (lower U key = u "bureanumber") then Ok transformed_data
  else
    let key := rename_alias key in
    let snake := snake_key key in
    if bool_decide (snake ∈ date_fields) then
      bind (normalize_date key value) (fun v => Ok (<[snake := v]> transformed_data))
    else
      match value with
      | PList l =>
          if bool_decide (snake = u "special_marks") then
            match l with
            | [] => Ok (<[snake := PNone]> transformed_data)
            | _ => match str_items l with
                   | Some items => Ok (<[snake := PStr (join (u ",") items)]> transformed_data)
                   | None => Raise save_error
                   end
            end
          else Ok (<[snake := value]> transformed_data)
      | PNone | PStr [] => Ok (<[snake := PNone]> transformed_data)
      | _ => Ok (<[snake := value]> transformed_data)
      end.

Fixpoint transform_data (transformed_data : gmap str pyval) (items : list (str * pyval))
  : result (gmap str pyval) :=
  match items with
  | [] => Ok transformed_data
  | (key, value) :: rest =>
      bind (transform_item transformed_data key value) (fun td => transform_data td rest)
  end.

(** [dict.get(key)] *)
Definition dict_get (d : gmap str pyval) (key : str) : pyval := default PNone (d !! key).

(** The full-name step: [' '.join(name.split())]; a truthy value that is
    no [str] has no [split]. *)
Definition normalize_full_name (transformed_data : gmap str pyval) : result (gmap str pyval) :=
  match transformed_data !! u "full_name" with
  | Some v =>
      if truthy v then
        match v with
        | PStr s => Ok (<[u "full_name" := PStr (join (u " ") (split_ws U s))]> transformed_data)
        | _ => Raise save_error
        end
      else Ok transformed_data
  | None => Ok transformed_data
  end.

(** [create_or_update_record], up to the row it hands to the record store
    (the [UPDATE] or the [INSERT]); the payload is [record_data.items()]
    in order. *)
Definition create_or_update_record (bureau_number : str) (record_data : list (str * pyval))
  : result (gmap str pyval) :=
  bind (transform_data ∅ record_data) (fun transformed_data =>
    if negb (truthy (dict_get transformed_data (u "mse_date")))
    then Raise missing_mse_date
    else normalize_full_name transformed_data).
End Normaliser.

(** ** Taxonomy tables and the value mapper *)

Definition COMMON_VALUE_MAPPINGS : gmap str (gmap str str) :=
  list_to_map [
    (u "age_category", list_to_map [
       (u "adult", u "Взрослые");
       (u "child", u "Дети")]);
    (u "special_marks", list_to_map [
       (u "amputee", u "Ампутант");
       (u "prisoner", u "Лицо, находящееся в местах лишения свободы");
       (u "pni", u "Лицо, находящееся в ПНИ (ДДИ)");
       (u "other_institution", u "Лицо, находящееся в других стационарных учреждениях соцзащиты");
       (u "palliative", u "Нуждающийся в паллиативной помощи");
       (u "new_region", u "Житель новых регионов");
       (u "svo", u "Участник СВО")]);
    (u "military_registration", list_to_map [
       (u "registered", u "Состоящий на воинском учете");
       (u "obliged", u "Не состоящий на воинском учете, но обязанный состоять");
       (u "applying", u "Поступающий на воинский учет");
       (u "not_registered", u "Не состоящий на воинском учете")]);
    (u "mse_form", list_to_map [
       (u "in_person", u "Очно");
       (u "in_absentia", u "Заочно")]);
    (u "mse_form_change", list_to_map [
       (u "v", u "В");
       (u "g", u "Г");
       (u "d", u "Д");
       (u "e", u "Е");
       (u "zh", u "Ж")]);
    (u "prev_disability", list_to_map [
       (u "first", u "Первая");
       (u "second", u "Вторая");
       (u "third", u "Третья");
       (u "kri", u "КРИ");
       (u "not_set", u "Инвалидность не установлена");
       (u "supt_set", u "Установление СУПТ");
       (u "supt_not_set", u "СУПТ не установлена")]);
    (u "prev_disability_reason", list_to_map [
       (u "general_disease", u "Общее заболевание");
       (u "childhood", u "Инвалидность с детства");
       (u "professional_disease", u "Профессиональное заболевание");
       (u "work_injury", u "Трудовое увечье");
       (u "military_injury", u "Военная травма");
       (u "military_service", u "Заболевание получено в период военной службы");
       (u "other", u "Другое")]);
    (u "prev_disability_term", list_to_map [
       (u "1_year", u "1 год");
       (u "2_years", u "2 года");
       (u "5_years", u "5 лет");
       (u "until_14", u "До 14 лет");
       (u "until_18", u "До 18 лет");
       (u "indefinitely", u "Бессрочно")]);
    (u "current_disability", list_to_map [
       (u "first", u "Первая");
       (u "second", u "Вторая");
       (u "third", u "Третья");
       (u "kri", u "КРИ");
       (u "not_set", u "Инвалидность не установлена");
       (u "supt_set", u "Установление СУПТ");
       (u "supt_not_set", u "СУПТ не установлена")]);
    (u "current_disability_reason", list_to_map [
       (u "general_disease", u "Общее заболевание");
       (u "childhood", u "Инвалидность с детства");
       (u "professional_disease", u "Профессиональное заболевание");
       (u "work_injury", u "Трудовое увечье");
       (u "military_injury", u "Военная травма");
       (u "military_service", u "Заболевание получено в период военной службы");
       (u "other", u "Другое")]);
    (u "current_disability_term", list_to_map [
       (u "1_year", u "1 год");
       (u "2_years", u "2 года");
       (u "5_years", u "5 лет");
       (u "until_14", u "До 14 лет");
       (u "until_18", u "До 18 лет");
       (u "indefinitely", u "Бессрочно")]);
    (u "pdo_developed", list_to_map [
       (u "consent", u "Получено согласие");
       (u "refusal", u "Отказ")])
  ].

Definition BUREAU_VALUE_MAPPINGS : gmap str (gmap str str) :=
  list_to_map [
    (u "document_format", list_to_map [
       (u "paper_direction", u "Направление бумажное");
       (u "electronic_direction", u "Направление в электронном виде");
       (u "paper_application", u "Заявление бумажное");
       (u "epgu", u "Заявление ЕПГУ")]);
    (u "purpose", list_to_map [
       (u "disability_group", u "Группа инвалидности");
       (u "disabled_child", u "Категория 'ребенок-инвалид'");
       (u "disability_reason", u "Причина инвалидности");
       (u "disability_term", u "Срок инвалидности");
       (u "supt", u "Определение СУПТ");
       (u "ipra_development", u "Разработка ИПРА");
       (u "prp_development", u "Разработка ПРП");
       (u "death_reason", u "Определение причины смерти");
       (u "care_need", u "Определение нуждаемости в постоянном постороннем уходе");
       (u "new_certificate", u "Выдача новой справки об инвалидности");
       (u "duplicate_certificate", u "Выдача дубликата справки об инвалидности");
       (u "new_supt_certificate", u "Выдача новой справки о СУПТ");
       (u "duplicate_supt_certificate", u "Выдача дубликата справки о СУПТ");
       (u "ipra_changes", u "Внесение изменений в ИПРА");
       (u "prp_changes", u "Внесение изменений в ПРП")]);
    (u "mse_type", list_to_map [
       (u "primary", u "Первично");
       (u "repeat", u "Повторно");
       (u "early_repeat", u "Повторно (досрочно)")]);
    (u "ipra_direction", list_to_map [
       (u "regular", u "В очередной срок");
       (u "exclusively", u "Исключительно для разработки ИПРА");
       (u "health_change", u "Изменение состояния здоровья (повторно досрочно)")]);
    (u "ipra_contains_tsr", list_to_map [
       (u "yes", u "Да");
       (u "no", u "Нет")]);
    (u "ipra_changes", list_to_map [
       (u "anthropometric", u "Антропометрические данные");
       (u "personal", u "Персональные данные");
       (u "tsr_specs", u "Уточнение технических характеристик ТСР");
       (u "errors", u "Исправление технических ошибок");
       (u "maternal_capital", u "Материнский капитал")])
  ].

Definition EXPERT_VALUE_MAPPINGS : gmap str (gmap str str) :=
  list_to_map [
    (u "document_format", list_to_map [
       (u "paper_application", u "Заявление бумажное");
       (u "epgu", u "Заявление ЕПГУ")]);
    (u "procedure_type", list_to_map [
       (u "appeal", u "Обжалование");
       (u "control", u "Контроль");
       (u "pdo", u "ПДО")]);
    (u "purpose", list_to_map [
       (u "disability_group", u "Группа инвалидности");
       (u "disabled_child", u "Категория ребенок-инвалид");
       (u "disability_reason", u "Причина инвалидности");
       (u "disability_term", u "Срок инвалидности");
       (u "supt", u "Определение СУПТ");
       (u "care_need", u "Определение нуждаемости в постороннем уходе");
       (u "death_reason", u "Определение причины смерти");
       (u "ipra_development", u "Разработка ИПРА");
       (u "prp_development", u "Разработка ПРП");
       (u "other", u "Иное")]);
    (u "mse_type", list_to_map [
       (u "primary", u "Первично");
       (u "repeat", u "Повторно");
       (u "early_repeat", u "Повторно (досрочно)")]);
    (u "decision_changed_part", list_to_map [
       (u "disability_group", u "Группы инвалидности");
       (u "disabled_child", u "Категории ребенок-инвалид");
       (u "disability_term", u "Срока инвалидности");
       (u "disability_reason", u "Причины инвалидности");
       (u "ipra_development", u "Разработки ИПРА");
       (u "supt", u "Степени УПТ");
       (u "prp_development", u "ПРП");
       (u "other", u "Другие")]);
    (u "tsr_changed", list_to_map [
       (u "yes", u "Да")]);
    (u "sfr_appeal", list_to_map [
       (u "yes", u "Да")]);
    (u "changed", list_to_map [
       (u "yes", u "Да")])
  ].

(** [{**a, **b}]: the entries of [b] replace those of [a] field by field. *)
Definition dict_merge {V} (a b : gmap str V) : gmap str V := b ∪ a.

(** [get_value_mappings] *)
Definition get_value_mappings (bureau_number : str) : gmap str (gmap str str) :=
  if startswith bureau_number (u "expert_")
  then dict_merge COMMON_VALUE_MAPPINGS EXPERT_VALUE_MAPPINGS
  else dict_merge COMMON_VALUE_MAPPINGS BUREAU_VALUE_MAPPINGS.

Definition nonempty (s : str) : bool := match s with [] => false | _ => true end.

Section Mapper.
Variable U : unicode_data.

(** [map_value(bureau_number, field_name, value: Optional[str]) -> str] *)
Definition map_value (bureau_number field_name : str) (value : option str) : str :=
  match value with
  | None | Some [] => []
  | Some value =>
      let mappings := get_value_mappings bureau_number in
      match mappings !! field_name with
      | Some mapping =>
          if contains_char 44 value then
            join (u ", ")
              (flat_map (fun v => if nonempty (strip U v)
                                  then [default (strip U v) (mapping !! strip U v)]
                                  else [])
                        (split_on 44 value))
          else default value (mapping !! value)
      | None => value
      end
  end.
End Mapper.

(** ** Sheets (the part of an openpyxl worksheet the builder touches) *)

Record Font := mk_font { bold : bool }.
Record Alignment := mk_alignment {
  horizontal : option str; vertical : option str; wrap_text : bool }.
Record Border := mk_border {
  border_left : option str; border_right : option str;
  border_top : option str; border_bottom : option str }.

Definition THIN_BORDER : Border :=
  mk_border (Some (u "thin")) (Some (u "thin")) (Some (u "thin")) (Some (u "thin")).
Definition HEADER_FONT : Font := mk_font true.
Definition HEADER_ALIGNMENT : Alignment :=
  mk_alignment (Some (u "center")) (Some (u "center")) true.
Definition CELL_ALIGNMENT : Alignment :=
  mk_alignment (Some (u "left")) (Some (u "center")) true.

Record Cell := mk_cell {
  cell_value : pyval; cell_font : Font; cell_alignment : Alignment; cell_border : Border }.

(** A cell as openpyxl creates it. *)
Definition blank_cell : Cell :=
  mk_cell PNone (mk_font false) (mk_alignment None None false) (mk_border None None None None).

(** A column width: the [int] 15 or 50, or a [float]. *)
Inductive width :=
| W_int (z : Z)
| W_float (f : float).

(** A range of cells, ["A1:Z5"] as (first column, first row, last column,
    last row); a column is named by its index, not by its letter. *)
Definition cell_range : Type := nat * nat * nat * nat.

Record Worksheet := mk_ws {
  cells : gmap (nat * nat) Cell;          (* by (row, column), from 1 *)
  max_row : nat;                          (* the largest row and column of a cell, *)
  max_column : nat;                       (* kept up to date as cells are created *)
  merged_cells : list cell_range;
  column_width : gmap nat width;          (* column_dimensions[letter].width *)
  auto_filter_ref : option cell_range;
  freeze_panes : option (nat * nat)       (* "A2" is (row 2, column 1) *)
}.

(** [workbook.create_sheet(...)] gives an empty sheet. *)
Definition new_sheet : Worksheet := mk_ws ∅ 1 1 [] ∅ None None.

Definition get_cell (ws : Worksheet) (row col : nat) : Cell :=
  default blank_cell (cells ws !! (row, col)).

Definition put_cell (ws : Worksheet) (row col : nat) (c : Cell) : Worksheet :=
  mk_ws (<[(row, col) := c]> (cells ws))
        (Nat.max row (max_row ws)) (Nat.max col (max_column ws))
        (merged_cells ws) (column_width ws) (auto_filter_ref ws) (freeze_panes ws).

(** [worksheet.cell(row=, column=, value=)]: the cell is created when it is
    missing and takes the value unless that is [None]. *)
Definition ws_cell (ws : Worksheet) (row col : nat) (v : pyval) : Worksheet :=
  let c := get_cell ws row col in
  put_cell ws row col
    match v with
    | PNone => c
    | _ => mk_cell v (cell_font c) (cell_alignment c) (cell_border c)
    end.

Definition set_font (f : Font) (c : Cell) : Cell :=
  mk_cell (cell_value c) f (cell_alignment c) (cell_border c).
Definition set_alignment (a : Alignment) (c : Cell) : Cell :=
  mk_cell (cell_value c) (cell_font c) a (cell_border c).
Definition set_border (b : Border) (c : Cell) : Cell :=
  mk_cell (cell_value c) (cell_font c) (cell_alignment c) b.

(** An attribute assignment on the cell at (row, col). *)
Definition update_cell (ws : Worksheet) (row col : nat) (f : Cell -> Cell) : Worksheet :=
  put_cell ws row col (f (get_cell ws row col)).

Definition set_width (ws : Worksheet) (col : nat) (w : width) : Worksheet :=
  mk_ws (cells ws) (max_row ws) (max_column ws) (merged_cells ws)
        (<[col := w]> (column_width ws)) (auto_filter_ref ws) (freeze_panes ws).

Definition merge_cells (ws : Worksheet) (r : cell_range) : Worksheet :=
  mk_ws (cells ws) (max_row ws) (max_column ws) (merged_cells ws ++ [r])
        (column_width ws) (auto_filter_ref ws) (freeze_panes ws).

Definition set_filter_and_freeze (ws : Worksheet) (r : cell_range) (pane : nat * nat)
  : Worksheet :=
  mk_ws (cells ws) (max_row ws) (max_column ws) (merged_cells ws)
        (column_width ws) (Some r) (Some pane).

(** [enumerate(l, start)] *)
Definition enumerate {A} (start : nat) (l : list A) : list (nat * A) :=
  combine (seq start (length l)) l.

(** [int] to [float]; exact below 2^53. *)
Fixpoint float_of_pos (p : positive) : float :=
  match p with
  | xH => 1%float
  | xO q => (2 * float_of_pos q)%float
  | xI q => (2 * float_of_pos q + 1)%float
  end.

Definition float_of_nat (n : nat) : float :=
  match N.of_nat n with
  | N0 => 0%float
  | Npos p => float_of_pos p
  end.

(** [adjusted_width = (max_length + 2) * 1.2] and
    [min(adjusted_width, 50)]: the [int] 50 only when it is smaller. *)
Definition adjusted_width (max_length : nat) : float :=
  (float_of_nat (max_length + 2) * 1.2)%float.

Definition capped_width (max_length : nat) : width :=
  if PrimFloat.ltb 50%float (adjusted_width max_length)
  then W_int 50
  else W_float (adjusted_width max_length).

(** ** Rows of the record store

    A row as [get_records] returns it and the export formats it:
    [bureau_number] is [NOT NULL], every other column the builder reads is
    text or [NULL]. *)
Record record_row := mk_row {
  bureau_number : str;
  fields : gmap str (option str)
}.

(** [record.get(key)] *)
Definition rec_get (r : record_row) (key : string) : option str :=
  default None (fields r !! u key).

(** [record.get(key, "")] *)
Definition rec_get_or_empty (r : record_row) (key : string) : option str :=
  default (Some []) (fields r !! u key).

(** [a or b] *)
Definition py_or (a b : option str) : option str :=
  match a with
  | Some (_ :: _) => a
  | _ => b
  end.

Definition opt_val (o : option str) : pyval :=
  match o with
  | Some s => PStr s
  | None => PNone
  end.

Definition common_headers (is_all_records : bool) : list str :=
  [ if is_all_records then u "Источник" else u "№ п/п";
    u "ФИО";
    u "Дата рождения";
    u "СНИЛС";
    u "Дата проведения МСЭ";
    u "Дата вынесения решения";
    u "Дата регистрации направления";
    u "Возрастная категория";
    u "Особые отметки";
    u "Воинский учет";
    u "Формат документа";
    u "Цель освидетельствования";
    u "МСЭ проводится";
    u "Форма проведения МСЭ";
    u "Изменение формы проведения МСЭ";
    u "Инвалидность (предыдущая МСЭ)";
    u "Причина инвалидности (предыдущая МСЭ)";
    u "Срок инвалидности (предыдущая МСЭ)";
    u "Инвалидность (текущая МСЭ)";
    u "Причина инвалидности (текущая МСЭ)";
    u "Срок инвалидности (текущая МСЭ)";
    u "Диагноз основной (с шифром МКБ)";
    u "ПДО разработана" ].

Definition expert_headers : list str :=
  [ u "Порядок проведения МСЭ";
    u "Решение изменено в части";
    u "Из них изменено в части ТСР";
    u "МСЭ по обращению ОСФР";
    u "Из них изменено" ].

Definition bureau_headers : list str :=
  [ u "Разработана ИПРА по направлению";
    u "ИПРА содержит ТСР";
    u "Внесение изменений в ИПРА" ].

(** [is_expert]: decided by the first record, [False] for an empty batch. *)
Definition batch_is_expert (records : list record_row) : bool :=
  match records with
  | [] => false
  | first_record :: _ => startswith (bureau_number first_record) (u "expert_")
  end.

Definition sheet_headers (records : list record_row) (is_all_records : bool) : list str :=
  common_headers is_all_records
    ++ (if batch_is_expert records then expert_headers else bureau_headers).

(** The first column in the consolidated sheet. *)
Definition source_label (bureau_number : str) : str :=
  if startswith bureau_number (u "bureau_")
  then u "Бюро №" ++ nth 1 (split_on 95 bureau_number) []
  else if startswith bureau_number (u "expert_")
  then u "ЭС №" ++ nth 1 (split_on 95 bureau_number) []
  else bureau_number.

Section Builder.
Variable U : unicode_data.

Definition mapped (r : record_row) (field : string) (value : option str) : pyval :=
  PStr (map_value U (bureau_number r) (u field) value).

Definition dated (value : option str) : pyval :=
  PStr (format_excel_date U (opt_val value)).

(** The values one record puts in its row, column 1 first. *)
Definition record_cells (is_all_records is_expert : bool) (row_num : nat) (record : record_row)
  : list pyval :=
  [ if is_all_records then PStr (source_label (bureau_number record))
    else PInt (Z.of_nat row_num - 1);
    opt_val (py_or (py_or (rec_get record "fullName") (rec_get record "full_name")) (Some []));
    dated (py_or (rec_get record "birthDate") (rec_get record "birth_date"));
    opt_val (rec_get_or_empty record "snils");
    dated (py_or (rec_get record "mseDate") (rec_get record "mse_date"));
    dated (py_or (rec_get record "decisionDate") (rec_get record "decision_date"));
    dated (py_or (rec_get record "regDate") (rec_get record "reg_date"));
    mapped record "age_category"
      (py_or (rec_get record "ageCategory") (rec_get record "age_category"));
    PStr (join (u "; ")
      (flat_map (fun mark => if nonempty (strip U mark)
                             then [map_value U (bureau_number record) (u "special_marks")
                                     (Some (strip U mark))]
                             else [])
         (split_on 44
            (default [] (py_or (py_or (rec_get record "specialMarks")
                                      (rec_get record "special_marks")) (Some []))))));
    mapped record "military_registration"
      (py_or (rec_get record "militaryRegistration") (rec_get record "military_registration"));
    mapped record "document_format"
      (py_or (rec_get record "documentFormat") (rec_get record "document_format"));
    mapped record "purpose" (rec_get record "purpose");
    mapped record "mse_type" (py_or (rec_get record "mseType") (rec_get record "mse_type"));
    mapped record "mse_form" (py_or (rec_get record "mseForm") (rec_get record "mse_form"));
    mapped record "mse_form_change"
      (py_or (rec_get record "mseFormChange") (rec_get record "mse_form_change"));
    mapped record "prev_disability"
      (py_or (rec_get record "prevDisability") (rec_get record "prev_disability"));
    mapped record "prev_disability_reason"
      (py_or (rec_get record "prevDisabilityReason") (rec_get record "prev_disability_reason"));
    mapped record "prev_disability_term"
      (py_or (rec_get record "prevDisabilityTerm") (rec_get record "prev_disability_term"));
    mapped record "current_disability"
      (py_or (rec_get record "currentDisability") (rec_get record "current_disability"));
    mapped record "current_disability_reason"
      (py_or (rec_get record "currentDisabilityReason")
             (rec_get record "current_disability_reason"));
    mapped record "current_disability_term"
      (py_or (rec_get record "currentDisabilityTerm") (rec_get record "current_disability_term"));
    opt_val (py_or (py_or (rec_get record "mainDiagnosis") (rec_get record "main_diagnosis"))
                   (Some []));
    mapped record "pdo_developed"
      (py_or (rec_get record "pdoDeveloped") (rec_get record "pdo_developed")) ]
  ++ (if is_expert then
        [ mapped record "procedure_type"
            (py_or (rec_get record "procedureType") (rec_get record "procedure_type"));
          mapped record "decision_changed_part"
            (py_or (rec_get record "decisionChangedPart") (rec_get record "decision_changed_part"));
          mapped record "tsr_changed"
            (py_or (rec_get record "tsrChanged") (rec_get record "tsr_changed"));
          mapped record "sfr_appeal"
            (py_or (rec_get record "sfrAppeal") (rec_get record "sfr_appeal"));
          mapped record "changed" (rec_get record "changed") ]
      else
        [ mapped record "ipra_direction"
            (py_or (rec_get record "ipraDirection") (rec_get record "ipra_direction"));
          mapped record "ipra_contains_tsr"
            (py_or (rec_get record "ipraContainsTsr") (rec_get record "ipra_contains_tsr"));
          mapped record "ipra_changes"
            (py_or (rec_get record "ipraChanges") (rec_get record "ipra_changes")) ]).

(** [worksheet.cell(row=row_num, column=..., value=...)] for each value. *)
Definition write_cells (ws : Worksheet) (row_num : nat) (values : list pyval) : Worksheet :=
  fold_left (fun ws '(col_num, v) => ws_cell ws row_num col_num v) (enumerate 1 values) ws.

(** The header loop. *)
Definition write_headers (ws : Worksheet) (headers : list str) : Worksheet :=
  fold_left
    (fun ws '(col_num, header) =>
       let ws := ws_cell ws 1 col_num (PStr header) in
       let ws := update_cell ws 1 col_num (set_font HEADER_FONT) in
       let ws := update_cell ws 1 col_num (set_alignment HEADER_ALIGNMENT) in
       update_cell ws 1 col_num (set_border THIN_BORDER))
    (enumerate 1 headers) ws.

(** The [if not records:] branch. *)
Definition write_placeholder (ws : Worksheet) (headers : list str) : Worksheet :=
  let ws := merge_cells ws (1, 2, 1, 2)%nat in
  let ws := ws_cell ws 2 1 (PStr (u "Нет записей")) in
  let ws := update_cell ws 2 1
              (set_alignment (mk_alignment (Some (u "center")) (Some (u "center")) true)) in
  let ws := update_cell ws 2 1 (set_border THIN_BORDER) in
  let ws := fold_left
              (fun ws col_num =>
                 update_cell (ws_cell ws 2 col_num (PStr [])) 2 col_num (set_border THIN_BORDER))
              (seq 2 (length headers - 1)) ws in
  fold_left (fun ws col_num => set_width ws col_num (W_int 15)) (seq 1 (length headers)) ws.

(** [for row_num, record in enumerate(records, 2)] *)
Definition write_records (ws : Worksheet) (records : list record_row)
    (is_all_records is_expert : bool) : Worksheet :=
  fold_left
    (fun ws '(row_num, record) =>
       write_cells ws row_num (record_cells is_all_records is_expert row_num record))
    (enumerate 2 records) ws.

(** [for row in worksheet.iter_rows(): for cell in row:] every cell of
    the used range, created when missing; the range is fixed when the
    loop starts. *)
Definition restyle_cells (ws : Worksheet) : Worksheet :=
  let rows := seq 1 (max_row ws) in
  let cols := seq 1 (max_column ws) in
  fold_left
    (fun ws row =>
       fold_left
         (fun ws col =>
            let ws := update_cell ws row col (set_alignment CELL_ALIGNMENT) in
            update_cell ws row col (set_border THIN_BORDER))
         cols ws)
    rows ws.

(** The longest [len(str(cell.value))] among the cells of a column. *)
Definition column_max_length (ws : Worksheet) (rows : list nat) (col : nat) : nat :=
  fold_left
    (fun max_length row =>
       let n := length (py_str U (cell_value (get_cell ws row col))) in
       if Nat.ltb max_length n then n else max_length)
    rows 0%nat.

(** [for column in worksheet.columns:] *)
Definition autosize_columns (ws : Worksheet) : Worksheet :=
  let rows := seq 1 (max_row ws) in
  let cols := seq 1 (max_column ws) in
  fold_left
    (fun ws col => set_width ws col (capped_width (column_max_length ws rows col)))
    cols ws.

(** [create_excel_worksheet] *)
Definition create_excel_worksheet (worksheet : Worksheet) (records : list record_row)
    (is_all_records : bool) : Worksheet :=
  let headers := sheet_headers records is_all_records in
  let is_expert := batch_is_expert records in
  let ws := write_headers worksheet headers in
  match records with
  | [] => write_placeholder ws headers
  | _ :: _ =>
      let ws := write_records ws records is_all_records is_expert in
      let ws := restyle_cells ws in
      let ws := autosize_columns ws in
      set_filter_and_freeze ws (1, 1, length headers, length records + 1)%nat (2, 1)%nat
  end.
End Builder.

(** ** Workbook assembler *)

Record Settings := mk_settings {
  bureau_count : Z;
  excluded_bureaus : list Z;
  experts : list Z
}.

(** The defaults of [class Settings]. *)
Definition default_settings : Settings :=
  mk_settings 42 [25; 26; 27; 31; 41]%Z [1; 2; 3; 5; 8; 9]%Z.

Definition bureau_title (i : Z) : str := slice_to 31 (u "Бюро №" ++ int_to_str i).
Definition expert_title (e : Z) : str := slice_to 31 (u "ЭС №" ++ int_to_str e).

(** The bureaus that get a sheet: [range(1, bureau_count + 1)] without the
    excluded ones. *)
Definition sheet_bureaus (settings : Settings) : list Z :=
  filter (fun i => i ∉ excluded_bureaus settings) (seqZ 1 (bureau_count settings)).

Definition records_of (records : list record_row) (unit : str) : list record_row :=
  filter (fun r => bureau_number r = unit) records.

Section Assembler.
Variable U : unicode_data.
Variable settings : Settings.

(** [ws = workbook.create_sheet(title=...)] followed by
    [create_excel_worksheet(ws, ...)]: the sheet joins the workbook at
    the end under that title. *)
Definition add_sheet (workbook : list (str * Worksheet)) (title : str)
    (records : list record_row) (is_all_records : bool) : list (str * Worksheet) :=
  workbook ++ [(title, create_excel_worksheet U new_sheet records is_all_records)].

(** [create_excel_workbook]: the sheets in the order they were created. *)
Definition create_excel_workbook (records : list record_row) (bureau_number : str)
  : list (str * Worksheet) :=
  let workbook := [] in
  if bool_decide (bureau_number = u "all") then
    let workbook := add_sheet workbook (slice_to 31 (u "Все записи")) records true in
    let workbook :=
      fold_left
        (fun workbook i =>
           if bool_decide (i ∈ excluded_bureaus settings) then workbook
           else add_sheet workbook (bureau_title i)
                  (records_of records (u "bureau_" ++ int_to_str i)) false)
        (seqZ 1 (bureau_count settings)) workbook in
    fold_left
      (fun workbook expert =>
         add_sheet workbook (expert_title expert)
           (records_of records (u "expert_" ++ int_to_str expert)) false)
      (experts settings) workbook
  else
    let sheet_name :=
      if startswith bureau_number (u "bureau_")
      then slice_to 31 (u "Бюро №" ++ nth 1 (split_on 95 bureau_number) [])
      else if startswith bureau_number (u "expert_")
      then slice_to 31 (u "ЭС №" ++ nth 1 (split_on 95 bureau_number) [])
      else slice_to 31 (u "Записи") in
    add_sheet workbook sheet_name records false.
End Assembler.

(** ** Vocabulary of the statements *)

Section Vocabulary.
Variable U : unicode_data.

(** The canonical field a payload key is stored under: none for the key
    the loop skips. *)
Definition item_target (key : str) : option str :=
  if bool_decide (lower U key = u "bureanumber") then None
  else Some (snake_key U (rename_alias key)).

(** A payload gives no examination date: every item stored under
    [mse_date], if there is one, is [None] or the empty string. *)
Definition lacks_field (f : str) (record_data : list (str * pyval)) : Prop :=
  forall key value, In (key, value) record_data -> item_target key = Some f ->
                    value = PNone \/ value = PStr [].

(** No later item of the payload is stored under [f]. *)
Definition not_stored_later (f : str) (post : list (str * pyval)) : Prop :=
  forall key value, In (key, value) post -> item_target key <> Some f.
End Vocabulary.

(** [needle in text] *)
Definition mentions (text needle : str) : Prop :=
  exists before after, text = before ++ needle ++ after.



(** The rendering of a set-valued field as the specification words it:
    split on commas, trim each token, drop the empty ones, map every token
    (an unknown code to itself), join with a comma and a space. *)
Definition render_codes (U : unicode_data) (mapping : gmap str str) (raw : str) : str :=
  join (u ", ")
    (map (fun token => default token (mapping !! token))
         (List.filter nonempty (map (strip U) (split_on 44 raw)))).

(** A separator of the three date formats. *)
Definition is_sep (c : N) : bool := (c =? 45) || (c =? 46) || (c =? 47).

(** [%d] and [%m] take one character of the text, or two of which the
    second is no separator. *)
Definition one_or_two (s t r : str) : Prop :=
  (exists a, t = [a] /\ s = a :: r) \/
  (exists a b, t = [a; b] /\ s = a :: b :: r /\ is_sep b = false).

(** The second or the third character of the text is the separator [c]. *)
Definition sep_at_1_or_2 (c : N) (s : str) : Prop :=
  (exists a r, s = a :: c :: r) \/ (exists a b r, s = a :: b :: c :: r /\ is_sep b = false).

Local Close Scope N_scope.
Local Open Scope nat_scope.

(** *** Sheets *)

(** What [worksheet.cell(..., value=v)] does to the cell. *)
Definition set_val (v : pyval) (c : Cell) : Cell :=
  match v with
  | PNone => c
  | _ => mk_cell v (cell_font c) (cell_alignment c) (cell_border c)
  end.

(** What the header loop does to a cell. *)
Definition header_cell (h : str) (c : Cell) : Cell :=
  set_border THIN_BORDER (set_alignment HEADER_ALIGNMENT (set_font HEADER_FONT (set_val (PStr h) c))).

(** What the restyling loop does to a cell. *)
Definition restyled (c : Cell) : Cell :=
  set_border THIN_BORDER (set_alignment CELL_ALIGNMENT c).

(** Two sheets that differ only in their cells and in the used range. *)
Definition same_settings (a b : Worksheet) : Prop :=
  merged_cells a = merged_cells b /\ column_width a = column_width b /\
  auto_filter_ref a = auto_filter_ref b /\ freeze_panes a = freeze_panes b.

(** One row written left to right from column [start], [g x] applied to
    the cell that takes [x]. *)
Definition row_fold {A} (g : A -> Cell -> Cell) (r : nat) (start : nat) (xs : list A)
    (ws : Worksheet) : Worksheet :=
  fold_left (fun ws '(c, x) => put_cell ws r c (g x (get_cell ws r c)))
            (combine (seq start (length xs)) xs) ws.

(** The rows of a batch written top to bottom from row [start]. *)
Definition rows_fold (cells_of : nat -> record_row -> list pyval) (start : nat)
    (records : list record_row) (ws : Worksheet) : Worksheet :=
  fold_left (fun ws '(row_num, record) => write_cells ws row_num (cells_of row_num record))
            (combine (seq start (length records)) records) ws.

(** [f] applied to the cells of a row, and of a block of rows. *)
Definition restyle_row (f : Cell -> Cell) (row : nat) (cols : list nat) (ws : Worksheet)
  : Worksheet :=
  fold_left (fun ws col => put_cell ws row col (f (get_cell ws row col))) cols ws.

Definition restyle_rows (f : Cell -> Cell) (rows cols : list nat) (ws : Worksheet)
  : Worksheet :=
  fold_left (fun ws row => restyle_row f row cols ws) rows ws.

(** [len(str(cell.value))] of the cell at (row, col). *)
Definition cell_len (U : unicode_data) (ws : Worksheet) (col row : nat) : nat :=
  length (py_str U (cell_value (get_cell ws row col))).

(** The width loop over the columns [cols], measuring the rows [rows]. *)
Definition widths_fold (U : unicode_data) (rows cols : list nat) (ws : Worksheet)
  : Worksheet :=
  fold_left (fun ws col => set_width ws col (capped_width (column_max_length U ws rows col)))
            cols ws.

(** The stages of [create_excel_worksheet] on a new sheet. *)
Definition headed_sheet (records : list record_row) (is_all : bool) : Worksheet :=
  write_headers new_sheet (sheet_headers records is_all).

Definition filled_sheet (U : unicode_data) (records : list record_row) (is_all : bool)
  : Worksheet :=
  write_records U (headed_sheet records is_all) records is_all (batch_is_expert records).

Definition styled_sheet (U : unicode_data) (records : list record_row) (is_all : bool)
  : Worksheet :=
  restyle_cells (filled_sheet U records is_all).

(** The values the builder writes, row by row: the header row, then one
    row for each record. *)
Definition sheet_rows (U : unicode_data) (records : list record_row) (is_all_records : bool)
  : list (list pyval) :=
  map PStr (sheet_headers records is_all_records)
  :: imap (fun i record =>
             record_cells U is_all_records (batch_is_expert records) (i + 2) record)
          records.

(** The longest [len(str(value))] among the values of column [col]. *)
Definition longest (U : unicode_data) (rows : list (list pyval)) (col : nat) : nat :=
  max_list (map (fun rowvals => length (py_str U (nth (col - 1) rowvals PNone))) rows).

(** The width as the specification words it: the longest length times 1.2,
    plus 2, capped at 50. *)
Definition spec_width (max_length : nat) : width :=
  let w := (float_of_nat max_length * 1.2 + 2)%float in
  if PrimFloat.ltb 50%float w then W_int 50 else W_float w.

(** The titles of a workbook, in sheet order. *)
Definition sheetnames (workbook : list (str * Worksheet)) : list str := map fst workbook.

(** A stored row used in the examples. *)
Definition example_row : record_row :=
  mk_row (u "bureau_3")
    (list_to_map [(u "fullName", Some (u "Ivan Petrov"));
                  (u "mseDate", Some (u "15.01.2024"));
                  (u "specialMarks", Some (u "amputee,svo"))]).

Local Close Scope nat_scope.
Local Open Scope N_scope.

(** ** Record queries: [clean_snils], [get_records], [count_records]

    The two query functions are modelled up to the statement and the
    parameters they hand to the connection. *)

(** [c.isdigit()]: the ASCII digits, and outside ASCII what the tables of
    the interpreter say. *)
Definition isdigit (ucd_isdigit : N -> bool) (c : N) : bool :=
  if is_ascii c then in_range 48 57 c else ucd_isdigit c.

(** [clean_snils] *)
Definition clean_snils (ucd_isdigit : N -> bool) (snils : str) : str :=
  match snils with
  | [] => []
  | _ => List.filter (isdigit ucd_isdigit) snils
  end.

Section Queries.
Variable U : unicode_data.
Variable ucd_isdigit : N -> bool.

(** [bureau_number and bureau_number.lower() != "omo"] *)
Definition names_unit (bureau_number : option str) : bool :=
  match bureau_number with
  | Some ((_ :: _) as bureau_number) => negb (bool_decide (lower U bureau_number = u "omo"))
  | _ => false
  end.

(** The condition on the SNILS and the name; the two placeholders are
    [param_count] and [param_count + 1]. *)
Definition search_condition (param_count : nat) : str :=
  (u "
                    (REPLACE(REPLACE(snils, '-', ''), ' ', '') LIKE $") ++ int_to_str (Z.of_nat param_count)
  ++ (u " OR 
                    full_name ILIKE $") ++ int_to_str (Z.of_nat (param_count + 1))
  ++ (u ")
                ").

(** The block both [get_records] and [count_records] start with: the
    conditions, the parameters and [param_count] after the two [if]s. *)
Definition build_filter (bureau_number search_query : option str)
  : list str * list pyval * nat :=
  let conditions := [] in
  let params := [] in
  let param_count := 1%nat in
  let '(conditions, params, param_count) :=
    if names_unit bureau_number
    then (conditions ++ [u "bureau_number = $" ++ int_to_str (Z.of_nat param_count)],
          params ++ [opt_val bureau_number],
          (param_count + 1)%nat)
    else (conditions, params, param_count) in
  match search_query with
  | Some ((_ :: _) as search_query) =>
      let clean_search := clean_snils ucd_isdigit search_query in
      (conditions ++ [search_condition param_count],
       params ++ [PStr (u "%" ++ clean_search ++ u "%");
                  PStr (u "%" ++ search_query ++ u "%")],
       (param_count + 2)%nat)
  | _ => (conditions, params, param_count)
  end.

(** [where_clause]: the conditions joined with [AND] after [WHERE], and
    nothing when there is no condition. *)
Definition where_clause (conditions : list str) : str :=
  match conditions with
  | [] => []
  | _ => u " WHERE " ++ join (u " AND ") conditions
  end.

(** [count_records]: the statement and its parameters. *)
Definition count_records (bureau_number search_query : option str) : str * list pyval :=
  let '(conditions, params, _) := build_filter bureau_number search_query in
  (u "SELECT COUNT(*) FROM records " ++ where_clause conditions, params).

(** The text of [get_records] before the [WHERE] clause. *)
Definition select_records : str :=
  u "
            SELECT 
                id,
                bureau_number,
                full_name as " ++ [34] ++ u "fullName" ++ [34] ++ u ",
                birth_date as " ++ [34] ++ u "birthDate" ++ [34] ++ u ",
                snils,
                age_category as " ++ [34] ++ u "ageCategory" ++ [34] ++ u ",
                TO_CHAR(mse_date::date, 'YYYY-MM-DD') as " ++ [34] ++ u "mseDate" ++ [34] ++ u ",
                TO_CHAR(decision_date::date, 'YYYY-MM-DD') as " ++ [34] ++ u "decisionDate" ++ [34] ++ u ",
                TO_CHAR(reg_date::date, 'YYYY-MM-DD') as " ++ [34] ++ u "regDate" ++ [34] ++ u ",
                special_marks as " ++ [34] ++ u "specialMarks" ++ [34] ++ u ",
                military_registration as " ++ [34] ++ u "militaryRegistration" ++ [34] ++ u ",
                document_format as " ++ [34] ++ u "documentFormat" ++ [34] ++ u ",
                purpose,
                mse_type as " ++ [34] ++ u "mseType" ++ [34] ++ u ",
                mse_form as " ++ [34] ++ u "mseForm" ++ [34] ++ u ",
                mse_form_change as " ++ [34] ++ u "mseFormChange" ++ [34] ++ u ",
                prev_disability as " ++ [34] ++ u "prevDisability" ++ [34] ++ u ",
                prev_disability_reason as " ++ [34] ++ u "prevDisabilityReason" ++ [34] ++ u ",
                prev_disability_term as " ++ [34] ++ u "prevDisabilityTerm" ++ [34] ++ u ",
                current_disability as " ++ [34] ++ u "currentDisability" ++ [34] ++ u ",
                current_disability_reason as " ++ [34] ++ u "currentDisabilityReason" ++ [34] ++ u ",
                current_disability_term as " ++ [34] ++ u "currentDisabilityTerm" ++ [34] ++ u ",
                main_diagnosis as " ++ [34] ++ u "mainDiagnosis" ++ [34] ++ u ",
                pdo_developed as " ++ [34] ++ u "pdoDeveloped" ++ [34] ++ u ",
                procedure_type as " ++ [34] ++ u "procedureType" ++ [34] ++ u ",
                decision_changed_part as " ++ [34] ++ u "decisionChangedPart" ++ [34] ++ u ",
                tsr_changed as " ++ [34] ++ u "tsrChanged" ++ [34] ++ u ",
                sfr_appeal as " ++ [34] ++ u "sfrAppeal" ++ [34] ++ u ",
                changed,
                ipra_direction as " ++ [34] ++ u "ipraDirection" ++ [34] ++ u ",
                ipra_contains_tsr as " ++ [34] ++ u "ipraContainsTsr" ++ [34] ++ u ",
                ipra_changes as " ++ [34] ++ u "ipraChanges" ++ [34] ++ u "
            FROM records
            ".

(** [get_records]: the statement and its parameters. *)
Definition get_records (bureau_number : option str) (limit offset : option Z)
    (search_query : option str) (order_by : str) : str * list pyval :=
  let '(conditions, params, param_count) := build_filter bureau_number search_query in
  let query := select_records ++ where_clause conditions ++ (u "
            ") ++ order_by ++ (u "
            ") in
  let '(query, params, param_count) :=
    match limit with
    | Some limit =>
        (query ++ u " LIMIT $" ++ int_to_str (Z.of_nat param_count),
         params ++ [PInt limit], (param_count + 1)%nat)
    | None => (query, params, param_count)
    end in
  let '(query, params, param_count) :=
    match offset with
    | Some offset =>
        (query ++ u " OFFSET $" ++ int_to_str (Z.of_nat param_count),
         params ++ [PInt offset], (param_count + 1)%nat)
    | None => (query, params, param_count)
    end in
  (query, params).
End Queries.

(** The default of the [order_by] argument. *)
Definition default_order : str := u "ORDER BY mse_date DESC".

(** The numbers of the placeholders [$n] of a statement, in the order they
    occur. *)
Fixpoint leading_number (s : str) (acc : N) : N :=
  match s with
  | c :: tl => if in_range 48 57 c then leading_number tl (acc * 10 + (c - 48)) else acc
  | [] => acc
  end.

Fixpoint placeholders (s : str) : list N :=
  match s with
  | [] => []
  | c :: tl => if c =? 36 then leading_number tl 0 :: placeholders tl else placeholders tl
  end.

(** A word of [s.split()]: a run of characters without white space, not
    empty. *)
Definition word (U : unicode_data) (w : str) : Prop :=
  w <> [] /\ Forall (fun c => isspace U c = false) w.

(** The labels of the special marks. *)
Definition marks_labels : gmap str str :=
  default ∅ (COMMON_VALUE_MAPPINGS !! u "special_marks").

(** ** Default passwords ([init_default_passwords])

    The rows the function inserts, in order, as the pairs of a unit and a
    password it hands to the [INSERT] statements; [count] is the number of
    rows the table holds when it starts, and the two passwords are those
    of the settings. *)
Definition init_default_passwords (settings : Settings) (omo_password default_password : str)
    (count : Z) : list (str * str) :=
  if (0 <? count)%Z then []
  else
    let inserted := [(u "omo", omo_password)] in
    let inserted :=
      fold_left
        (fun inserted i =>
           if bool_decide (i ∈ excluded_bureaus settings) then inserted
           else inserted ++ [(u "bureau_" ++ int_to_str i, default_password)])
        (seqZ 1 (bureau_count settings)) inserted in
    fold_left
      (fun inserted expert => inserted ++ [(u "expert_" ++ int_to_str expert, default_password)])
      (experts settings) inserted.

(** The sheet of a unit. *)
Definition sheet_of (U : unicode_data) (records : list record_row) : Worksheet :=
  create_excel_worksheet U new_sheet records false.

(** ** Endpoints

    A JSON object is the list of the items of its [dict], the keys
    distinct, in their order. *)

(** [d.get(key)] *)
Definition json_get (d : list (str * pyval)) (key : str) : pyval :=
  match List.find (fun item => bool_decide (item.1 = key)) d with
  | Some item => item.2
  | None => PNone
  end.

(** [if key in d: del d[key]] *)
Definition json_del (d : list (str * pyval)) (key : str) : list (str * pyval) :=
  List.filter (fun item => negb (bool_decide (item.1 = key))) d.

(** [d[key] = value] for a key the object has: the item keeps its place. *)
Definition json_set (d : list (str * pyval)) (key : str) (value : pyval)
  : list (str * pyval) :=
  map (fun item => if bool_decide (item.1 = key) then (key, value) else item) d.

Definition no_bureau : HTTPException := mk_http 400 (u "Не указано бюро").

(** The [except Exception] handler of the endpoint that saves. *)
Definition endpoint_save_error : HTTPException :=
  mk_http 500 (u "Ошибка сервера при сохранении записи").

(** [create_or_update_record_endpoint] for a request without [recordId],
    up to the row [create_or_update_record] hands to the record store;
    [bureau_number] is [data.get("bureauNumber")], a text when it is
    given, and [record_data] is [data.get("record", {})]. *)
Definition create_or_update_record_endpoint (U : unicode_data) (bureau_number : option str)
    (record_data : list (str * pyval)) : result (gmap str pyval) :=
  match bureau_number with
  | None | Some [] => Raise no_bureau
  | Some bureau_number =>
      let record_data := json_del record_data (u "bureauNumber") in
      if negb (truthy (json_get record_data (u "mseDate"))) then Raise missing_mse_date
      else
        bind (if truthy (json_get record_data (u "fullName")) then
                match json_get record_data (u "fullName") with
                | PStr full_name =>
                    Ok (json_set record_data (u "fullName")
                          (PStr (join (u " ") (split_ws U full_name))))
                | _ => Raise endpoint_save_error         (* no [split] *)
                end
              else Ok record_data)
             (fun record_data => create_or_update_record U bureau_number record_data)
  end.

Definition record_not_found : HTTPException := mk_http 404 (u "Запись не найдена").

Section DeleteEndpoint.
Context {store : Type}.
Variable U : unicode_data.

(** The two functions of the record store the endpoint calls:
    [get_record_by_id] reads, [delete_record] may change the store. *)
Variable get_record_by_id : store -> Z -> result (option record_row).
Variable delete_record : store -> Z -> result bool * store.

(** [delete_record_endpoint]: the outcome and the store it leaves. *)
Definition delete_record_endpoint (db : store) (unit_name : str) (record_id : Z)
  : result () * store :=
  match get_record_by_id db record_id with
  | Raise e => (Raise e, db)
  | Ok None => (Raise record_not_found, db)
  | Ok (Some record) =>
      if negb (bool_decide (lower U unit_name = u "omo"))
         && negb (bool_decide (bureau_number record = unit_name))
      then (Raise record_not_found, db)
      else
        match delete_record db record_id with
        | (Raise e, db) => (Raise e, db)
        | (Ok success, db) =>
            if success then (Ok (), db) else (Raise record_not_found, db)
        end
  end.
End DeleteEndpoint.

(** The table [records] as a map from [id] to row, and the two functions
    on it: [SELECT * FROM records WHERE id = $1] and
    [DELETE FROM records WHERE id = $1], whose status always holds the
    word [DELETE]. *)
Definition table_get_record_by_id (db : gmap Z record_row) (record_id : Z)
  : result (option record_row) := Ok (db !! record_id).

Definition table_delete_record (db : gmap Z record_row) (record_id : Z)
  : result bool * gmap Z record_row := (Ok true, delete record_id db).

(** The keys [export_records] treats as dates, compared in lower case. *)
Definition export_date_keys : list str :=
  [u "msedate"; u "decisiondate"; u "regdate"; u "birthdate";
   u "mse_date"; u "decision_date"; u "reg_date"; u "birth_date"].

(** The loop of [export_records] over the items of one record. *)
Definition format_record (U : unicode_data) (record : list (str * pyval))
  : list (str * pyval) :=
  map (fun '(key, value) =>
         if bool_decide (lower U key ∈ export_date_keys)
         then (key, PStr (format_excel_date U value))
         else (key, value))
      record.

Definition no_password : HTTPException := mk_http 400 (u "Не указан пароль").
Definition bureau_not_found : HTTPException := mk_http 404 (u "Бюро не найдено").
Definition password_error : HTTPException :=
  mk_http 500 (u "Ошибка сервера при обновлении пароля").

Section PasswordEndpoints.
Context {store : Type}.

(** [get_password]: the password of a unit, [None] when the unit has no
    row and when the query fails.  [upsert_password] is the [INSERT ...
    ON CONFLICT ... DO UPDATE] of the endpoint: the store it leaves, and
    [false] when the statement raises. *)
Variable get_password : store -> str -> option str.
Variable upsert_password : store -> str -> pyval -> bool * store.

(** [get_password_endpoint] *)
Definition get_password_endpoint (db : store) (bureau_number : str) : result str :=
  match get_password db bureau_number with
  | None | Some [] => Raise bureau_not_found
  | Some password => Ok password
  end.

(** [update_password_endpoint]; [data] is the JSON object of the
    request. *)
Definition update_password_endpoint (db : store) (bureau_number : str)
    (data : list (str * pyval)) : result () * store :=
  let new_password := json_get data (u "password") in
  if negb (truthy new_password) then (Raise no_password, db)
  else
    match get_password db bureau_number with
    | None | Some [] => (Raise bureau_not_found, db)
    | Some _ =>
        match upsert_password db bureau_number new_password with
        | (true, db) => (Ok (), db)
        | (false, db) => (Raise password_error, db)
        end
    end.
End PasswordEndpoints.

(** The table [passwords] as a map from unit to password, and the two
    functions on it, for a text as the new password. *)
Definition table_get_password (db : gmap str str) (bureau_number : str) : option str :=
  db !! bureau_number.

Definition table_upsert_password (db : gmap str str) (bureau_number : str) (password : pyval)
  : bool * gmap str str :=
  match password with
  | PStr password => (true, <[bureau_number := password]> db)
  | _ => (false, db)
  end.

Local Close Scope N_scope.
Local Open Scope nat_scope.

(** * Properties *)

Local Close Scope nat_scope.
Local Open Scope N_scope.

(** ** Text and dates on examples *)

Example u_cyrillic : u "Ам, №" = [1040; 1084; 44; 32; 8470].
Proof. reflexivity. Qed.

Example split_on_ex : split_on 44 (u "a,,b,") = [u "a"; []; u "b"; []].
Proof. reflexivity. Qed.

Example strip_ex : strip ascii_only (u "  a b ") = u "a b".
Proof. reflexivity. Qed.

Example split_ws_ex : split_ws ascii_only (u "  Ivan   Petrov  ") = [u "Ivan"; u "Petrov"].
Proof. reflexivity. Qed.

Example strptime_iso : strptime ascii_only Fmt_Ymd (u "2024-01-15") = Some (mk_date 2024 1 15).
Proof. reflexivity. Qed.
Example strptime_iso_short : strptime ascii_only Fmt_Ymd (u "2024-1-5") = Some (mk_date 2024 1 5).
Proof. reflexivity. Qed.
Example strptime_dmy : strptime ascii_only Fmt_dmY (u "15.01.2024") = Some (mk_date 2024 1 15).
Proof. reflexivity. Qed.
Example strptime_mdy : strptime ascii_only Fmt_mdY (u "01/15/2024") = Some (mk_date 2024 1 15).
Proof. reflexivity. Qed.
Example strptime_feb30 : strptime ascii_only Fmt_Ymd (u "2023-02-29") = None.
Proof. reflexivity. Qed.
Example strptime_trailing : strptime ascii_only Fmt_Ymd (u "2024-01-150") = None.
Proof. reflexivity. Qed.
Example strptime_month13 : strptime ascii_only Fmt_mdY (u "13/01/2024") = None.
Proof. reflexivity. Qed.
Example strftime_ex : strftime Fmt_dmY (mk_date 2024 1 5) = u "05.01.2024".
Proof. reflexivity. Qed.

(** ** Parsing and printing dates *)

Section StrptimeFacts.
Variable U : unicode_data.

Lemma decimal_digit_char v : v < 10 -> decimal U (digit_char v) = Some v.
Proof.
  intros Hv. unfold decimal, digit_char, is_ascii, ascii_digit.
  replace (48 + v <? 128) with true by (symmetry; apply N.ltb_lt; lia).
  replace ((48 <=? 48 + v) && (48 + v <=? 57)) with true.
  - f_equal. lia.
  - symmetry. apply andb_true_iff. split; apply N.leb_le; lia.
Qed.

Lemma isspace_digit_char v : v < 10 -> isspace U (digit_char v) = false.
Proof.
  intros Hv. unfold isspace, digit_char, is_ascii, ascii_isspace.
  replace (48 + v <? 128) with true by (symmetry; apply N.ltb_lt; lia).
  repeat (apply orb_false_iff; split); try apply andb_false_iff.
  - right. apply N.leb_gt. lia.
  - right. apply N.leb_gt. lia.
  - apply N.eqb_neq. lia.
Qed.

Lemma re_digit_digit_char v : v < 10 -> re_digit U (digit_char v) = true.
Proof.
  intros Hv. unfold re_digit. rewrite decimal_digit_char by done.
  apply bool_decide_eq_true. eauto.
Qed.

Lemma re_Y_pad4 {A} (k : str -> matcher A) y rest :
  m_bind (re_Y U) k (pad4 y ++ rest) = k (pad4 y) rest.
Proof.
  unfold m_bind, re_Y, m_bind, m_sat, m_ret, pad4. cbn [app flat_map].
  repeat (rewrite re_digit_digit_char by (apply N.mod_lt; lia); cbn [app flat_map]).
  rewrite !app_nil_r. reflexivity.
Qed.

Lemma py_int_pad4 y : y <= 9999 -> py_int U (pad4 y) = Some y.
Proof.
  intros Hy. unfold py_int, strip, rstrip, pad4.
  cbn [lstrip rev app].
  rewrite !isspace_digit_char by (apply N.mod_lt; lia).
  cbn [lstrip rev app].
  rewrite !isspace_digit_char by (apply N.mod_lt; lia).
  cbn [rev app int_digits].
  repeat (rewrite decimal_digit_char by (apply N.mod_lt; lia); cbn [int_digits]).
  f_equal.
  replace (y / 1000) with (y / 10 / 10 / 10) by (rewrite !N.Div0.div_div; reflexivity).
  replace (y / 100) with (y / 10 / 10) by (rewrite !N.Div0.div_div; reflexivity).
  pose proof (N.div_mod' y 10) as E1. pose proof (N.mod_lt y 10) as B1.
  pose proof (N.div_mod' (y / 10) 10) as E2. pose proof (N.mod_lt (y / 10) 10) as B2.
  pose proof (N.div_mod' (y / 10 / 10) 10) as E3.
  pose proof (N.mod_lt (y / 10 / 10) 10) as B3.
  pose proof (N.div_mod' (y / 10 / 10 / 10) 10) as E4.
  pose proof (N.mod_lt (y / 10 / 10 / 10) 10) as B4.
  generalize dependent (y / 10 / 10 / 10 / 10). intros q4.
  generalize dependent ((y / 10 / 10 / 10) mod 10). intros r4.
  generalize dependent (y / 10 / 10 / 10). intros q3.
  generalize dependent ((y / 10 / 10) mod 10). intros r3.
  generalize dependent (y / 10 / 10). intros q2.
  generalize dependent ((y / 10) mod 10). intros r2.
  generalize dependent (y / 10). intros q1.
  generalize dependent (y mod 10). intros r1.
  intros. lia.
Qed.

Lemma small_cases (P : N -> Prop) (hi : nat) n :
  Forall P (map N.of_nat (seq 0 (S hi))) -> n <= N.of_nat hi -> P n.
Proof.
  intros HF Hn. rewrite Forall_forall in HF. apply HF.
  apply list_elem_of_In, in_map_iff. exists (N.to_nat n). split; [lia|].
  apply in_seq. lia.
Qed.

Ltac eval_pad2 :=
  repeat match goal with
  | |- context [pad2 (N.of_nat ?n)] =>
      let v := eval vm_compute in (pad2 (N.of_nat n)) in
      change (pad2 (N.of_nat n)) with v
  end.

Lemma re_m_sep {A} (k : str -> matcher A) m c rest :
  1 <= m <= 12 -> c = 45 \/ c = 46 \/ c = 47 ->
  m_bind re_m (fun mm => m_bind (m_lit c) (fun _ => k mm)) (pad2 m ++ c :: rest)
  = k (pad2 m) rest.
Proof.
  intros [Hlo Hhi] Hc. revert Hlo.
  pattern m. apply (small_cases _ 12); [|exact Hhi].
  repeat (first [apply Forall_nil_2 | apply Forall_cons_2]); intros Hlo; try (exfalso; lia);
    destruct Hc as [-> | [-> | ->]]; eval_pad2; cbn; rewrite ?app_nil_r; reflexivity.
Qed.

Lemma re_d_sep {A} (k : str -> matcher A) d c rest :
  1 <= d <= 31 -> c = 45 \/ c = 46 \/ c = 47 ->
  m_bind (re_d U) (fun dd => m_bind (m_lit c) (fun _ => k dd)) (pad2 d ++ c :: rest)
  = k (pad2 d) rest.
Proof.
  intros [Hlo Hhi] Hc. revert Hlo.
  pattern d. apply (small_cases _ 31); [|exact Hhi].
  repeat (first [apply Forall_nil_2 | apply Forall_cons_2]); intros Hlo; try (exfalso; lia);
    destruct Hc as [-> | [-> | ->]]; eval_pad2; cbn; rewrite ?app_nil_r; reflexivity.
Qed.

Lemma re_d_end d :
  1 <= d <= 31 -> exists more, re_d U (pad2 d) = (pad2 d, []) :: more.
Proof.
  intros [Hlo Hhi]. revert Hlo.
  pattern d. apply (small_cases _ 31); [|exact Hhi].
  repeat (first [apply Forall_nil_2 | apply Forall_cons_2]); intros Hlo;
    try (exfalso; lia); eval_pad2; cbn; eexists; reflexivity.
Qed.

Lemma py_int_pad2 n : n <= 31 -> py_int U (pad2 n) = Some n.
Proof.
  intros Hhi. pattern n. apply (small_cases _ 31); [|exact Hhi].
  repeat (first [apply Forall_nil_2 | apply Forall_cons_2]); reflexivity.
Qed.

Lemma days_in_month_le y m : days_in_month y m <= 31.
Proof. unfold days_in_month. repeat case_match; lia. Qed.

Lemma valid_date_bounds d :
  valid_date d = true ->
  1 <= year d <= 9999 /\ 1 <= month d <= 12 /\ 1 <= day d <= 31.
Proof.
  unfold valid_date. rewrite !andb_true_iff, !N.leb_le.
  pose proof (days_in_month_le (year d) (month d)). lia.
Qed.

Lemma m_lit_here {A} (k : unit -> matcher A) c rest :
  m_bind (m_lit c) k (c :: rest) = k tt rest.
Proof.
  unfold m_bind, m_lit, m_bind, m_sat, m_ret. rewrite N.eqb_refl.
  cbn. rewrite !app_nil_r. reflexivity.
Qed.

Theorem strptime_strftime f d :
  valid_date d = true -> strptime U f (strftime f d) = Some d.
Proof.
  intros Hv. destruct (valid_date_bounds d Hv) as (Hy & Hm & Hd).
  destruct d as [y m dd]. cbn [year month day] in *.
  unfold strptime, strftime, format_regex. cbn [year month day app].
  destruct f.
  - change (pad4 y ++ 45 :: pad2 m ++ 45 :: pad2 dd) with (pad4 y ++ [45] ++ pad2 m ++ 45 :: pad2 dd).
    rewrite re_Y_pad4. cbn [app]. rewrite m_lit_here.
    rewrite (re_m_sep (fun mm => m_bind (re_d U) (fun d0 => m_ret (pad4 y, mm, d0)))) by auto.
    destruct (re_d_end dd Hd) as [more Hmore].
    unfold m_bind at 1. rewrite Hmore. cbn [flat_map m_ret app].
    rewrite py_int_pad4, !py_int_pad2 by lia. rewrite Hv. reflexivity.
  - rewrite (re_d_sep (fun d0 => m_bind re_m (fun mm => m_bind (m_lit 46)
               (fun _ => m_bind (re_Y U) (fun yy => m_ret (yy, mm, d0)))))) by auto.
    rewrite (re_m_sep (fun mm => m_bind (re_Y U) (fun yy => m_ret (yy, mm, pad2 dd)))) by auto.
    rewrite <- (app_nil_r (pad4 y)) at 1. rewrite re_Y_pad4. unfold m_ret.
    rewrite py_int_pad4, !py_int_pad2 by lia. rewrite Hv. reflexivity.
  - rewrite (re_m_sep (fun mm => m_bind (re_d U) (fun d0 => m_bind (m_lit 47)
               (fun _ => m_bind (re_Y U) (fun yy => m_ret (yy, mm, d0)))))) by auto.
    rewrite (re_d_sep (fun d0 => m_bind (re_Y U) (fun yy => m_ret (yy, pad2 m, d0)))) by auto.
    rewrite <- (app_nil_r (pad4 y)) at 1. rewrite re_Y_pad4. unfold m_ret.
    rewrite py_int_pad4, !py_int_pad2 by lia. rewrite Hv. reflexivity.
Qed.

(** What a result of a matcher says about the text. *)
Lemma m_bind_In {A B} (p : matcher A) (k : A -> matcher B) s b r :
  In (b, r) (m_bind p k s) -> exists a r0, In (a, r0) (p s) /\ In (b, r) (k a r0).
Proof.
  unfold m_bind. rewrite in_flat_map. intros [[a r0] [H1 H2]]. eauto.
Qed.

Lemma m_ret_In {A} (a b : A) s r : In (b, r) (m_ret a s) -> b = a /\ r = s.
Proof. unfold m_ret. intros [H|[]]. by inversion H. Qed.

Lemma m_sat_In ok s c r : In (c, r) (m_sat ok s) -> s = c :: r /\ ok c = true.
Proof.
  unfold m_sat. destruct s as [|x tl]; [intros []|].
  destruct (ok x) eqn:E; [|intros []]. intros [H|[]]. by inversion H; subst.
Qed.

Lemma m_lit_In c s x r : In (x, r) (m_lit c s) -> s = c :: r.
Proof.
  unfold m_lit. intros H. apply m_bind_In in H as (a & r0 & H1 & H2).
  apply m_sat_In in H1 as [-> E]. apply m_ret_In in H2 as [_ ->].
  apply N.eqb_eq in E. by subst.
Qed.

Lemma m_two_In p q s t r :
  In (t, r) (m_two p q s) ->
  exists a b, t = [a; b] /\ s = a :: b :: r /\ p a = true /\ q b = true.
Proof.
  unfold m_two. intros H. apply m_bind_In in H as (a & r0 & H1 & H2).
  apply m_bind_In in H2 as (b & r1 & H2 & H3).
  apply m_sat_In in H1 as [-> Ea]. apply m_sat_In in H2 as [-> Eb].
  apply m_ret_In in H3 as [-> ->]. eauto 10.
Qed.

Lemma m_one_In p s t r :
  In (t, r) (m_one p s) -> exists a, t = [a] /\ s = a :: r /\ p a = true.
Proof.
  unfold m_one. intros H. apply m_bind_In in H as (a & r0 & H1 & H2).
  apply m_sat_In in H1 as [-> Ea]. apply m_ret_In in H2 as [-> ->]. eauto.
Qed.

Lemma m_alt_In {A} (p q : matcher A) s x : In x (m_alt p q s) -> In x (p s) \/ In x (q s).
Proof. unfold m_alt. apply in_app_or. Qed.

Lemma in_range_not_sep lo hi c :
  48 <= lo -> in_range lo hi c = true -> is_sep c = false.
Proof.
  unfold in_range, is_sep. rewrite andb_true_iff, !N.leb_le. intros ? [? ?].
  rewrite !orb_false_iff, !N.eqb_neq. lia.
Qed.

Lemma re_digit_not_sep c : re_digit U c = true -> is_sep c = false.
Proof.
  unfold is_sep. destruct (c =? 45) eqn:E1; [apply N.eqb_eq in E1; subst; done|].
  destruct (c =? 46) eqn:E2; [apply N.eqb_eq in E2; subst; done|].
  destruct (c =? 47) eqn:E3; [apply N.eqb_eq in E3; subst; done|]. done.
Qed.

Lemma re_d_In s t r : In (t, r) (re_d U s) -> one_or_two s t r.
Proof.
  unfold re_d, one_or_two. intros H.
  repeat (apply m_alt_In in H as [H|H]);
    first [ apply m_two_In in H as (a & b & -> & -> & Ha & Hb)
          | apply m_one_In in H as (a & -> & -> & Ha) ];
    eauto; right; exists a, b; repeat split;
    first [ by apply re_digit_not_sep
          | (eapply in_range_not_sep; [|eassumption]); lia ].
Qed.

Lemma re_m_In s t r : In (t, r) (re_m s) -> one_or_two s t r.
Proof.
  unfold re_m, one_or_two. intros H.
  repeat (apply m_alt_In in H as [H|H]);
    first [ apply m_two_In in H as (a & b & -> & -> & Ha & Hb)
          | apply m_one_In in H as (a & -> & -> & Ha) ];
    eauto; right; exists a, b; repeat split;
    (eapply in_range_not_sep; [|eassumption]); lia.
Qed.

Lemma re_Y_In s t r :
  In (t, r) (re_Y U s) ->
  exists a b c d, s = a :: b :: c :: d :: r /\ is_sep b = false /\ is_sep c = false.
Proof.
  unfold re_Y. intros H.
  apply m_bind_In in H as (a & r0 & Ha & H). apply m_sat_In in Ha as [-> Ea].
  apply m_bind_In in H as (b & r1 & Hb & H). apply m_sat_In in Hb as [-> Eb].
  apply m_bind_In in H as (c & r2 & Hc & H). apply m_sat_In in Hc as [-> Ec].
  apply m_bind_In in H as (d & r3 & Hd & H). apply m_sat_In in Hd as [-> Ed].
  apply m_ret_In in H as [-> ->].
  exists a, b, c, d. auto using re_digit_not_sep.
Qed.

Lemma one_or_two_sep s t r c x r' :
  one_or_two s t r -> In (x, r') (m_lit c r) -> sep_at_1_or_2 c s.
Proof.
  intros Hs Hl. apply m_lit_In in Hl as ->.
  destruct Hs as [(a & -> & ->)|(a & b & -> & -> & Hb)]; [left|right]; eauto.
Qed.

Lemma regex_dmY_shape s x : In x (format_regex U Fmt_dmY s) -> sep_at_1_or_2 46 s.
Proof.
  destruct x as [g r]. cbn [format_regex]. intros H.
  apply m_bind_In in H as (d & r0 & Hd & H). apply re_d_In in Hd.
  apply m_bind_In in H as (? & r1 & Hl & H). eauto using one_or_two_sep.
Qed.

Lemma regex_mdY_shape s x : In x (format_regex U Fmt_mdY s) -> sep_at_1_or_2 47 s.
Proof.
  destruct x as [g r]. cbn [format_regex]. intros H.
  apply m_bind_In in H as (d & r0 & Hd & H). apply re_m_In in Hd.
  apply m_bind_In in H as (? & r1 & Hl & H). eauto using one_or_two_sep.
Qed.

Lemma regex_Ymd_shape s x :
  In x (format_regex U Fmt_Ymd s) ->
  exists a b c r, s = a :: b :: c :: r /\ is_sep b = false /\ is_sep c = false.
Proof.
  destruct x as [g r]. cbn [format_regex]. intros H.
  apply m_bind_In in H as (y & r0 & Hy & H). apply re_Y_In in Hy.
  destruct Hy as (a & b & c & d & -> & ? & ?). eauto 10.
Qed.

Lemma strptime_Some_In f s d :
  strptime U f s = Some d -> exists x, In x (format_regex U f s).
Proof.
  unfold strptime. destruct (format_regex U f s) as [|x l]; [done|].
  intros _. exists x. by left.
Qed.

Lemma regex_empty_strptime f s :
  (forall x, ~ In x (format_regex U f s)) -> strptime U f s = None.
Proof.
  unfold strptime. destruct (format_regex U f s) as [|x l]; [done|].
  intros H. destruct (H x). by left.
Qed.

Lemma sep_excludes_Ymd c s :
  is_sep c = true -> sep_at_1_or_2 c s -> strptime U Fmt_Ymd s = None.
Proof.
  intros Hc Hs. apply regex_empty_strptime. intros x Hx.
  apply regex_Ymd_shape in Hx as (a & b & c' & r & -> & Hb & Hc').
  destruct Hs as [(? & ? & E)|(? & ? & ? & E & _)]; inversion E; congruence.
Qed.

Lemma strptime_mdY_not_dmY s d :
  strptime U Fmt_mdY s = Some d -> strptime U Fmt_dmY s = None.
Proof.
  intros H. apply strptime_Some_In in H as [x Hx]. apply regex_mdY_shape in Hx.
  apply regex_empty_strptime. intros y Hy. apply regex_dmY_shape in Hy.
  destruct Hx as [(? & ? & E)|(? & ? & ? & E & Hb)];
    destruct Hy as [(? & ? & E')|(? & ? & ? & E' & Hb')];
    rewrite E in E'; inversion E'; subst; done.
Qed.

(** A text that one of the formats parses is parsed by the loop to the
    same date: no earlier format accepts it. *)
Theorem try_formats_denotes f s d :
  strptime U f s = Some d -> try_formats U date_formats s = Some d.
Proof.
  intros H. unfold date_formats. cbn [try_formats]. destruct f.
  - by rewrite H.
  - rewrite (sep_excludes_Ymd 46 s), H; [done..|].
    apply strptime_Some_In in H as [x Hx]. eauto using regex_dmY_shape.
  - rewrite (sep_excludes_Ymd 47 s), (strptime_mdY_not_dmY s d H), H; [done..|].
    apply strptime_Some_In in H as [x Hx]. eauto using regex_mdY_shape.
Qed.
End StrptimeFacts.

(** ** The field normaliser *)

(** A decidable proposition that evaluates to false does not hold. *)
Ltac decide_false :=
  let H := fresh in
  intros H; apply (bool_decide_pack _) in H; vm_compute in H; exact H.

(** A decidable proposition that evaluates to true holds. *)
Ltac decide_true := apply (bool_decide_unpack _); vm_compute; exact I.

Section NormaliserFacts.
Variable U : unicode_data.

Lemma bind_Ok {A B} (r : result A) (k : A -> result B) b :
  bind r k = Ok b -> exists a, r = Ok a /\ k a = Ok b.
Proof. destruct r; cbn; [eauto|discriminate]. Qed.

Lemma transform_item_skip td key value :
  item_target U key = None -> transform_item U td key value = Ok td.
Proof.
  unfold item_target, transform_item. by case_bool_decide.
Qed.

Lemma mse_date_is_date : u "mse_date" ∈ date_fields.
Proof. decide_true. Qed.

Lemma special_marks_not_date : u "special_marks" ∉ date_fields.
Proof. decide_false. Qed.

(** The loop body on a key stored under a date field. *)
Lemma transform_item_date td key value f :
  item_target U key = Some f -> f ∈ date_fields ->
  transform_item U td key value
  = bind (normalize_date U (rename_alias key) value) (fun v => Ok (<[f := v]> td)).
Proof.
  unfold item_target, transform_item. case_bool_decide; [done|].
  intros [= <-] Hf. cbn zeta. by rewrite bool_decide_eq_true_2.
Qed.

(** The loop body on a key stored under any other field. *)
Lemma transform_item_plain td key value f :
  item_target U key = Some f -> f ∉ date_fields ->
  transform_item U td key value
  = match value with
    | PList l =>
        if bool_decide (f = u "special_marks") then
          match l with
          | [] => Ok (<[f := PNone]> td)
          | _ => match str_items l with
                 | Some items => Ok (<[f := PStr (join (u ",") items)]> td)
                 | None => Raise save_error
                 end
          end
        else Ok (<[f := value]> td)
    | PNone | PStr [] => Ok (<[f := PNone]> td)
    | _ => Ok (<[f := value]> td)
    end.
Proof.
  unfold item_target, transform_item. case_bool_decide; [done|].
  intros [= <-] Hf. cbn zeta. by rewrite bool_decide_eq_false_2.
Qed.

(** An item touches only the field it is stored under. *)
Lemma transform_item_frame td td' key value f :
  transform_item U td key value = Ok td' -> item_target U key <> Some f ->
  td' !! f = td !! f.
Proof.
  intros H Hne. destruct (item_target U key) as [g|] eqn:Hg.
  - assert (g <> f) by congruence.
    destruct (decide (g ∈ date_fields)).
    + rewrite (transform_item_date _ _ _ g) in H by done.
      apply bind_Ok in H as (v & _ & [= <-]). by rewrite lookup_insert_ne.
    + rewrite (transform_item_plain _ _ _ g) in H by done.
      repeat case_match; simplify_eq; by rewrite lookup_insert_ne.
  - rewrite transform_item_skip in H by done. by simplify_eq.
Qed.

Lemma transform_data_app td l1 l2 :
  transform_data U td (l1 ++ l2)
  = bind (transform_data U td l1) (fun td' => transform_data U td' l2).
Proof.
  revert td. induction l1 as [|[k v] l1 IH]; intros td; cbn; [done|].
  destruct (transform_item U td k v); cbn; [apply IH|done].
Qed.

Lemma transform_data_frame td td' l f :
  transform_data U td l = Ok td' -> not_stored_later U f l -> td' !! f = td !! f.
Proof.
  revert td. induction l as [|[k v] l IH]; intros td H Hl; cbn in H.
  - by simplify_eq.
  - apply bind_Ok in H as (td1 & H1 & H2).
    rewrite (IH td1 H2), (transform_item_frame _ _ _ _ _ H1); [done|..].
    + apply (Hl k v). by left.
    + intros k' v' Hin. apply (Hl k' v'). by right.
Qed.

(** The item that decides a field: the last one stored under it. *)
Lemma transform_data_last td td' pre key value post f :
  transform_data U td (pre ++ (key, value) :: post) = Ok td' ->
  not_stored_later U f post ->
  exists td0 td1, transform_data U td pre = Ok td0 /\
                  transform_item U td0 key value = Ok td1 /\
                  td' !! f = td1 !! f.
Proof.
  rewrite transform_data_app. intros H Hpost.
  apply bind_Ok in H as (td0 & H0 & H). cbn in H.
  apply bind_Ok in H as (td1 & H1 & H).
  exists td0, td1. eauto using transform_data_frame.
Qed.

Lemma normalize_full_name_frame td row f :
  normalize_full_name U td = Ok row -> f <> u "full_name" -> row !! f = td !! f.
Proof.
  unfold normalize_full_name. intros H Hf.
  repeat case_match; simplify_eq; try done; by rewrite lookup_insert_ne.
Qed.

(** What [create_or_update_record] returns is made of the loop's result. *)
Lemma create_or_update_record_Ok bn record_data row :
  create_or_update_record U bn record_data = Ok row ->
  exists td, transform_data U ∅ record_data = Ok td /\
             truthy (dict_get td (u "mse_date")) = true /\
             normalize_full_name U td = Ok row.
Proof.
  unfold create_or_update_record. intros H.
  apply bind_Ok in H as (td & Htd & H). exists td.
  destruct (truthy (dict_get td (u "mse_date"))); cbn in H; [done|discriminate].
Qed.

(** A payload that lacks a date field leaves it unset or [None]. *)
Lemma transform_data_lacks td td' l f :
  f ∈ date_fields -> lacks_field U f l -> transform_data U td l = Ok td' ->
  td' !! f = td !! f \/ td' !! f = Some PNone.
Proof.
  intros Hf. revert td. induction l as [|[k v] l IH]; intros td Hl H; cbn in H.
  - simplify_eq. by left.
  - apply bind_Ok in H as (td1 & H1 & H2).
    destruct (IH td1) as [E|E]; [intros k' v' Hin; apply (Hl k' v'); by right|done| |by right].
    rewrite E. destruct (decide (item_target U k = Some f)) as [Hk|Hk].
    + right. rewrite (transform_item_date _ _ _ f) in H1 by done.
      destruct (Hl k v (or_introl eq_refl) Hk) as [-> | ->]; cbn in H1;
        simplify_eq; by rewrite lookup_insert_eq.
    + left. eauto using transform_item_frame.
Qed.

Lemma date_field_not_full_name f : f ∈ date_fields -> f <> u "full_name".
Proof. intros Hf ->. revert Hf. decide_false. Qed.

Lemma accepted_row_field bn record_data row f :
  create_or_update_record U bn record_data = Ok row -> f <> u "full_name" ->
  exists td, transform_data U ∅ record_data = Ok td /\ row !! f = td !! f.
Proof.
  intros H Hf. apply create_or_update_record_Ok in H as (td & Htd & _ & Hrow).
  exists td. eauto using normalize_full_name_frame.
Qed.

(** The three aliases are stored under fields that are no dates. *)
Lemma rename_alias_date key f :
  item_target U key = Some f -> f ∈ date_fields -> rename_alias key = key.
Proof.
  unfold rename_alias. intros Ht Hf.
  repeat case_bool_decide; try done; subst key; exfalso;
    vm_compute in Ht; injection Ht as <-; revert Hf; decide_false.
Qed.

Lemma mentions_intro before needle after : mentions (before ++ needle ++ after) needle.
Proof. by exists before, after. Qed.

Lemma bad_date_format_names key value :
  status_code (bad_date_format key value) = 400%Z /\
  mentions (detail (bad_date_format key value)) key /\
  mentions (detail (bad_date_format key value)) value.
Proof.
  unfold bad_date_format. cbn [status_code detail]. split; [done|]. split.
  - apply mentions_intro.
  - eexists _, []. rewrite app_nil_r, !app_assoc. reflexivity.
Qed.

Lemma normalize_date_parsed key s d :
  try_formats U date_formats s = Some d -> normalize_date U key (PStr s) = Ok (PDate d).
Proof.
  intros H. unfold normalize_date. rewrite H. destruct s; [|done].
  by vm_compute in H.
Qed.
End NormaliserFacts.

Section NormaliserClaims.
Variable U : unicode_data.

(** Claim C1: the examination date is required.  For every payload, when
    the loop over its items ends with a null [mse_date] (the field absent,
    empty, or normalised to null) [create_or_update_record] raises the 400
    error whose detail names the field Дата проведения МСЭ, whatever the
    other fields hold; a payload with no item for the field is never
    accepted, and every accepted row holds a non-null [mse_date]. *)
Theorem mse_date_is_required bn record_data :
  (forall td, transform_data U ∅ record_data = Ok td ->
              dict_get td (u "mse_date") = PNone ->
              create_or_update_record U bn record_data = Raise missing_mse_date)
  /\ status_code missing_mse_date = 400%Z
  /\ mentions (detail missing_mse_date) (u "Дата проведения МСЭ")
  /\ (lacks_field U (u "mse_date") record_data ->
      forall row, create_or_update_record U bn record_data <> Ok row)
  /\ (forall row, create_or_update_record U bn record_data = Ok row ->
      exists v, row !! u "mse_date" = Some v /\ v <> PNone).
Proof.
  split; [|split; [|split; [|split]]].
  - intros td Htd Hnull. unfold create_or_update_record.
    rewrite Htd. cbn [bind]. by rewrite Hnull.
  - reflexivity.
  - exists (u "Обязательное поле '"), (u "' не заполнено"). reflexivity.
  - intros Hlack row Hrow.
    apply create_or_update_record_Ok in Hrow as (td & Htd & Htruthy & _).
    apply (transform_data_lacks U _ _ _ (u "mse_date")) in Htd; [|apply mse_date_is_date|done].
    unfold dict_get in Htruthy. rewrite lookup_empty in Htd.
    destruct Htd as [E|E]; rewrite E in Htruthy; discriminate.
  - intros row Hrow. pose proof Hrow as Hrow'.
    apply create_or_update_record_Ok in Hrow as (td & Htd & Htruthy & _).
    apply (accepted_row_field U _ _ _ (u "mse_date")) in Hrow' as (td' & Htd' & E); [|done].
    rewrite Htd in Htd'. injection Htd' as <-. rewrite E.
    unfold dict_get in Htruthy. destruct (td !! u "mse_date") as [v|]; [|discriminate].
    exists v. split; [done|]. by intros ->.
Qed.
End NormaliserClaims.

Lemma mse_date_is_required_witness :
  create_or_update_record ascii_only (u "bureau_3")
    [(u "fullName", PStr (u "Ivan Petrov")); (u "mseDate", PStr [])]
  = Raise missing_mse_date
  /\ match create_or_update_record ascii_only (u "bureau_3")
            [(u "fullName", PStr (u "Ivan Petrov")); (u "birthDate", PStr (u "bad"))] with
     | Ok _ => False
     | Raise _ => True
     end.
Proof.
  split.
  - eapply (proj1 (mse_date_is_required ascii_only _ _)); vm_compute; reflexivity.
  - destruct (create_or_update_record _ _ _) as [row|e] eqn:Hrow; [|exact I].
    revert Hrow. apply (proj1 (proj2 (proj2 (proj2 (mse_date_is_required ascii_only _ _))))).
    intros key value [[= <- <-]|[[= <- <-]|[]]]; vm_compute; discriminate.
Defined.

Section DateClaims.
Variable U : unicode_data.

Lemma transform_item_date_value td key value f v :
  item_target U key = Some f -> f ∈ date_fields ->
  normalize_date U key value = Ok v ->
  transform_item U td key value = Ok (<[f := v]> td).
Proof.
  intros Ht Hf Hv. rewrite (transform_item_date U td key value f Ht Hf).
  rewrite (rename_alias_date U key f Ht Hf), Hv. reflexivity.
Qed.

(** The row an accepted payload gives for a date field whose last item
    normalises to [v]. *)
Lemma accepted_date_field bn pre key value post f row v :
  f ∈ date_fields -> item_target U key = Some f -> not_stored_later U f post ->
  create_or_update_record U bn (pre ++ (key, value) :: post) = Ok row ->
  normalize_date U key value = Ok v ->
  row !! f = Some v.
Proof.
  intros Hf Ht Hpost Hrow Hv.
  apply (accepted_row_field U _ _ _ f) in Hrow as (td & Htd & ->);
    [|by apply date_field_not_full_name].
  apply (transform_data_last U _ _ _ _ _ _ f) in Htd as (td0 & td1 & _ & H1 & ->); [|done].
  rewrite (transform_item_date_value td0 key value f v) in H1 by done.
  injection H1 as <-. apply lookup_insert_eq.
Qed.

(** Claim C2: normalisation of a date field (examination, decision,
    registration, birth).  In the row of an accepted payload a native date
    is stored unchanged, a text that one of the three formats parses is
    stored as the date it denotes (so the printed form of a valid date in
    any of the formats gives that date back), and [None] or the empty text
    is stored as null; the formats are tried in the order YYYY-MM-DD,
    DD.MM.YYYY, MM/DD/YYYY and the first success wins; a non-empty text no
    format parses raises the 400 error whose detail names the payload key
    and the raw text; a field with no item in the payload has no entry. *)
Theorem date_fields_are_normalised bn pre key value post f :
  f ∈ date_fields -> item_target U key = Some f -> not_stored_later U f post ->
  (* the row of an accepted payload *)
  (forall row, create_or_update_record U bn (pre ++ (key, value) :: post) = Ok row ->
     (forall d, value = PDate d -> row !! f = Some (PDate d)) /\
     (forall s fmt d, value = PStr s -> strptime U fmt s = Some d ->
                      row !! f = Some (PDate d)) /\
     (forall fmt d, valid_date d = true -> value = PStr (strftime fmt d) ->
                    row !! f = Some (PDate d)) /\
     (value = PNone \/ value = PStr [] -> row !! f = Some PNone))
  (* the order of the formats *)
  /\ (forall s, try_formats U date_formats s
                = match strptime U Fmt_Ymd s with
                  | Some d => Some d
                  | None => match strptime U Fmt_dmY s with
                            | Some d => Some d
                            | None => strptime U Fmt_mdY s
                            end
                  end)
  (* a text no format parses *)
  /\ (forall td s, transform_data U ∅ pre = Ok td ->
        value = PStr s -> s <> [] -> (forall fmt, strptime U fmt s = None) ->
        create_or_update_record U bn (pre ++ (key, value) :: post)
        = Raise (bad_date_format key s))
  /\ (forall s, status_code (bad_date_format key s) = 400%Z /\
                mentions (detail (bad_date_format key s)) key /\
                mentions (detail (bad_date_format key s)) s)
  (* an absent field *)
  /\ (forall record_data row, not_stored_later U f record_data ->
        create_or_update_record U bn record_data = Ok row -> row !! f = None)
  (* a text in one of the formats is accepted *)
  /\ (forall fmt d, valid_date d = true ->
        create_or_update_record U bn [(u "mseDate", PStr (strftime fmt d))]
        = Ok {[ u "mse_date" := PDate d ]}).
Proof.
  intros Hf Ht Hpost. split; [|split; [|split; [|split; [|split]]]].
  - intros row Hrow. repeat split.
    + intros d ->. by eapply accepted_date_field.
    + intros s fmt d -> Hs. eapply accepted_date_field; [done..|].
      eauto using normalize_date_parsed, try_formats_denotes.
    + intros fmt d Hd ->. eapply accepted_date_field; [done..|].
      eauto using normalize_date_parsed, try_formats_denotes, strptime_strftime.
    + intros [-> | ->]; by eapply accepted_date_field.
  - intros s. unfold date_formats. cbn [try_formats].
    by destruct (strptime U Fmt_Ymd s), (strptime U Fmt_dmY s), (strptime U Fmt_mdY s).
  - intros td s Hpre -> Hs Hnone. unfold create_or_update_record.
    rewrite transform_data_app, Hpre. cbn [bind transform_data].
    rewrite (transform_item_date U td key (PStr s) f Ht Hf).
    rewrite (rename_alias_date U key f Ht Hf).
    unfold normalize_date, date_formats. cbn [try_formats]. rewrite !Hnone.
    by destruct s.
  - intros s. apply bad_date_format_names.
  - intros record_data row Hnot Hrow.
    apply (accepted_row_field U _ _ _ f) in Hrow as (td & Htd & ->);
      [|by apply date_field_not_full_name].
    by rewrite (transform_data_frame U _ _ _ f Htd Hnot).
  - intros fmt d Hd. unfold create_or_update_record. cbn [transform_data].
    rewrite (transform_item_date_value ∅ _ _ (u "mse_date") (PDate d));
      [ | reflexivity | apply mse_date_is_date
        | eauto using normalize_date_parsed, try_formats_denotes, strptime_strftime ].
    cbn [bind]. unfold dict_get. rewrite lookup_insert_eq. cbn.
    unfold normalize_full_name. rewrite lookup_insert_ne by done.
    by rewrite lookup_empty.
Qed.
End DateClaims.

Lemma date_fields_are_normalised_witness :
  match create_or_update_record ascii_only (u "bureau_3")
          ([(u "fullName", PStr (u "Ivan Petrov"))]
             ++ (u "mseDate", PStr (u "15.01.2024")) :: [(u "birthDate", PStr [])]) with
  | Ok row => row !! u "mse_date" = Some (PDate (mk_date 2024 1 15))
  | Raise _ => False
  end.
Proof.
  destruct (create_or_update_record _ _ _) as [row|e] eqn:Hrow.
  - refine (proj1 (proj2 (proj1 (date_fields_are_normalised ascii_only (u "bureau_3")
              [(u "fullName", PStr (u "Ivan Petrov"))] (u "mseDate") (PStr (u "15.01.2024"))
              [(u "birthDate", PStr [])] (u "mse_date") _ _ _) row Hrow))
              (u "15.01.2024") Fmt_dmY _ eq_refl _).
    + apply mse_date_is_date.
    + reflexivity.
    + intros key value [[= <- <-]|[]]. vm_compute. discriminate.
    + reflexivity.
  - vm_compute in Hrow. discriminate.
Defined.

(** Splitting what was joined. *)
Lemma split_on_no_sep c p : ~ In c p -> split_on c p = [p].
Proof.
  induction p as [|x p IH]; intros Hp; cbn; [done|].
  destruct (N.eqb_spec x c) as [->|Hne]; [destruct Hp; by left|].
  rewrite IH; [done|]. intros H. apply Hp. by right.
Qed.

Lemma split_on_app c p rest :
  ~ In c p -> split_on c (p ++ c :: rest) = p :: split_on c rest.
Proof.
  induction p as [|x p IH]; intros Hp; cbn.
  - by rewrite N.eqb_refl.
  - destruct (N.eqb_spec x c) as [->|Hne]; [destruct Hp; by left|].
    rewrite IH; [done|]. intros H. apply Hp. by right.
Qed.


Section SpecialMarksClaims.
Variable U : unicode_data.

Lemma accepted_plain_field bn pre key value post f row :
  f ∉ date_fields -> f <> u "full_name" ->
  item_target U key = Some f -> not_stored_later U f post ->
  create_or_update_record U bn (pre ++ (key, value) :: post) = Ok row ->
  exists td0 td1, transform_item U td0 key value = Ok td1 /\ row !! f = td1 !! f.
Proof.
  intros Hf Hfn Ht Hpost Hrow.
  apply (accepted_row_field U _ _ _ f) in Hrow as (td & Htd & ->); [|done].
  apply (transform_data_last U _ _ _ _ _ _ f) in Htd as (td0 & td1 & _ & H1 & ->); [|done].
  eauto.
Qed.

End SpecialMarksClaims.



(** ** The value mapper and the date renderer *)

Lemma flat_map_filter_map {A B C} (g : A -> B) (p : B -> bool) (h : B -> C) l :
  flat_map (fun v => if p (g v) then [h (g v)] else []) l
  = map h (List.filter p (map g l)).
Proof.
  induction l as [|x l IH]; [done|]. cbn. destruct (p (g x)); cbn; by rewrite IH.
Qed.

Section MapperClaims.
Variable U : unicode_data.

(** Claim C3: rendering of a set-valued field.  For every unit and every
    field of the resolved mappings, a raw value that holds a comma is split
    on commas, each code is stripped, empty codes are dropped, each code is
    looked up on its own (an unknown code is kept as it is) and the results
    are joined with a comma and a space, in the order of the input; for the
    special marks amputee,bogus_code this gives Ампутант, bogus_code; a
    null or empty raw value gives the empty text. *)
Theorem set_valued_rendering bn :
  (forall field mapping raw,
      get_value_mappings bn !! field = Some mapping -> contains_char 44 raw = true ->
      map_value U bn field (Some raw) = render_codes U mapping raw)
  /\ map_value U bn (u "special_marks") (Some (u "amputee,bogus_code"))
     = u "Ампутант, bogus_code"
  /\ (forall field, map_value U bn field None = [] /\ map_value U bn field (Some []) = []).
Proof.
  split; [|split].
  - intros field mapping raw Hf Hc. unfold map_value, render_codes.
    destruct raw as [|c raw]; [discriminate|]. rewrite Hf, Hc.
    f_equal. apply (flat_map_filter_map (strip U) nonempty
                      (fun token => default token (mapping !! token))).
  - unfold map_value, get_value_mappings.
    destruct (startswith bn (u "expert_")); vm_compute; reflexivity.
  - intros field. split; reflexivity.
Qed.
End MapperClaims.

Lemma set_valued_rendering_witness :
  map_value ascii_only (u "bureau_3") (u "special_marks") (Some (u "svo, zzz ,,amputee"))
  = render_codes ascii_only (default ∅ (COMMON_VALUE_MAPPINGS !! u "special_marks"))
      (u "svo, zzz ,,amputee").
Proof.
  apply (proj1 (set_valued_rendering ascii_only (u "bureau_3"))); vm_compute; reflexivity.
Defined.

(** Claim C10 fails for a year below 1000: the renderer prints the year
    without padding, so the text it gives for the stored text 0985-03-01,
    and for the date itself, is 01.03.985, of nine characters, and not the
    date in the layout DD.MM.YYYY, which is 01.03.0985. *)
Lemma format_excel_date_short_year :
  strptime ascii_only Fmt_Ymd (u "0985-03-01") = Some (mk_date 985 3 1)
  /\ format_excel_date ascii_only (PStr (u "0985-03-01")) = u "01.03.985"
  /\ format_excel_date ascii_only (PDate (mk_date 985 3 1)) = u "01.03.985"
  /\ length (format_excel_date ascii_only (PStr (u "0985-03-01"))) = 9%nat
  /\ strftime Fmt_dmY (mk_date 985 3 1) = u "01.03.0985"
  /\ format_excel_date ascii_only (PStr (u "2024-01-15")) = u "15.01.2024".
Proof. repeat split; vm_compute; reflexivity. Qed.

Local Close Scope N_scope.
Local Open Scope nat_scope.

(** ** Sheets: what a loop of cell writes leaves behind *)

Lemma same_settings_refl a : same_settings a a.
Proof. by repeat split. Qed.

Lemma same_settings_trans a b c : same_settings a b -> same_settings b c -> same_settings a c.
Proof. unfold same_settings. intros (?&?&?&?) (?&?&?&?). repeat split; congruence. Qed.

Lemma get_cell_put ws r c x r' c' :
  get_cell (put_cell ws r c x) r' c'
  = if bool_decide (r' = r /\ c' = c) then x else get_cell ws r' c'.
Proof.
  unfold get_cell, put_cell. cbn [cells]. case_bool_decide as H.
  - destruct H as [-> ->]. by rewrite lookup_insert_eq.
  - rewrite lookup_insert_ne; [done|]. intros [= -> ->]. by apply H.
Qed.

Lemma ws_cell_put ws r c v : ws_cell ws r c v = put_cell ws r c (set_val v (get_cell ws r c)).
Proof. unfold ws_cell. by destruct v. Qed.

Lemma put_cell_twice ws r c x y : put_cell (put_cell ws r c x) r c y = put_cell ws r c y.
Proof.
  unfold put_cell. cbn. f_equal; [apply insert_insert_eq|lia..].
Qed.

Lemma update_put ws r c x f : update_cell (put_cell ws r c x) r c f = put_cell ws r c (f x).
Proof.
  unfold update_cell. rewrite get_cell_put, bool_decide_eq_true_2 by done.
  apply put_cell_twice.
Qed.

Lemma fold_left_ext {A B} (f g : A -> B -> A) l a :
  (forall a b, f a b = g a b) -> fold_left f l a = fold_left g l a.
Proof. intros H. revert a. induction l as [|b l IH]; intros a; cbn; [done|]. by rewrite H, IH. Qed.

Section RowFold.
Context {A : Type} (g : A -> Cell -> Cell) (r : nat).

Lemma row_fold_cons start x xs ws :
  row_fold g r start (x :: xs) ws
  = row_fold g r (S start) xs (put_cell ws r start (g x (get_cell ws r start))).
Proof. reflexivity. Qed.

Lemma row_fold_get d xs : forall start ws r' c',
  get_cell (row_fold g r start xs ws) r' c'
  = if bool_decide (r' = r /\ start <= c' < start + length xs)
    then g (nth (c' - start) xs d) (get_cell ws r' c')
    else get_cell ws r' c'.
Proof.
  induction xs as [|x xs IH]; intros start ws r' c'.
  - cbn. rewrite bool_decide_eq_false_2; [done|lia].
  - rewrite row_fold_cons, IH, get_cell_put. cbn [length].
    repeat case_bool_decide; try lia.
    + replace (c' - start) with (S (c' - S start)) by lia. done.
    + destruct_and!. subst. replace (start - start) with 0 by lia. done.
    + done.
Qed.

Lemma row_fold_max_row xs : forall start ws,
  max_row (row_fold g r start xs ws) = match xs with [] => max_row ws | _ => Nat.max r (max_row ws) end.
Proof.
  induction xs as [|x xs IH]; intros start ws; [done|].
  rewrite row_fold_cons, IH. destruct xs; cbn; lia.
Qed.

Lemma row_fold_max_column xs : forall start ws,
  max_column (row_fold g r start xs ws)
  = match xs with [] => max_column ws | _ => Nat.max (start + length xs - 1) (max_column ws) end.
Proof.
  induction xs as [|x xs IH]; intros start ws; [done|].
  rewrite row_fold_cons, IH. destruct xs; cbn; lia.
Qed.

Lemma row_fold_settings xs : forall start ws, same_settings (row_fold g r start xs ws) ws.
Proof.
  induction xs as [|x xs IH]; intros start ws; [apply same_settings_refl|].
  rewrite row_fold_cons.
  eapply same_settings_trans; [apply IH|]. by repeat split.
Qed.
End RowFold.

Lemma write_cells_row_fold ws r values :
  write_cells ws r values = row_fold set_val r 1 values ws.
Proof.
  unfold write_cells, row_fold, enumerate. apply fold_left_ext.
  intros a [c v]. apply ws_cell_put.
Qed.

Lemma write_headers_row_fold ws headers :
  write_headers ws headers = row_fold header_cell 1 1 headers ws.
Proof.
  unfold write_headers, row_fold, enumerate. apply fold_left_ext.
  intros a [c h]. cbn zeta. rewrite ws_cell_put, !update_put. reflexivity.
Qed.

Section RowsFold.
Variable cells_of : nat -> record_row -> list pyval.

Lemma rows_fold_cons start record records ws :
  rows_fold cells_of start (record :: records) ws
  = rows_fold cells_of (S start) records (write_cells ws start (cells_of start record)).
Proof. reflexivity. Qed.

Lemma rows_fold_get_above records : forall start ws r c,
  r < start -> get_cell (rows_fold cells_of start records ws) r c = get_cell ws r c.
Proof.
  induction records as [|record records IH]; intros start ws r c Hr; [done|].
  rewrite rows_fold_cons, IH by lia.
  rewrite write_cells_row_fold, (row_fold_get _ _ PNone).
  rewrite bool_decide_eq_false_2; [done|lia].
Qed.

Lemma rows_fold_get records : forall start ws i record j v,
  records !! i = Some record -> cells_of (start + i) record !! j = Some v ->
  get_cell (rows_fold cells_of start records ws) (start + i) (S j)
  = set_val v (get_cell ws (start + i) (S j)).
Proof.
  induction records as [|record0 records IH]; intros start ws i record j v Hi Hj; [done|].
  rewrite rows_fold_cons. destruct i as [|i].
  - injection Hi as ->. rewrite Nat.add_0_r in *.
    rewrite rows_fold_get_above by lia.
    rewrite write_cells_row_fold, (row_fold_get _ _ PNone).
    apply lookup_lt_Some in Hj as Hlt.
    rewrite bool_decide_eq_true_2 by lia.
    replace (S j - 1) with j by lia. by rewrite (nth_lookup_Some _ _ _ _ Hj).
  - cbn in Hi. replace (start + S i) with (S start + i) in * by lia.
    rewrite (IH _ _ _ _ _ _ Hi Hj).
    rewrite write_cells_row_fold, (row_fold_get _ _ PNone).
    rewrite bool_decide_eq_false_2; [done|lia].
Qed.

Lemma rows_fold_settings records : forall start ws,
  same_settings (rows_fold cells_of start records ws) ws.
Proof.
  induction records as [|record records IH]; intros start ws; [apply same_settings_refl|].
  rewrite rows_fold_cons. eapply same_settings_trans; [apply IH|].
  rewrite write_cells_row_fold. apply row_fold_settings.
Qed.
Variable n : nat.
Hypothesis cells_of_length : forall row_num record, length (cells_of row_num record) = n.
Hypothesis n_pos : 1 <= n.

Lemma rows_fold_max_row records : forall start ws,
  max_row (rows_fold cells_of start records ws)
  = match records with
    | [] => max_row ws
    | _ => Nat.max (start + length records - 1) (max_row ws)
    end.
Proof.
  induction records as [|record records IH]; intros start ws; [done|].
  rewrite rows_fold_cons, IH, write_cells_row_fold, row_fold_max_row.
  pose proof (cells_of_length start record).
  destruct (cells_of start record); [cbn in *; lia|].
  destruct records; cbn [length]; lia.
Qed.

Lemma rows_fold_max_column records : forall start ws,
  max_column (rows_fold cells_of start records ws)
  = match records with [] => max_column ws | _ => Nat.max n (max_column ws) end.
Proof.
  induction records as [|record records IH]; intros start ws; [done|].
  rewrite rows_fold_cons, IH, write_cells_row_fold, row_fold_max_column.
  pose proof (cells_of_length start record) as Hlen.
  destruct (cells_of start record); [cbn in *; lia|].
  rewrite Hlen. destruct records; lia.
Qed.

End RowsFold.

(** ** Restyling every cell of the used range *)
Section Restyle.
Variable f : Cell -> Cell.
Hypothesis f_idem : forall c, f (f c) = f c.

Lemma restyle_row_get row cols : forall ws r c,
  get_cell (restyle_row f row cols ws) r c
  = if bool_decide (r = row /\ c ∈ cols) then f (get_cell ws r c) else get_cell ws r c.
Proof.
  induction cols as [|col cols IH]; intros ws r c.
  - cbn. rewrite bool_decide_eq_false_2; [done|]. intros [_ H]. by apply not_elem_of_nil in H.
  - unfold restyle_row. cbn [fold_left]. fold (restyle_row f row cols).
    change (fold_left _ cols ?w) with (restyle_row f row cols w).
    rewrite IH, get_cell_put.
    repeat case_bool_decide; destruct_and?; subst; try done;
      try (by rewrite f_idem); exfalso; set_solver.
Qed.

Lemma restyle_row_bounds row cols : forall ws,
  row <= max_row ws -> Forall (fun c => c <= max_column ws) cols ->
  max_row (restyle_row f row cols ws) = max_row ws /\
  max_column (restyle_row f row cols ws) = max_column ws /\
  same_settings (restyle_row f row cols ws) ws.
Proof.
  induction cols as [|col cols IH]; intros ws Hr Hc.
  - repeat split.
  - apply Forall_cons in Hc as [Hcol Hc].
    unfold restyle_row. cbn [fold_left].
    change (fold_left _ cols ?w) with (restyle_row f row cols w).
    set (ws1 := put_cell ws row col (f (get_cell ws row col))).
    assert (max_row ws1 = max_row ws) as E1 by (cbn; lia).
    assert (max_column ws1 = max_column ws) as E2 by (cbn; lia).
    destruct (IH ws1) as (H1 & H2 & H3); [lia|by rewrite E2|].
    split; [lia|]. split; [lia|].
    eapply same_settings_trans; [exact H3|]. by repeat split.
Qed.

Lemma restyle_rows_get rows cols : forall ws r c,
  get_cell (restyle_rows f rows cols ws) r c
  = if bool_decide (r ∈ rows /\ c ∈ cols) then f (get_cell ws r c) else get_cell ws r c.
Proof.
  induction rows as [|row rows IH]; intros ws r c.
  - cbn. rewrite bool_decide_eq_false_2; [done|]. intros [H _]. by apply not_elem_of_nil in H.
  - unfold restyle_rows. cbn [fold_left].
    change (fold_left _ rows ?w) with (restyle_rows f rows cols w).
    rewrite IH, restyle_row_get.
    repeat case_bool_decide; destruct_and?; subst; try done;
      try (by rewrite f_idem); exfalso; set_solver.
Qed.

Lemma restyle_rows_bounds rows cols : forall ws,
  Forall (fun r => r <= max_row ws) rows -> Forall (fun c => c <= max_column ws) cols ->
  max_row (restyle_rows f rows cols ws) = max_row ws /\
  max_column (restyle_rows f rows cols ws) = max_column ws /\
  same_settings (restyle_rows f rows cols ws) ws.
Proof.
  induction rows as [|row rows IH]; intros ws Hr Hc.
  - repeat split.
  - apply Forall_cons in Hr as [Hrow Hr].
    unfold restyle_rows. cbn [fold_left].
    change (fold_left _ rows ?w) with (restyle_rows f rows cols w).
    destruct (restyle_row_bounds row cols ws Hrow Hc) as (E1 & E2 & E3).
    destruct (IH (restyle_row f row cols ws)) as (H1 & H2 & H3);
      [by rewrite E1|by rewrite E2|].
    split; [lia|]. split; [lia|]. eapply same_settings_trans; eauto.
Qed.
End Restyle.

Lemma restyled_idem c : restyled (restyled c) = restyled c.
Proof. reflexivity. Qed.

Lemma restyle_cells_rows ws :
  restyle_cells ws = restyle_rows restyled (seq 1 (max_row ws)) (seq 1 (max_column ws)) ws.
Proof.
  unfold restyle_cells, restyle_rows, restyle_row. cbn zeta.
  apply fold_left_ext. intros a row. apply fold_left_ext. intros b col.
  unfold update_cell at 2. rewrite update_put. reflexivity.
Qed.

Lemma Forall_seq_le lo len : Forall (fun x => x <= lo + len - 1) (seq lo len).
Proof. apply Forall_forall. intros x Hx. apply elem_of_seq in Hx. lia. Qed.

Lemma restyle_cells_get ws r c :
  get_cell (restyle_cells ws) r c
  = if bool_decide (1 <= r <= max_row ws /\ 1 <= c <= max_column ws)
    then restyled (get_cell ws r c) else get_cell ws r c.
Proof.
  rewrite restyle_cells_rows, (restyle_rows_get _ restyled_idem).
  repeat case_bool_decide; try done; exfalso; rewrite !elem_of_seq in *; lia.
Qed.

Lemma restyle_cells_bounds ws :
  max_row (restyle_cells ws) = max_row ws /\
  max_column (restyle_cells ws) = max_column ws /\
  same_settings (restyle_cells ws) ws.
Proof.
  rewrite restyle_cells_rows. apply restyle_rows_bounds.
  - eapply Forall_impl; [apply Forall_seq_le|]. cbn. intros; lia.
  - eapply Forall_impl; [apply Forall_seq_le|]. cbn. intros; lia.
Qed.

(** ** Column widths *)
Section Autosize.
Variable U : unicode_data.

Lemma column_max_length_fold ws col rows : forall m,
  fold_left (fun max_length row =>
               let n := length (py_str U (cell_value (get_cell ws row col))) in
               if Nat.ltb max_length n then n else max_length) rows m
  = Nat.max m (max_list (map (cell_len U ws col) rows)).
Proof.
  induction rows as [|row rows IH]; intros m; simpl; [lia|].
  rewrite IH. unfold cell_len at 2.
  destruct (Nat.ltb_spec m (length (py_str U (cell_value (get_cell ws row col))))); lia.
Qed.

Lemma column_max_length_max ws rows col :
  column_max_length U ws rows col = max_list (map (cell_len U ws col) rows).
Proof. unfold column_max_length. by rewrite column_max_length_fold. Qed.

Lemma widths_fold_frame rows cols : forall ws,
  cells (widths_fold U rows cols ws) = cells ws /\
  max_row (widths_fold U rows cols ws) = max_row ws /\
  max_column (widths_fold U rows cols ws) = max_column ws /\
  merged_cells (widths_fold U rows cols ws) = merged_cells ws /\
  auto_filter_ref (widths_fold U rows cols ws) = auto_filter_ref ws /\
  freeze_panes (widths_fold U rows cols ws) = freeze_panes ws.
Proof.
  induction cols as [|col cols IH]; intros ws; [done|].
  unfold widths_fold. cbn [fold_left].
  change (fold_left _ cols ?w) with (widths_fold U rows cols w).
  destruct (IH (set_width ws col (capped_width (column_max_length U ws rows col))))
    as (-> & -> & -> & -> & -> & ->). done.
Qed.

Lemma column_max_length_cells ws ws' rows col :
  cells ws = cells ws' -> column_max_length U ws rows col = column_max_length U ws' rows col.
Proof.
  intros H. rewrite !column_max_length_max. f_equal. apply map_ext. intros row.
  unfold cell_len, get_cell. by rewrite H.
Qed.

Lemma widths_fold_width rows cols : forall ws c,
  column_width (widths_fold U rows cols ws) !! c
  = if bool_decide (c ∈ cols) then Some (capped_width (column_max_length U ws rows c))
    else column_width ws !! c.
Proof.
  induction cols as [|col cols IH]; intros ws c.
  - cbn. rewrite bool_decide_eq_false_2; [done|]. apply not_elem_of_nil.
  - unfold widths_fold. cbn [fold_left].
    change (fold_left _ cols ?w) with (widths_fold U rows cols w).
    rewrite IH.
    rewrite (column_max_length_cells (set_width ws col _) ws) by done.
    cbn [set_width column_width].
    repeat case_bool_decide; try done; try (exfalso; set_solver).
    + assert (c = col) as -> by set_solver. by rewrite lookup_insert_eq.
    + rewrite lookup_insert_ne; [done|]. set_solver.
Qed.

Lemma autosize_columns_fold ws :
  autosize_columns U ws = widths_fold U (seq 1 (max_row ws)) (seq 1 (max_column ws)) ws.
Proof. reflexivity. Qed.
End Autosize.

Lemma lookup_head {A} (x : A) l : (x :: l) !! 0 = Some x.
Proof. reflexivity. Qed.

Lemma lookup_tail {A} (x : A) l i : (x :: l) !! S i = l !! i.
Proof. reflexivity. Qed.

Lemma lookup_map {A B} (f : A -> B) l i : map f l !! i = f <$> (l !! i).
Proof. revert i. induction l as [|x l IH]; intros [|i]; cbn; auto. Qed.

Lemma seq_cases (P : nat -> Prop) lo n c :
  Forall P (seq lo n) -> lo <= c < lo + n -> P c.
Proof. rewrite Forall_forall. intros H Hc. apply H, elem_of_seq. lia. Qed.

Ltac each_of_seq tac :=
  repeat (first [apply Forall_nil_2 | apply Forall_cons_2]); tac.

Section BuilderFacts.
Variable U : unicode_data.

Lemma length_sheet_headers records is_all :
  length (sheet_headers records is_all) = if batch_is_expert records then 28 else 26.
Proof. unfold sheet_headers. by destruct (batch_is_expert records). Qed.

Lemma length_record_cells is_all is_expert row_num record :
  length (record_cells U is_all is_expert row_num record) = if is_expert then 28 else 26.
Proof. by destruct is_expert. Qed.

Lemma write_records_rows_fold ws records is_all is_expert :
  write_records U ws records is_all is_expert
  = rows_fold (record_cells U is_all is_expert) 2 records ws.
Proof. reflexivity. Qed.

Lemma get_cell_new_sheet r c : get_cell new_sheet r c = blank_cell.
Proof. unfold get_cell, new_sheet. cbn [cells]. by rewrite lookup_empty. Qed.

Lemma cell_value_restyled c : cell_value (restyled c) = cell_value c.
Proof. reflexivity. Qed.

Lemma cell_value_set_val_blank v : cell_value (set_val v blank_cell) = v.
Proof. by destruct v. Qed.

Lemma create_excel_worksheet_cons first rest is_all :
  create_excel_worksheet U new_sheet (first :: rest) is_all
  = set_filter_and_freeze (autosize_columns U (styled_sheet U (first :: rest) is_all))
      (1, 1, length (sheet_headers (first :: rest) is_all), length (first :: rest) + 1)
      (2, 1).
Proof. reflexivity. Qed.

Lemma headers_pos records is_all : 1 <= length (sheet_headers records is_all).
Proof. rewrite length_sheet_headers. destruct (batch_is_expert _); lia. Qed.

Lemma headed_get records is_all r c :
  get_cell (headed_sheet records is_all) r c
  = if bool_decide (r = 1 /\ 1 <= c < 1 + length (sheet_headers records is_all))
    then header_cell (nth (c - 1) (sheet_headers records is_all) []) blank_cell
    else blank_cell.
Proof.
  unfold headed_sheet. rewrite write_headers_row_fold, (row_fold_get _ _ ([] : str)).
  by rewrite get_cell_new_sheet.
Qed.

Lemma headed_bounds records is_all :
  max_row (headed_sheet records is_all) = 1 /\
  max_column (headed_sheet records is_all) = length (sheet_headers records is_all).
Proof.
  unfold headed_sheet.
  rewrite write_headers_row_fold, row_fold_max_row, row_fold_max_column.
  pose proof (headers_pos records is_all) as Hpos.
  destruct (sheet_headers records is_all) as [|h hs]; [cbn in Hpos; lia|].
  change (max_row new_sheet) with 1. change (max_column new_sheet) with 1.
  cbn [length]. lia.
Qed.

Lemma record_cells_length records is_all row_num record :
  length (record_cells U is_all (batch_is_expert records) row_num record)
  = length (sheet_headers records is_all).
Proof. by rewrite length_record_cells, length_sheet_headers. Qed.

Lemma filled_bounds first rest is_all :
  max_row (filled_sheet U (first :: rest) is_all) = length (first :: rest) + 1 /\
  max_column (filled_sheet U (first :: rest) is_all)
  = length (sheet_headers (first :: rest) is_all).
Proof.
  destruct (headed_bounds (first :: rest) is_all) as [E1 E2].
  unfold filled_sheet. rewrite write_records_rows_fold.
  rewrite (rows_fold_max_row _ (length (sheet_headers (first :: rest) is_all))
             (record_cells_length (first :: rest) is_all)
             (headers_pos (first :: rest) is_all)).
  rewrite (rows_fold_max_column _ (length (sheet_headers (first :: rest) is_all))
             (record_cells_length (first :: rest) is_all)
             (headers_pos (first :: rest) is_all)).
  rewrite E1, E2. cbn [length]. lia.
Qed.

Lemma filled_header records is_all j h :
  sheet_headers records is_all !! j = Some h ->
  get_cell (filled_sheet U records is_all) 1 (S j) = header_cell h blank_cell.
Proof.
  intros Hj. unfold filled_sheet. rewrite write_records_rows_fold, rows_fold_get_above by lia.
  rewrite headed_get. apply lookup_lt_Some in Hj as Hlt.
  rewrite bool_decide_eq_true_2 by lia.
  replace (S j - 1) with j by lia. by rewrite (nth_lookup_Some _ _ _ _ Hj).
Qed.

Lemma filled_record records is_all i record j v :
  records !! i = Some record ->
  record_cells U is_all (batch_is_expert records) (i + 2) record !! j = Some v ->
  get_cell (filled_sheet U records is_all) (i + 2) (S j) = set_val v blank_cell.
Proof.
  intros Hi Hj. unfold filled_sheet. rewrite write_records_rows_fold.
  replace (i + 2) with (2 + i) in * by lia.
  rewrite (rows_fold_get _ _ _ _ _ _ _ _ Hi Hj).
  rewrite headed_get, bool_decide_eq_false_2; [done|lia].
Qed.

Lemma built_cells first rest is_all :
  cells (create_excel_worksheet U new_sheet (first :: rest) is_all)
  = cells (styled_sheet U (first :: rest) is_all).
Proof.
  rewrite create_excel_worksheet_cons, autosize_columns_fold.
  change (cells (set_filter_and_freeze ?w _ _)) with (cells w).
  apply widths_fold_frame.
Qed.

Lemma built_get first rest is_all r c :
  get_cell (create_excel_worksheet U new_sheet (first :: rest) is_all) r c
  = if bool_decide (1 <= r <= length (first :: rest) + 1 /\
                    1 <= c <= length (sheet_headers (first :: rest) is_all))
    then restyled (get_cell (filled_sheet U (first :: rest) is_all) r c)
    else get_cell (filled_sheet U (first :: rest) is_all) r c.
Proof.
  unfold get_cell at 1. rewrite built_cells.
  change (default blank_cell (cells ?w !! (r, c))) with (get_cell w r c).
  unfold styled_sheet. rewrite restyle_cells_get.
  by destruct (filled_bounds first rest is_all) as [-> ->].
Qed.

Lemma built_bounds first rest is_all :
  max_row (create_excel_worksheet U new_sheet (first :: rest) is_all)
  = length (first :: rest) + 1 /\
  max_column (create_excel_worksheet U new_sheet (first :: rest) is_all)
  = length (sheet_headers (first :: rest) is_all).
Proof.
  rewrite create_excel_worksheet_cons, autosize_columns_fold.
  change (max_row (set_filter_and_freeze ?w _ _)) with (max_row w).
  change (max_column (set_filter_and_freeze ?w _ _)) with (max_column w).
  destruct (widths_fold_frame U (seq 1 (max_row (styled_sheet U (first :: rest) is_all)))
              (seq 1 (max_column (styled_sheet U (first :: rest) is_all)))
              (styled_sheet U (first :: rest) is_all)) as (_ & -> & -> & _).
  unfold styled_sheet.
  destruct (restyle_cells_bounds (filled_sheet U (first :: rest) is_all)) as (-> & -> & _).
  apply filled_bounds.
Qed.

(** Every cell of the sheet holds the value written for it. *)
Lemma built_values first rest is_all i j rowvals v :
  sheet_rows U (first :: rest) is_all !! i = Some rowvals -> rowvals !! j = Some v ->
  cell_value (get_cell (create_excel_worksheet U new_sheet (first :: rest) is_all)
                (S i) (S j)) = v.
Proof.
  intros Hi Hj.
  assert (cell_value (get_cell (filled_sheet U (first :: rest) is_all) (S i) (S j)) = v) as E.
  { destruct i as [|i].
    - unfold sheet_rows in Hi. rewrite lookup_head in Hi.
      apply (inj Some) in Hi. subst rowvals.
      rewrite lookup_map in Hj.
      destruct (sheet_headers (first :: rest) is_all !! j) as [h|] eqn:Hh;
        [|discriminate Hj].
      apply (inj Some) in Hj. subst v. rewrite (filled_header _ _ j h Hh). reflexivity.
    - unfold sheet_rows in Hi. rewrite lookup_tail, list_lookup_imap in Hi.
      destruct ((first :: rest) !! i) as [record|] eqn:Hr; [|discriminate Hi].
      apply (inj Some) in Hi. subst rowvals.
      replace (S (S i)) with (i + 2) by lia.
      rewrite (filled_record _ _ i record j v Hr Hj). apply cell_value_set_val_blank. }
  rewrite built_get. case_bool_decide; [rewrite cell_value_restyled|]; exact E.
Qed.
End BuilderFacts.

Section BuilderClaims.
Variable U : unicode_data.

(** Claim C5: the header of a sheet with records.  It is the 23 common
    columns followed by the 5 expert columns when the unit of the first
    record starts with expert_ and by the 3 bureau columns otherwise; the
    choice depends on the unit of the first record alone, and the header
    is what row 1 of the built sheet holds. *)
Theorem header_layout first rest is_all :
  let records := first :: rest in
  let ws := create_excel_worksheet U new_sheet records is_all in
  sheet_headers records is_all
  = common_headers is_all
      ++ (if startswith (bureau_number first) (u "expert_")
          then expert_headers else bureau_headers)
  /\ length (common_headers is_all) = 23
  /\ length expert_headers = 5
  /\ length bureau_headers = 3
  /\ (forall j h, sheet_headers records is_all !! j = Some h ->
                  cell_value (get_cell ws 1 (S j)) = PStr h)
  /\ max_column ws = length (sheet_headers records is_all)
  /\ (forall first' rest', bureau_number first' = bureau_number first ->
        sheet_headers (first' :: rest') is_all = sheet_headers records is_all).
Proof.
  cbn zeta. split; [reflexivity|]. split; [by destruct is_all|].
  split; [reflexivity|]. split; [reflexivity|]. split; [|split].
  - intros j h Hj.
    apply (built_values U first rest is_all 0 j
             (map PStr (sheet_headers (first :: rest) is_all))); [reflexivity|].
    by rewrite lookup_map, Hj.
  - apply built_bounds.
  - intros first' rest' E. unfold sheet_headers, batch_is_expert. by rewrite E.
Qed.

(** Claim C6: the sheet of an empty batch.  It is the header row followed
    by the placeholder row and nothing else: two rows of 26 columns, the
    cell of row 2 and column 1 merged with itself and reading Нет записей,
    the other cells of row 2 empty, every column 15 wide, no filter and no
    frozen pane; the per-record steps are not run. *)
Theorem empty_batch_sheet is_all :
  let headers := sheet_headers [] is_all in
  let ws := create_excel_worksheet U new_sheet [] is_all in
  ws = write_placeholder (write_headers new_sheet headers) headers
  /\ length headers = 26
  /\ max_row ws = 2 /\ max_column ws = 26
  /\ (forall r c cell, cells ws !! (r, c) = Some cell -> 1 <= r <= 2 /\ 1 <= c <= 26)
  /\ (forall j h, headers !! j = Some h -> cell_value (get_cell ws 1 (S j)) = PStr h)
  /\ cell_value (get_cell ws 2 1) = PStr (u "Нет записей")
  /\ merged_cells ws = [(1, 2, 1, 2)]
  /\ (forall c, 2 <= c <= 26 -> cell_value (get_cell ws 2 c) = PStr [])
  /\ (forall c, 1 <= c <= 26 -> column_width ws !! c = Some (W_int 15))
  /\ (forall c w, column_width ws !! c = Some w -> w = W_int 15)
  /\ auto_filter_ref ws = None /\ freeze_panes ws = None.
Proof.
  cbn zeta. split; [reflexivity|]. split; [by destruct is_all|].
  split; [by destruct is_all; vm_compute|]. split; [by destruct is_all; vm_compute|].
  split.
  { intros r c cell H. apply elem_of_map_to_list in H.
    assert (Forall (fun p => 1 <= p.1.1 <= 2 /\ 1 <= p.1.2 <= 26)
              (map_to_list (cells (create_excel_worksheet U new_sheet [] is_all)))) as HF.
    { destruct is_all; decide_true. }
    rewrite Forall_forall in HF. apply (HF _ H). }
  split.
  { intros j h Hj. apply lookup_lt_Some in Hj as Hlt.
    assert (0 <= j < 0 + 26) as Hr by (destruct is_all; cbn in Hlt; lia).
    revert h Hj. clear Hlt. pattern j. apply (seq_cases _ 0 26 j); [|exact Hr].
    destruct is_all;
      each_of_seq ltac:(intros h Hj; vm_compute in Hj; injection Hj as <-;
                         vm_compute; reflexivity). }
  split; [by destruct is_all; vm_compute|]. split; [by destruct is_all; vm_compute|].
  split.
  { intros c Hc. pattern c. apply (seq_cases _ 2 25 c); [|lia].
    destruct is_all; each_of_seq ltac:(vm_compute; reflexivity). }
  split.
  { intros c Hc. pattern c. apply (seq_cases _ 1 26 c); [|lia].
    destruct is_all; each_of_seq ltac:(vm_compute; reflexivity). }
  split.
  { intros c w H. apply elem_of_map_to_list in H.
    assert (Forall (fun p => p.2 = W_int 15)
              (map_to_list (column_width (create_excel_worksheet U new_sheet [] is_all)))) as HF.
    { destruct is_all; vm_compute; each_of_seq ltac:(reflexivity). }
    rewrite Forall_forall in HF. apply (HF _ H). }
  split; by destruct is_all; vm_compute.
Qed.
End BuilderClaims.

Section StyleAndWidthClaims.
Variable U : unicode_data.

Lemma built_header_cell first rest is_all j h :
  sheet_headers (first :: rest) is_all !! j = Some h ->
  get_cell (create_excel_worksheet U new_sheet (first :: rest) is_all) 1 (S j)
  = restyled (header_cell h blank_cell).
Proof.
  intros Hj. rewrite built_get. apply lookup_lt_Some in Hj as Hlt.
  rewrite bool_decide_eq_true_2 by (cbn [length]; lia).
  by rewrite (filled_header U _ _ j h Hj).
Qed.

(** Claim C7, as amended: the header row.  On every built sheet each
    header cell is bold, bordered, wrapped and centred vertically; on a
    sheet with records the panes are frozen at A2 and the filter covers
    the used range, from A1 to the last column of the last record row; on
    the sheet of an empty batch neither is set and the header cells are
    centred horizontally. *)
Theorem header_row_style records is_all :
  let headers := sheet_headers records is_all in
  let ws := create_excel_worksheet U new_sheet records is_all in
  (forall j h, headers !! j = Some h ->
     cell_value (get_cell ws 1 (S j)) = PStr h /\
     bold (cell_font (get_cell ws 1 (S j))) = true /\
     cell_border (get_cell ws 1 (S j)) = THIN_BORDER /\
     wrap_text (cell_alignment (get_cell ws 1 (S j))) = true /\
     vertical (cell_alignment (get_cell ws 1 (S j))) = Some (u "center"))
  /\ (records <> [] ->
      freeze_panes ws = Some (2, 1) /\
      auto_filter_ref ws = Some (1, 1, length headers, length records + 1) /\
      max_row ws = length records + 1 /\ max_column ws = length headers)
  /\ (records = [] ->
      freeze_panes ws = None /\ auto_filter_ref ws = None /\
      forall j h, headers !! j = Some h ->
        horizontal (cell_alignment (get_cell ws 1 (S j))) = Some (u "center")).
Proof.
  cbn zeta. destruct records as [|first rest].
  - assert (forall j h, sheet_headers [] is_all !! j = Some h ->
              let c := get_cell (create_excel_worksheet U new_sheet [] is_all) 1 (S j) in
              cell_value c = PStr h /\ bold (cell_font c) = true /\
              cell_border c = THIN_BORDER /\ wrap_text (cell_alignment c) = true /\
              vertical (cell_alignment c) = Some (u "center") /\
              horizontal (cell_alignment c) = Some (u "center")) as Hcells.
    { intros j h Hj. apply lookup_lt_Some in Hj as Hlt.
      assert (0 <= j < 0 + 26) as Hr by (destruct is_all; cbn in Hlt; lia).
      revert h Hj. clear Hlt. pattern j. apply (seq_cases _ 0 26 j); [|exact Hr].
      destruct is_all;
        each_of_seq ltac:(intros h Hj; vm_compute in Hj; injection Hj as <-;
                           vm_compute; repeat split). }
    split; [|split].
    + intros j h Hj. destruct (Hcells j h Hj) as (?&?&?&?&?&?). auto.
    + done.
    + intros _. split; [by destruct is_all; vm_compute|].
      split; [by destruct is_all; vm_compute|].
      intros j h Hj. by destruct (Hcells j h Hj) as (?&?&?&?&?&?).
  - split; [|split].
    + intros j h Hj. rewrite (built_header_cell first rest is_all j h Hj). by repeat split.
    + intros _. destruct (built_bounds U first rest is_all) as [E1 E2].
      split; [|split; [|split]]; [| |exact E1|exact E2];
        rewrite create_excel_worksheet_cons; reflexivity.
    + done.
Qed.

Lemma length_sheet_rows records is_all :
  length (sheet_rows U records is_all) = S (length records).
Proof. unfold sheet_rows. cbn [length]. by rewrite length_imap. Qed.

Lemma sheet_row_length records is_all i rowvals :
  sheet_rows U records is_all !! i = Some rowvals ->
  length rowvals = length (sheet_headers records is_all).
Proof.
  unfold sheet_rows. destruct i as [|i].
  - rewrite lookup_head. intros H. apply (inj Some) in H. subst. apply length_map.
  - rewrite lookup_tail, list_lookup_imap.
    destruct (records !! i) as [record|]; [|discriminate].
    intros H. apply (inj Some) in H. subst. apply record_cells_length.
Qed.

(** Claim C8, as amended: the column widths of a sheet with records.
    The width of every column is the length of the longest [str] of a
    value of the column, header included, plus 2, times 1.2, and 50 when
    that exceeds 50. *)
Theorem column_widths first rest is_all col :
  1 <= col <= length (sheet_headers (first :: rest) is_all) ->
  column_width (create_excel_worksheet U new_sheet (first :: rest) is_all) !! col
  = Some (capped_width (longest U (sheet_rows U (first :: rest) is_all) col))
  /\ capped_width (longest U (sheet_rows U (first :: rest) is_all) col)
     = (let adjusted :=
          (float_of_nat (longest U (sheet_rows U (first :: rest) is_all) col + 2) * 1.2)%float in
        if PrimFloat.ltb 50%float adjusted then W_int 50 else W_float adjusted).
Proof.
  intros Hcol. split; [|reflexivity].
  rewrite create_excel_worksheet_cons.
  change (column_width (set_filter_and_freeze ?w _ _)) with (column_width w).
  rewrite autosize_columns_fold, widths_fold_width.
  destruct (restyle_cells_bounds (filled_sheet U (first :: rest) is_all)) as (E1 & E2 & _).
  destruct (filled_bounds U first rest is_all) as [F1 F2].
  fold (styled_sheet U (first :: rest) is_all) in E1, E2.
  rewrite bool_decide_eq_true_2 by (apply elem_of_seq; lia).
  f_equal. f_equal. rewrite column_max_length_max. unfold longest. f_equal.
  apply list_eq. intros i. rewrite !lookup_map.
  rewrite E1, F1.
  destruct (sheet_rows U (first :: rest) is_all !! i) as [rowvals|] eqn:Hrow.
  - apply lookup_lt_Some in Hrow as Hlt. rewrite length_sheet_rows in Hlt.
    rewrite lookup_seq_lt by (cbn [length] in *; lia). cbn [fmap option_fmap option_map].
    f_equal. unfold cell_len.
    pose proof (sheet_row_length _ _ _ _ Hrow) as Hlen.
    destruct (lookup_lt_is_Some_2 rowvals (col - 1)) as [v Hv]; [lia|].
    rewrite (nth_lookup_Some _ _ _ _ Hv).
    pose proof (built_values U first rest is_all i (col - 1) rowvals v Hrow Hv) as Hval.
    replace (S (col - 1)) with col in Hval by lia.
    unfold get_cell in Hval. rewrite built_cells in Hval.
    unfold get_cell. replace (1 + i) with (S i) by lia. by rewrite Hval.
  - apply lookup_ge_None in Hrow. rewrite length_sheet_rows in Hrow.
    rewrite lookup_seq_ge by (cbn [length] in *; lia). done.
Qed.
End StyleAndWidthClaims.

Lemma header_row_style_witness :
  freeze_panes (create_excel_worksheet ascii_only new_sheet [example_row] false) = Some (2, 1)
  /\ bold (cell_font (get_cell (create_excel_worksheet ascii_only new_sheet [example_row] false)
                        1 2)) = true.
Proof.
  destruct (header_row_style ascii_only [example_row] false) as (Hcells & Hfull & _).
  split.
  - apply Hfull. discriminate.
  - apply (Hcells 1 (u "ФИО")). reflexivity.
Defined.

(** claim C7, as stated, fails: an empty sheet is neither frozen nor
    filtered, and the header of a sheet with records is aligned left. *)
Lemma header_row_neither_frozen_nor_centered :
  freeze_panes (create_excel_worksheet ascii_only new_sheet [] false) = None
  /\ auto_filter_ref (create_excel_worksheet ascii_only new_sheet [] false) = None
  /\ horizontal (cell_alignment
       (get_cell (create_excel_worksheet ascii_only new_sheet [example_row] false) 1 1))
     = Some (u "left").
Proof. vm_compute. auto. Qed.

Lemma column_widths_witness :
  column_width (create_excel_worksheet ascii_only new_sheet [example_row] false) !! 2
  = Some (capped_width (longest ascii_only (sheet_rows ascii_only [example_row] false) 2)).
Proof.
  apply (proj1 (column_widths ascii_only example_row [] false 2
                  ltac:(vm_compute; lia))).
Defined.

(** claim C8, as stated, fails: the padding is added before the factor is
    applied. *)
Lemma width_pads_before_scaling :
  longest ascii_only (sheet_rows ascii_only [example_row] false) 2 = 11
  /\ column_width (create_excel_worksheet ascii_only new_sheet [example_row] false) !! 2
     = Some (W_float (adjusted_width 11))
  /\ column_width (create_excel_worksheet ascii_only new_sheet [example_row] false) !! 2
     <> Some (spec_width 11).
Proof.
  split; [vm_compute; reflexivity|]. split; [vm_compute; reflexivity|].
  intros H.
  apply (f_equal (fun o => match o with
                           | Some (W_float f) => PrimFloat.ltb 15.5%float f
                           | _ => false
                           end)) in H.
  vm_compute in H. discriminate.
Qed.

Lemma header_layout_witness :
  cell_value (get_cell (create_excel_worksheet ascii_only new_sheet [example_row] false) 1 2)
  = PStr (u "ФИО")
  /\ length (sheet_headers [example_row] false) = 23 + 3.
Proof.
  destruct (header_layout ascii_only example_row [] false) as (_ & _ & _ & _ & Hcells & _).
  split.
  - apply (Hcells 1 (u "ФИО")). reflexivity.
  - reflexivity.
Defined.

Lemma empty_batch_sheet_witness :
  column_width (create_excel_worksheet ascii_only new_sheet [] true) !! 26 = Some (W_int 15)
  /\ cell_value (get_cell (create_excel_worksheet ascii_only new_sheet [] true) 2 26) = PStr [].
Proof.
  destruct (empty_batch_sheet ascii_only true)
    as (_ & _ & _ & _ & _ & _ & _ & _ & Hblank & Hwidth & _).
  split; [apply Hwidth | apply Hblank]; lia.
Defined.

Local Close Scope nat_scope.
Local Open Scope Z_scope.

(** ** The workbook assembler *)

Lemma filter_complement_length {A} (P : A -> Prop) `{!forall x, Decision (P x)} (l : list A) :
  (length (filter P l) + length (filter (fun x => ~ P x) l) = length l)%nat.
Proof.
  induction l as [|x l IH]; [done|].
  destruct (decide (P x)).
  - rewrite (filter_cons_True P), (filter_cons_False (fun x => ~ P x)) by auto.
    cbn [length]. lia.
  - rewrite (filter_cons_False P), (filter_cons_True (fun x => ~ P x)) by auto.
    cbn [length]. lia.
Qed.

Lemma StronglySorted_filter {A} (R : A -> A -> Prop) (P : A -> Prop)
    `{!forall x, Decision (P x)} (l : list A) :
  StronglySorted R l -> StronglySorted R (filter P l).
Proof.
  induction 1 as [|x l Hl IH Hx]; [constructor|].
  destruct (decide (P x)).
  - rewrite filter_cons_True by done. constructor; [done|].
    rewrite Forall_forall in *. intros y Hy. apply Hx.
    by apply list_elem_of_filter in Hy as [_ ?].
  - by rewrite filter_cons_False.
Qed.

Lemma StronglySorted_seqZ m n : StronglySorted Z.lt (seqZ m n).
Proof.
  unfold seqZ. generalize (Z.to_nat n) as k. generalize 0%nat as s.
  intros s k. revert s. induction k as [|k IH]; intros s; cbn; constructor; [apply IH|].
  rewrite Forall_fmap, Forall_forall. intros i Hi. apply elem_of_seq in Hi. cbn. lia.
Qed.

Lemma length_slice_to n s : (length (slice_to n s) <= n)%nat.
Proof. unfold slice_to. rewrite length_take. lia. Qed.

Section AssemblerClaims.
Variable U : unicode_data.
Variable settings : Settings.

Lemma bureau_sheets_names records l : forall workbook,
  sheetnames
    (fold_left
       (fun workbook i =>
          if bool_decide (i ∈ excluded_bureaus settings) then workbook
          else add_sheet U workbook (bureau_title i)
                 (records_of records (u "bureau_" ++ int_to_str i)) false)
       l workbook)
  = sheetnames workbook
      ++ map bureau_title (filter (fun i => i ∉ excluded_bureaus settings) l).
Proof.
  induction l as [|i l IH]; intros workbook; cbn [fold_left].
  - by rewrite filter_nil, app_nil_r.
  - rewrite IH. case_bool_decide as Hi.
    + rewrite filter_cons_False; [done|]. by intros ?.
    + rewrite filter_cons_True by done. unfold add_sheet, sheetnames.
      rewrite map_app. cbn [map fst]. by rewrite <- app_assoc.
Qed.

Lemma expert_sheets_names records l : forall workbook,
  sheetnames
    (fold_left
       (fun workbook expert =>
          add_sheet U workbook (expert_title expert)
            (records_of records (u "expert_" ++ int_to_str expert)) false)
       l workbook)
  = sheetnames workbook ++ map expert_title l.
Proof.
  induction l as [|e l IH]; intros workbook; cbn [fold_left].
  - by rewrite app_nil_r.
  - rewrite IH. unfold add_sheet, sheetnames.
    rewrite map_app. cbn [map fst]. by rewrite <- app_assoc.
Qed.

Lemma all_workbook_names records :
  sheetnames (create_excel_workbook U settings records (u "all"))
  = u "Все записи" :: map bureau_title (sheet_bureaus settings)
      ++ map expert_title (experts settings).
Proof.
  unfold create_excel_workbook. rewrite bool_decide_eq_true_2 by done. cbn zeta.
  rewrite expert_sheets_names, bureau_sheets_names. reflexivity.
Qed.

Lemma sheet_bureaus_count :
  0 <= bureau_count settings ->
  NoDup (excluded_bureaus settings) ->
  (forall i, i ∈ excluded_bureaus settings -> 1 <= i <= bureau_count settings) ->
  Z.of_nat (length (sheet_bureaus settings))
  = bureau_count settings - Z.of_nat (length (excluded_bureaus settings)).
Proof.
  intros Hn Hnd Hin. unfold sheet_bureaus.
  pose proof (filter_complement_length (fun i => i ∈ excluded_bureaus settings)
                (seqZ 1 (bureau_count settings))) as Hsum.
  rewrite length_seqZ in Hsum.
  assert (filter (fun i => i ∈ excluded_bureaus settings) (seqZ 1 (bureau_count settings))
          ≡ₚ excluded_bureaus settings) as Hperm.
  { apply NoDup_Permutation; [apply NoDup_filter, NoDup_seqZ|done|].
    intros i. rewrite list_elem_of_filter, elem_of_seqZ. split; [tauto|].
    intros Hi. split; [done|]. specialize (Hin i Hi). lia. }
  apply Permutation_length in Hperm. lia.
Qed.

(** Claim C4: the sheets of the workbook for the selector all.  Whatever
    the records, the sheets are the sheet of all records, then one sheet
    per bureau from 1 to [bureau_count] that is not excluded, in ascending
    order, then one sheet per expert panel in the order of the settings;
    every title has at most 31 characters; the titles depend on the
    settings only; and when the excluded bureaus are distinct numbers of
    the range the number of sheets is
    1 + (bureau_count - excluded) + experts. *)
Theorem all_workbook_sheets records :
  let workbook := create_excel_workbook U settings records (u "all") in
  sheetnames workbook
  = u "Все записи" :: map bureau_title (sheet_bureaus settings)
      ++ map expert_title (experts settings)
  /\ StronglySorted Z.lt (sheet_bureaus settings)
  /\ (forall i, i ∈ sheet_bureaus settings
                <-> 1 <= i <= bureau_count settings /\ i ∉ excluded_bureaus settings)
  /\ (forall title, title ∈ sheetnames workbook -> (length title <= 31)%nat)
  /\ (forall records',
        sheetnames (create_excel_workbook U settings records' (u "all"))
        = sheetnames workbook)
  /\ length workbook
     = (1 + length (sheet_bureaus settings) + length (experts settings))%nat
  /\ (0 <= bureau_count settings ->
      NoDup (excluded_bureaus settings) ->
      (forall i, i ∈ excluded_bureaus settings -> 1 <= i <= bureau_count settings) ->
      Z.of_nat (length workbook)
      = 1 + (bureau_count settings - Z.of_nat (length (excluded_bureaus settings)))
        + Z.of_nat (length (experts settings))).
Proof.
  cbn zeta.
  assert (length (create_excel_workbook U settings records (u "all"))
          = (1 + length (sheet_bureaus settings) + length (experts settings))%nat) as Hlen.
  { rewrite <- (length_map fst). fold (sheetnames (create_excel_workbook U settings records (u "all"))).
    rewrite all_workbook_names. cbn [length]. rewrite length_app, !length_map. lia. }
  split; [apply all_workbook_names|]. split; [apply StronglySorted_filter, StronglySorted_seqZ|].
  split.
  { intros i. unfold sheet_bureaus. rewrite list_elem_of_filter, elem_of_seqZ. split.
    - intros [? ?]. split; [lia|done].
    - intros [? ?]. split; [done|lia]. }
  split.
  { intros title. rewrite all_workbook_names.
    rewrite elem_of_cons, elem_of_app, !list_elem_of_fmap.
    intros [->|[(i & -> & _)|(e & -> & _)]]; [vm_compute; lia|apply length_slice_to..]. }
  split; [intros records'; by rewrite !all_workbook_names|].
  split; [exact Hlen|].
  intros Hn Hnd Hin. rewrite Hlen, <- (sheet_bureaus_count Hn Hnd Hin). lia.
Qed.
End AssemblerClaims.

Lemma all_workbook_sheets_witness :
  Z.of_nat (length (create_excel_workbook ascii_only default_settings [] (u "all")))
  = 1 + (42 - 5) + 6.
Proof.
  apply (proj2 (proj2 (proj2 (proj2 (proj2 (proj2
           (all_workbook_sheets ascii_only default_settings []))))))).
  - vm_compute. discriminate.
  - apply (bool_decide_unpack _). vm_compute. exact I.
  - intros i Hi. vm_compute in Hi.
    repeat (apply elem_of_cons in Hi as [->|Hi]; [vm_compute; split; discriminate|]).
    by apply not_elem_of_nil in Hi.
Defined.

Local Close Scope Z_scope.
Local Open Scope N_scope.

(** ** More on the field normaliser *)

Section KeyFacts.
Variable U : unicode_data.

Lemma lstrip_char_no_lead c s : startswith (lstrip_char c s) [c] = false.
Proof.
  induction s as [|x s IH]; [done|]. cbn. destruct (x =? c) eqn:E; [done|].
  cbn. by rewrite E.
Qed.

Lemma lstrip_char_id c s : startswith s [c] = false -> lstrip_char c s = s.
Proof.
  destruct s as [|x s]; [done|]. cbn. destruct (x =? c); [|done].
  cbn. by destruct s.
Qed.

Lemma lstrip_char_Forall (P : N -> Prop) c s : Forall P s -> Forall P (lstrip_char c s).
Proof.
  induction 1 as [|x s Hx Hs IH]; [constructor|]. cbn.
  destruct (x =? c); [done|by constructor].
Qed.

Lemma flat_map_singletons {A} (p : A -> bool) (g : A -> list A) (l : list A) :
  Forall (fun c => p c = false) l -> flat_map (fun c => if p c then g c else [c]) l = l.
Proof. induction 1 as [|x l Hx _ IH]; [done|]. cbn. by rewrite Hx, IH. Qed.

Lemma ascii_snake_char c :
  is_ascii c = true ->
  Forall (fun c' => is_ascii c' = true /\ isupper U c' = false)
         (if isupper U c then 95 :: lower_char U c else [c]).
Proof.
  intros Hc. unfold isupper, lower_char. rewrite Hc.
  destruct (ascii_isupper c) eqn:E.
  - unfold ascii_isupper in E. apply andb_true_iff in E as [E1 E2].
    apply N.leb_le in E1, E2. unfold ascii_lower, ascii_isupper.
    rewrite (proj2 (N.leb_le _ _) E1), (proj2 (N.leb_le _ _) E2). cbn [andb].
    repeat constructor.
    + unfold is_ascii. apply N.ltb_lt. lia.
    + assert (is_ascii (c + 32) = true) as -> by (unfold is_ascii; apply N.ltb_lt; lia).
      unfold ascii_isupper. apply andb_false_iff. right. apply N.leb_gt. lia.
  - repeat constructor; [done|]. by rewrite Hc.
Qed.

(** Property X1.  [snake_key] gives a canonical key: the result never
    starts with an underscore; a key with no upper-case letter and no
    leading underscore is left as it is; and for a key of ASCII characters
    the result is ASCII, has no upper-case letter, and is left as it is by
    a second conversion. *)
Theorem snake_key_is_canonical key :
  startswith (snake_key U key) [95] = false
  /\ (Forall (fun c => isupper U c = false) key -> startswith key [95] = false ->
      snake_key U key = key)
  /\ (forallb is_ascii key = true ->
      Forall (fun c => is_ascii c = true /\ isupper U c = false) (snake_key U key)
      /\ snake_key U (snake_key U key) = snake_key U key).
Proof.
  assert (forall k, Forall (fun c => isupper U c = false) k -> startswith k [95] = false ->
                    snake_key U k = k) as Hid.
  { intros k Hk Hs. unfold snake_key. rewrite flat_map_singletons by done.
    by apply lstrip_char_id. }
  split; [apply lstrip_char_no_lead|]. split; [apply Hid|].
  intros Ha.
  assert (Forall (fun c => is_ascii c = true /\ isupper U c = false) (snake_key U key)) as HF.
  { unfold snake_key. apply lstrip_char_Forall.
    rewrite forallb_forall in Ha.
    induction key as [|c key IH]; [constructor|]. cbn [flat_map].
    apply Forall_app. split.
    - apply ascii_snake_char. apply Ha. by left.
    - apply IH. intros x Hx. apply Ha. by right. }
  split; [done|]. apply Hid; [|apply lstrip_char_no_lead].
  eapply Forall_impl; [exact HF|]. by intros c [_ ?].
Qed.
End KeyFacts.

Lemma snake_key_is_canonical_witness :
  snake_key ascii_only (u "mse_date") = u "mse_date"
  /\ snake_key ascii_only (snake_key ascii_only (u "MseDate")) = snake_key ascii_only (u "MseDate").
Proof.
  destruct (snake_key_is_canonical ascii_only (u "mse_date")) as (_ & Hid & _).
  destruct (snake_key_is_canonical ascii_only (u "MseDate")) as (_ & _ & Hascii).
  split.
  - apply Hid; [|reflexivity]. repeat constructor.
  - apply Hascii. reflexivity.
Defined.

Section RowFacts.
Variable U : unicode_data.

(** Property X3.  A field that is no date and not the full name is stored
    as the payload gives it, the empty text as null; among the items
    stored under one column the last one counts. *)
Theorem other_fields_are_stored bn pre key value post f row :
  f ∉ date_fields -> f <> u "full_name" ->
  item_target U key = Some f -> not_stored_later U f post ->
  create_or_update_record U bn (pre ++ (key, value) :: post) = Ok row ->
  (value = PNone \/ value = PStr [] -> row !! f = Some PNone)
  /\ (value <> PNone -> value <> PStr [] ->
      (forall l, value = PList l -> f <> u "special_marks") ->
      row !! f = Some value).
Proof.
  intros Hf Hfn Ht Hpost Hrow.
  destruct (accepted_plain_field U bn pre key value post f row Hf Hfn Ht Hpost Hrow)
    as (td0 & td1 & H1 & ->).
  rewrite (transform_item_plain U td0 key value f Ht Hf) in H1.
  split.
  - intros [-> | ->]; injection H1 as <-; apply lookup_insert_eq.
  - intros Hn He Hl. destruct value as [|b|z|s|d|l]; try done;
      try (injection H1 as <-; apply lookup_insert_eq).
    + destruct s; [done|]. injection H1 as <-. apply lookup_insert_eq.
    + rewrite bool_decide_eq_false_2 in H1 by (by apply (Hl l)).
      injection H1 as <-. apply lookup_insert_eq.
Qed.

(** Property X2.  An item whose key is [bureanumber] in any letter case is
    ignored: the payload is treated as the payload without it. The key
    [bureauNumber] is not such a key: it is stored under [bureau_number]. *)
Theorem skipped_key_is_ignored bn pre key value post :
  lower U key = u "bureanumber" ->
  create_or_update_record U bn (pre ++ (key, value) :: post)
  = create_or_update_record U bn (pre ++ post)
  /\ item_target U (u "bureauNumber") = Some (u "bureau_number").
Proof.
  intros Hk. split; [|vm_compute; reflexivity].
  unfold create_or_update_record. rewrite !transform_data_app. cbn [transform_data].
  destruct (transform_data U ∅ pre) as [td|e]; [|done]. cbn [bind].
  rewrite transform_item_skip; [done|].
  unfold item_target. by rewrite bool_decide_eq_true_2.
Qed.

Lemma str_items_None l :
  Exists (fun v => forall s, v <> PStr s) l -> str_items l = None.
Proof.
  induction 1 as [v l Hv|v l _ IH]; cbn.
  - destruct v; try done. by destruct (Hv s).
  - rewrite IH. by destruct v.
Qed.

(** Property X4.  A list of special marks with an item that is no text is
    not stored: when the items before it in the payload are fine, the save
    fails with the error of status 500. *)
Theorem special_marks_items_must_be_text bn pre key l post td :
  item_target U key = Some (u "special_marks") ->
  transform_data U ∅ pre = Ok td ->
  Exists (fun v => forall s, v <> PStr s) l ->
  create_or_update_record U bn (pre ++ (key, PList l) :: post) = Raise save_error
  /\ status_code save_error = 500%Z.
Proof.
  intros Ht Hpre Hl. split; [|reflexivity].
  unfold create_or_update_record. rewrite transform_data_app, Hpre. cbn [bind transform_data].
  rewrite (transform_item_plain U td key (PList l) _ Ht special_marks_not_date).
  rewrite bool_decide_eq_true_2 by done. rewrite (str_items_None l Hl).
  destruct l; [by apply Exists_nil in Hl|done].
Qed.

(** *** The full name *)

Lemma isspace_space : isspace U 32 = true.
Proof. reflexivity. Qed.

Lemma split_ws_aux_words s cur :
  Forall (fun c => isspace U c = false) cur ->
  Forall (word U) (split_ws_aux U s cur).
Proof.
  revert cur. induction s as [|c s IH]; intros cur Hcur; cbn.
  - destruct cur as [|x cur]; [constructor|]. constructor; [|constructor]. split.
    + intros E. apply (f_equal (@length N)) in E. rewrite length_rev in E. done.
    + by apply Forall_rev.
  - destruct (isspace U c) eqn:E.
    + destruct cur as [|x cur]; [by apply IH|]. constructor; [|by apply IH]. split.
      * intros E'. apply (f_equal (@length N)) in E'. rewrite length_rev in E'. done.
      * by apply Forall_rev.
    + apply IH. by constructor.
Qed.

Lemma split_ws_aux_word w rest cur :
  Forall (fun c => isspace U c = false) w ->
  split_ws_aux U (w ++ rest) cur = split_ws_aux U rest (rev w ++ cur).
Proof.
  revert cur. induction w as [|c w IH]; intros cur Hw; [done|].
  apply Forall_cons in Hw as [Hc Hw]. cbn. rewrite Hc, IH by done.
  by rewrite <- app_assoc.
Qed.

Lemma split_ws_join ws : Forall (word U) ws -> split_ws U (join (u " ") ws) = ws.
Proof.
  unfold split_ws. induction 1 as [|w ws [Hne Hw] Hws IH]; [done|].
  destruct ws as [|w' ws].
  - cbn [join]. rewrite <- (app_nil_r w) at 1. rewrite split_ws_aux_word by done.
    cbn. rewrite app_nil_r. destruct (rev w) eqn:E.
    + apply (f_equal (@length N)) in E. rewrite length_rev in E. by destruct w.
    + by rewrite <- E, rev_involutive.
  - change (join (u " ") (w :: w' :: ws)) with (w ++ 32 :: join (u " ") (w' :: ws)).
    rewrite split_ws_aux_word by done. cbn [split_ws_aux]. rewrite isspace_space.
    rewrite app_nil_r. destruct (rev w) eqn:E.
    + apply (f_equal (@length N)) in E. rewrite length_rev in E. by destruct w.
    + by rewrite <- E, rev_involutive, IH.
Qed.

(** Property X5.  The full name of an accepted row. A text is stored as
    its words joined by single spaces: the words are the maximal runs of
    the text without white space, the stored name splits into the same
    words, and a name of white space only is stored as the empty text, not
    as null; [None] and the empty text are stored as null; and no value
    that counts as true is accepted unless it is a text. *)
Theorem full_name_is_normalised bn pre key value post row :
  item_target U key = Some (u "full_name") ->
  not_stored_later U (u "full_name") post ->
  create_or_update_record U bn (pre ++ (key, value) :: post) = Ok row ->
  (forall s, value = PStr s -> s <> [] ->
     row !! u "full_name" = Some (PStr (join (u " ") (split_ws U s)))
     /\ Forall (word U) (split_ws U s)
     /\ split_ws U (join (u " ") (split_ws U s)) = split_ws U s
     /\ (Forall (fun c => isspace U c = true) s -> row !! u "full_name" = Some (PStr [])))
  /\ (value = PNone \/ value = PStr [] -> row !! u "full_name" = Some PNone)
  /\ (truthy value = true -> exists s, value = PStr s).
Proof.
  intros Ht Hpost Hrow.
  apply create_or_update_record_Ok in Hrow as (td & Htd & _ & Hnorm).
  apply (transform_data_last U _ _ _ _ _ _ (u "full_name")) in Htd
    as (td0 & td1 & _ & H1 & Hlook); [|done].
  assert (u "full_name" ∉ date_fields) as Hnd by decide_false.
  rewrite (transform_item_plain U td0 key value _ Ht Hnd) in H1.
  assert (forall s, Forall (word U) (split_ws U s)) as Hwords.
  { intros s. by apply split_ws_aux_words. }
  unfold normalize_full_name in Hnorm. rewrite Hlook in Hnorm.
  split; [|split].
  - intros s -> Hs. destruct s as [|c s]; [done|]. injection H1 as <-.
    rewrite lookup_insert_eq in Hnorm. cbn [truthy] in Hnorm. injection Hnorm as <-.
    rewrite lookup_insert_eq. split; [done|]. split; [done|]. split; [by apply split_ws_join|].
    intros Hsp. do 3 f_equal.
    assert (forall t, Forall (fun c => isspace U c = true) t -> split_ws_aux U t [] = []) as Hall.
    { induction 1 as [|x t Hx _ IH]; [done|]. cbn. by rewrite Hx. }
    unfold split_ws. by rewrite Hall.
  - intros [-> | ->]; injection H1 as <-; rewrite lookup_insert_eq in Hnorm;
      cbn [truthy] in Hnorm; injection Hnorm as <-; rewrite Hlook; apply lookup_insert_eq.
  - intros Htrue. destruct value as [|b|z|s|d|l]; try done; [| |eauto| |].
    + injection H1 as <-. rewrite lookup_insert_eq, Htrue in Hnorm. done.
    + injection H1 as <-. rewrite lookup_insert_eq, Htrue in Hnorm. done.
    + injection H1 as <-. rewrite lookup_insert_eq, Htrue in Hnorm. done.
    + rewrite bool_decide_eq_false_2 in H1 by decide_false.
      injection H1 as <-. rewrite lookup_insert_eq, Htrue in Hnorm. done.
Qed.
End RowFacts.

Lemma other_fields_are_stored_witness :
  match create_or_update_record ascii_only (u "expert_1")
          ([(u "mseDate", PStr (u "2024-01-15")); (u "purpose", PStr (u "first"))]
             ++ (u "expertPurpose", PStr (u "second")) :: []) with
  | Ok row => row !! u "purpose" = Some (PStr (u "second"))
  | Raise _ => False
  end.
Proof.
  destruct (create_or_update_record _ _ _) as [row|e] eqn:Hrow.
  - apply (other_fields_are_stored ascii_only (u "expert_1")
             [(u "mseDate", PStr (u "2024-01-15")); (u "purpose", PStr (u "first"))]
             (u "expertPurpose") (PStr (u "second")) [] (u "purpose") row);
      [decide_false|discriminate|reflexivity|intros ? ? []|exact Hrow
      |discriminate|discriminate|discriminate].
  - vm_compute in Hrow. discriminate.
Defined.

Lemma skipped_key_is_ignored_witness :
  create_or_update_record ascii_only (u "bureau_3")
    ([(u "mseDate", PStr (u "2024-01-15"))] ++ (u "BureaNumber", PStr (u "bureau_7")) :: [])
  = create_or_update_record ascii_only (u "bureau_3")
      ([(u "mseDate", PStr (u "2024-01-15"))] ++ []).
Proof.
  apply (skipped_key_is_ignored ascii_only (u "bureau_3")
           [(u "mseDate", PStr (u "2024-01-15"))] (u "BureaNumber") (PStr (u "bureau_7")) []).
  reflexivity.
Defined.

Lemma special_marks_items_must_be_text_witness :
  create_or_update_record ascii_only (u "bureau_3")
    ([(u "mseDate", PStr (u "2024-01-15"))]
       ++ (u "specialMarks", PList [PStr (u "svo"); PInt 7]) :: [])
  = Raise save_error.
Proof.
  apply (special_marks_items_must_be_text ascii_only (u "bureau_3")
           [(u "mseDate", PStr (u "2024-01-15"))] (u "specialMarks")
           [PStr (u "svo"); PInt 7] [] {[ u "mse_date" := PDate (mk_date 2024 1 15) ]}).
  - reflexivity.
  - reflexivity.
  - right. left. discriminate.
Defined.

Lemma full_name_is_normalised_witness :
  match create_or_update_record ascii_only (u "bureau_3")
          ([(u "mseDate", PStr (u "2024-01-15"))]
             ++ (u "fullName", PStr (u "  Ivan   Petrov ")) :: []) with
  | Ok row => row !! u "full_name" = Some (PStr (u "Ivan Petrov"))
  | Raise _ => False
  end.
Proof.
  destruct (create_or_update_record _ _ _) as [row|e] eqn:Hrow.
  - destruct (full_name_is_normalised ascii_only (u "bureau_3")
                [(u "mseDate", PStr (u "2024-01-15"))] (u "fullName")
                (PStr (u "  Ivan   Petrov ")) [] row eq_refl ltac:(intros ? ? []) Hrow)
      as (Htext & _).
    destruct (Htext (u "  Ivan   Petrov ") eq_refl ltac:(discriminate)) as (Hlook & _).
    exact Hlook.
  - vm_compute in Hrow. discriminate.
Defined.

(** ** Invariants of the accepted row *)

Section RowInvariants.
Variable U : unicode_data.

Lemma normalize_date_no_text key value v :
  normalize_date U key value = Ok v -> forall s, v <> PStr s.
Proof.
  unfold normalize_date. destruct value as [|b|z|s|d|l]; try (by intros [= <-]).
  destruct s as [|c s]; [by intros [= <-]|].
  destruct (try_formats U date_formats (c :: s)); [by intros [= <-]|done].
Qed.

Lemma transform_item_target td td' key value :
  transform_item U td key value = Ok td' ->
  match item_target U key with
  | None => td' = td
  | Some f => exists v, td' = <[f := v]> td
                        /\ (f ∈ date_fields -> forall s, v <> PStr s)
  end.
Proof.
  destruct (item_target U key) as [f|] eqn:Ht.
  - destruct (decide (f ∈ date_fields)) as [Hf|Hf].
    + rewrite (transform_item_date U td key value f Ht Hf). intros H.
      apply bind_Ok in H as (v & Hv & [= <-]). exists v. split; [done|].
      intros _. by eapply normalize_date_no_text.
    + rewrite (transform_item_plain U td key value f Ht Hf). intros H.
      destruct value as [|b|z|s|d|l];
        try (injection H as <-; eexists; split; [reflexivity|done]).
      * destruct s; injection H as <-; eexists; (split; [reflexivity|done]).
      * case_bool_decide; [|injection H as <-; eexists; split; [reflexivity|done]].
        destruct l as [|x l]; [injection H as <-; eexists; split; [reflexivity|done]|].
        destruct (str_items (x :: l)); [|done].
        injection H as <-. eexists. split; [reflexivity|done].
  - intros H. rewrite transform_item_skip in H by done. by injection H as <-.
Qed.

Lemma transform_data_columns items : forall td td',
  transform_data U td items = Ok td' ->
  (forall f, is_Some (td' !! f) <->
             is_Some (td !! f) \/
             exists key value, In (key, value) items /\ item_target U key = Some f)
  /\ (forall f, f ∈ date_fields ->
        (forall s, td !! f <> Some (PStr s)) -> forall s, td' !! f <> Some (PStr s)).
Proof.
  induction items as [|[key value] items IH]; intros td td' H.
  - injection H as <-. split; [|done]. intros f. split; [by left|].
    by intros [?|(? & ? & [] & _)].
  - cbn [transform_data] in H. apply bind_Ok in H as (td1 & H1 & H).
    destruct (IH _ _ H) as [IHa IHb]. apply transform_item_target in H1.
    split.
    + intros f. rewrite IHa. destruct (item_target U key) as [g|] eqn:Ht.
      * destruct H1 as (v & -> & _). destruct (decide (f = g)) as [->|Hne].
        -- rewrite lookup_insert_eq. split; [|by left].
           intros _. right. exists key, value. split; [by left|done].
        -- rewrite lookup_insert_ne by done. split.
           ++ intros [?|(k & v' & Hin & Hk)]; [by left|]. right. exists k, v'.
              split; [by right|done].
           ++ intros [?|(k & v' & [[= <- <-]|Hin] & Hk)]; [by left|congruence|].
              right. by exists k, v'.
      * subst td1. split.
        -- intros [?|(k & v' & Hin & Hk)]; [by left|]. right. exists k, v'.
           split; [by right|done].
        -- intros [?|(k & v' & [[= <- <-]|Hin] & Hk)]; [by left|congruence|].
           right. by exists k, v'.
    + intros f Hf Htd. apply IHb; [done|].
      destruct (item_target U key) as [g|] eqn:Ht; [|by subst td1].
      destruct H1 as (v & -> & Hv). destruct (decide (f = g)) as [->|Hne].
      * rewrite lookup_insert_eq. intros s [= ->]. by apply (Hv Hf s).
      * by rewrite lookup_insert_ne.
Qed.

Lemma normalize_full_name_columns td row f :
  normalize_full_name U td = Ok row -> is_Some (row !! f) <-> is_Some (td !! f).
Proof.
  unfold normalize_full_name. destruct (td !! u "full_name") as [v|] eqn:E.
  - destruct (truthy v); [|by intros [= <-]]. destruct v; try done. intros [= <-].
    destruct (decide (f = u "full_name")) as [->|Hne].
    + rewrite lookup_insert_eq, E. split; eauto.
    + by rewrite lookup_insert_ne.
  - by intros [= <-].
Qed.

(** Property X23.  The columns of an accepted row are the columns the
    payload names: a column is in the row exactly when some item of the
    payload, other than the skipped key, is stored under it; and no date
    column of the row holds a text: a date given as a text is parsed or
    refused. *)
Theorem row_columns_come_from_the_payload bn record_data row :
  create_or_update_record U bn record_data = Ok row ->
  (forall f, is_Some (row !! f) <->
             exists key value, In (key, value) record_data /\ item_target U key = Some f)
  /\ (forall f s, f ∈ date_fields -> row !! f <> Some (PStr s))
  /\ (exists key value, In (key, value) record_data
                        /\ item_target U key = Some (u "mse_date")).
Proof.
  intros Hrow. pose proof Hrow as Hrow'.
  apply create_or_update_record_Ok in Hrow as (td & Htd & Htruthy & Hnorm).
  destruct (transform_data_columns _ _ _ Htd) as [Ha Hb].
  assert (forall f, is_Some (row !! f) <->
            exists key value, In (key, value) record_data /\ item_target U key = Some f) as Hcols.
  { intros f. rewrite (normalize_full_name_columns td row f Hnorm), Ha.
    rewrite lookup_empty. split; [|by right].
    intros [[? ?]|?]; [done|done]. }
  split; [exact Hcols|]. split.
  - intros f s Hf. rewrite (normalize_full_name_frame U td row f Hnorm)
      by (by apply date_field_not_full_name).
    apply Hb; [done|]. intros s'. by rewrite lookup_empty.
  - apply Hcols. rewrite (normalize_full_name_frame U td row _ Hnorm) by decide_false.
    unfold dict_get in Htruthy. destruct (td !! u "mse_date"); [eauto|done].
Qed.
End RowInvariants.

Lemma row_columns_come_from_the_payload_witness :
  match create_or_update_record ascii_only (u "bureau_3")
          [(u "mseDate", PStr (u "15.01.2024")); (u "bureaNumber", PStr (u "x"))] with
  | Ok row => forall s, row !! u "mse_date" <> Some (PStr s)
  | Raise _ => False
  end.
Proof.
  destruct (create_or_update_record _ _ _) as [row|e] eqn:Hrow.
  - intros s.
    apply (proj1 (proj2 (row_columns_come_from_the_payload ascii_only _ _ row Hrow))).
    apply mse_date_is_date.
  - vm_compute in Hrow. discriminate.
Defined.

(** ** More on dates *)

Section DateFacts.
Variable U : unicode_data.

Lemma strptime_valid f s d : strptime U f s = Some d -> valid_date d = true.
Proof.
  unfold strptime. destruct (format_regex U f s) as [|[[[y m] dd] rest] l]; [done|].
  destruct rest; [|done].
  destruct (py_int U y), (py_int U m), (py_int U dd); try done.
  destruct (valid_date _) eqn:E; [|done]. by intros [= <-].
Qed.

Lemma try_formats_Some fmts s d :
  try_formats U fmts s = Some d -> exists f, f ∈ fmts /\ strptime U f s = Some d.
Proof.
  induction fmts as [|f fmts IH]; [done|]. cbn.
  destruct (strptime U f s) as [d'|] eqn:E.
  - intros [= <-]. exists f. split; [left|done].
  - intros H. destruct (IH H) as (f' & ? & ?). exists f'. split; [by right|done].
Qed.

Lemma strptime_exclusive f1 f2 s d1 d2 :
  strptime U f1 s = Some d1 -> strptime U f2 s = Some d2 -> f1 = f2.
Proof.
  intros H1 H2.
  assert (forall d, strptime U Fmt_dmY s = Some d -> strptime U Fmt_Ymd s = None) as Ha.
  { intros d H. apply strptime_Some_In in H as [x Hx]. apply regex_dmY_shape in Hx.
    by apply (sep_excludes_Ymd U 46). }
  assert (forall d, strptime U Fmt_mdY s = Some d -> strptime U Fmt_Ymd s = None) as Hb.
  { intros d H. apply strptime_Some_In in H as [x Hx]. apply regex_mdY_shape in Hx.
    by apply (sep_excludes_Ymd U 47). }
  pose proof (strptime_mdY_not_dmY U s) as Hc.
  destruct f1, f2; try done;
    repeat match goal with
    | H : forall d, strptime U ?f s = Some d -> _, H' : strptime U ?f s = Some _ |- _ =>
        specialize (H _ H')
    end; congruence.
Qed.

(** Property X6.  At most one of the three formats parses a text: two
    formats that both parse it are the same format and give the same date,
    so the order in which the formats are tried decides nothing; a text
    that some format of a list parses is given the date of that format by
    the list; and the date is a date of the calendar. *)
Theorem date_formats_are_exclusive s :
  (forall f1 f2 d1 d2, strptime U f1 s = Some d1 -> strptime U f2 s = Some d2 ->
                       f1 = f2 /\ d1 = d2)
  /\ (forall fmts f d, f ∈ fmts -> strptime U f s = Some d -> try_formats U fmts s = Some d)
  /\ (forall d, try_formats U date_formats s = Some d ->
        valid_date d = true
        /\ 1 <= month d <= 12
        /\ 1 <= day d <= days_in_month (year d) (month d)).
Proof.
  split; [|split].
  - intros f1 f2 d1 d2 H1 H2. pose proof (strptime_exclusive _ _ _ _ _ H1 H2) as ->.
    split; [done|congruence].
  - intros fmts f d Hin Hf. induction fmts as [|g fmts IH]; [by apply elem_of_nil in Hin|].
    cbn. destruct (strptime U g s) as [d'|] eqn:E.
    + pose proof (strptime_exclusive _ _ _ _ _ E Hf) as ->. congruence.
    + apply elem_of_cons in Hin as [->|Hin]; [congruence|by apply IH].
  - intros d H. apply try_formats_Some in H as (f & _ & H). apply strptime_valid in H as Hv.
    split; [done|].
    unfold valid_date in Hv. rewrite !andb_true_iff, !N.leb_le in Hv. lia.
Qed.

Lemma try_formats_empty : try_formats U date_formats [] = None.
Proof. reflexivity. Qed.

(** The year of the renderer: four digits from 1000 on, fewer below. *)
Lemma year_text_from_1000 :
  Forall (fun z => year_text (Z.to_N z) = pad4 (Z.to_N z)) (seqZ 1000 9000).
Proof. decide_true. Qed.

Lemma year_text_below_1000 :
  Forall (fun z => (length (year_text (Z.to_N z)) <= 3)%nat) (seqZ 0 1000).
Proof. decide_true. Qed.

Lemma year_text_pad4 y : 1000 <= y <= 9999 -> year_text y = pad4 y.
Proof.
  intros Hy. pose proof year_text_from_1000 as HF. rewrite Forall_forall in HF.
  rewrite <- (N2Z.id y). apply HF. apply elem_of_seqZ. lia.
Qed.

Lemma year_text_short y : y < 1000 -> (length (year_text y) <= 3)%nat.
Proof.
  intros Hy. pose proof year_text_below_1000 as HF. rewrite Forall_forall in HF.
  rewrite <- (N2Z.id y). apply HF. apply elem_of_seqZ. lia.
Qed.

Lemma strftime_dmY_padded d :
  1000 <= year d <= 9999 -> strftime_dmY d = strftime Fmt_dmY d.
Proof. intros Hy. unfold strftime_dmY, strftime. by rewrite year_text_pad4. Qed.

Lemma digit_char_not_sep n : n < 10 -> is_sep (digit_char n) = false.
Proof.
  intros Hn. unfold is_sep, digit_char. rewrite !orb_false_iff, !N.eqb_neq. lia.
Qed.

(** The text the renderer prints for a year below 1000 is a text none of
    the three formats reads. *)
Lemma short_year_not_parsed d f :
  year d < 1000 -> strptime U f (strftime_dmY d) = None.
Proof.
  intros Hy. pose proof (year_text_short (year d) Hy) as Hlen.
  assert (forall n, digit_char (n mod 10) <> 46 /\ digit_char (n mod 10) <> 47
                    /\ is_sep (digit_char (n mod 10)) = false) as Hdig.
  { intros n. pose proof (N.mod_lt n 10 ltac:(lia)) as Hlt.
    split; [|split]; [| |by apply digit_char_not_sep];
      unfold digit_char; generalize (n mod 10); intros; lia. }
  unfold strftime_dmY, pad2. cbn [app].
  set (D1 := digit_char (day d / 10 mod 10)). set (M1 := digit_char (month d / 10 mod 10)).
  destruct (Hdig (day d)) as (HD46 & HD47 & HDsep).
  destruct (Hdig (month d)) as (HM46 & _ & _).
  set (D2 := digit_char (day d mod 10)) in *. set (M2 := digit_char (month d mod 10)) in *.
  destruct f.
  - apply (sep_excludes_Ymd U 46); [reflexivity|]. right. by eexists _, _, _.
  - apply regex_empty_strptime. intros [[[y m] dd] r] Hx. cbn [format_regex] in Hx.
    apply m_bind_In in Hx as (t1 & r1 & H1 & Hx). apply re_d_In in H1.
    apply m_bind_In in Hx as (? & r2 & H2 & Hx). apply m_lit_In in H2.
    apply m_bind_In in Hx as (t3 & r3 & H3 & Hx). apply re_m_In in H3.
    apply m_bind_In in Hx as (? & r4 & H4 & Hx). apply m_lit_In in H4.
    apply m_bind_In in Hx as (t5 & r5 & H5 & _). apply re_Y_In in H5.
    destruct H5 as (a & b & c & e & H5 & _). subst r4.
    destruct H1 as [(x1 & _ & E1)|(x1 & x2 & _ & E1 & _)].
    + assert (D2 = 46) by congruence. done.
    + assert (r2 = M1 :: M2 :: 46 :: year_text (year d)) as -> by congruence.
      destruct H3 as [(y1 & _ & E3)|(y1 & y2 & _ & E3 & _)].
      * assert (M2 = 46) by congruence. done.
      * assert (year_text (year d) = a :: b :: c :: e :: r5) as E by congruence.
        rewrite E in Hlen. cbn [length] in Hlen. lia.
  - apply regex_empty_strptime. intros x Hx. apply regex_mdY_shape in Hx.
    destruct Hx as [(a & r & E)|(a & b & r & E & _)].
    + assert (D2 = 47) by congruence. done.
    + assert (46 = 47) by congruence. done.
Qed.

Lemma format_excel_date_twice v :
  match v with
  | PNone | PStr _ => True
  | PDate d => valid_date d = true
  | _ => False
  end ->
  format_excel_date U (PStr (format_excel_date U v)) = format_excel_date U v.
Proof.
  assert (forall d, valid_date d = true ->
            format_excel_date U (PStr (strftime_dmY d)) = strftime_dmY d) as Hd.
  { intros d Hd. unfold format_excel_date.
    destruct (N.lt_ge_cases (year d) 1000) as [Hlt|Hge].
    - unfold date_formats. cbn [try_formats]. by rewrite !short_year_not_parsed.
    - apply valid_date_bounds in Hd as Hb.
      rewrite (strftime_dmY_padded d) by lia.
      rewrite (try_formats_denotes U Fmt_dmY _ d (strptime_strftime U Fmt_dmY d Hd)).
      by rewrite (strftime_dmY_padded d) by lia. }
  destruct v as [| | |s|d|]; try done.
  - intros Hv. cbn [format_excel_date].
    destruct (try_formats U date_formats s) as [d|] eqn:E.
    + apply Hd. apply try_formats_Some in E as (f & _ & E). by eapply strptime_valid.
    + cbn [py_str format_excel_date]. by rewrite E.
  - intros Hv. by apply Hd.
Qed.

(** Property X7.  Formatting a date cell twice is formatting it once: for
    [None], a text and a date of the calendar, the text
    [format_excel_date] gives is left as it is by [format_excel_date]. The
    text of a date that was read from a text is the day, the month and the
    year as [strftime] prints them: from the year 1000 on it is the date
    in the layout DD.MM.YYYY and reads back as that date; below, the year
    has fewer than four digits and no format reads the text back. *)
Theorem format_excel_date_is_idempotent v :
  match v with
  | PNone | PStr _ => True
  | PDate d => valid_date d = true
  | _ => False
  end ->
  format_excel_date U (PStr (format_excel_date U v)) = format_excel_date U v
  /\ (forall s d, v = PStr s -> try_formats U date_formats s = Some d ->
        format_excel_date U v = strftime_dmY d
        /\ (1000 <= year d ->
            format_excel_date U v = strftime Fmt_dmY d
            /\ strptime U Fmt_dmY (format_excel_date U v) = Some d)
        /\ (year d < 1000 -> forall f, strptime U f (format_excel_date U v) = None)).
Proof.
  intros Hv. split; [by apply format_excel_date_twice|].
  intros s d -> E. cbn [format_excel_date]. rewrite E. split; [done|].
  apply try_formats_Some in E as (f & _ & E). apply strptime_valid in E as Hd.
  apply valid_date_bounds in Hd as Hb. split.
  - intros Hy. rewrite strftime_dmY_padded by lia. split; [done|].
    by apply strptime_strftime.
  - intros Hy f'. by apply short_year_not_parsed.
Qed.
End DateFacts.

Lemma date_formats_are_exclusive_witness :
  try_formats ascii_only [Fmt_mdY; Fmt_dmY] (u "5.1.2024") = Some (mk_date 2024 1 5).
Proof.
  apply (proj1 (proj2 (date_formats_are_exclusive ascii_only (u "5.1.2024"))) _ Fmt_dmY).
  - right. left.
  - reflexivity.
Defined.

Lemma format_excel_date_is_idempotent_witness :
  format_excel_date ascii_only (PStr (format_excel_date ascii_only (PStr (u "2024-01-15"))))
  = format_excel_date ascii_only (PStr (u "2024-01-15")).
Proof.
  apply (proj1 (format_excel_date_is_idempotent ascii_only (PStr (u "2024-01-15")) I)).
Defined.

(** ** The mappings of the units *)

Lemma common_fields_are_not_overridden :
  Forall (fun item => EXPERT_VALUE_MAPPINGS !! item.1 = None
                      /\ BUREAU_VALUE_MAPPINGS !! item.1 = None)
         (map_to_list COMMON_VALUE_MAPPINGS).
Proof. decide_true. Qed.

Lemma get_value_mappings_common bn field mapping :
  COMMON_VALUE_MAPPINGS !! field = Some mapping ->
  get_value_mappings bn !! field = Some mapping.
Proof.
  intros Hc. pose proof common_fields_are_not_overridden as HF.
  rewrite Forall_forall in HF.
  destruct (HF (field, mapping)) as [He Hb]; [by apply elem_of_map_to_list|].
  cbn [fst] in He, Hb. unfold get_value_mappings, dict_merge.
  destruct (startswith bn (u "expert_")); by rewrite lookup_union_r.
Qed.

Section MapperFacts.
Variable U : unicode_data.

(** Property X8.  A field of the common table is rendered the same for
    every unit, whatever the value; the tables of the bureaus and of the
    expert panels override none of the common fields. A field of no table
    is rendered as the value itself, commas included. *)
Theorem common_fields_render_alike bn bn' field value :
  (is_Some (COMMON_VALUE_MAPPINGS !! field) ->
   map_value U bn field value = map_value U bn' field value
   /\ get_value_mappings bn !! field = COMMON_VALUE_MAPPINGS !! field)
  /\ (get_value_mappings bn !! field = None ->
      map_value U bn field value = default [] value).
Proof.
  split.
  - intros [mapping Hc]. unfold map_value.
    rewrite (get_value_mappings_common bn field mapping Hc).
    rewrite (get_value_mappings_common bn' field mapping Hc). by rewrite Hc.
  - intros Hn. unfold map_value. rewrite Hn. by destruct value as [[|c s]|].
Qed.
End MapperFacts.

Lemma common_fields_render_alike_witness :
  map_value ascii_only (u "bureau_3") (u "age_category") (Some (u "adult"))
  = map_value ascii_only (u "expert_1") (u "age_category") (Some (u "adult"))
  /\ map_value ascii_only (u "bureau_3") (u "snils") (Some (u "1,2")) = u "1,2".
Proof.
  split.
  - apply (proj1 (common_fields_render_alike ascii_only (u "bureau_3") (u "expert_1")
                    (u "age_category") (Some (u "adult")))).
    eexists. vm_compute. reflexivity.
  - apply (proj2 (common_fields_render_alike ascii_only (u "bureau_3") (u "expert_1")
                    (u "snils") (Some (u "1,2")))).
    vm_compute. reflexivity.
Defined.

Local Close Scope N_scope.
Local Open Scope nat_scope.

(** ** More on the sheet builder *)

Section RowsOfTheSheet.
Variable U : unicode_data.

Lemma sheet_rows_record records is_all i record :
  records !! i = Some record ->
  sheet_rows U records is_all !! S i
  = Some (record_cells U is_all (batch_is_expert records) (i + 2) record).
Proof.
  intros Hi. unfold sheet_rows. rewrite lookup_tail, list_lookup_imap. by rewrite Hi.
Qed.

(** Property X9.  The rows under the header hold the records in their
    order: row [i + 2] holds the values of record [i], as many as the
    header has columns; its first cell is the running number [i + 1] on
    the sheet of a unit and the source label of the record on the sheet of
    all records. *)
Theorem data_rows_hold_the_records first rest is_all i record :
  let records := first :: rest in
  let ws := create_excel_worksheet U new_sheet records is_all in
  records !! i = Some record ->
  (forall j v, record_cells U is_all (batch_is_expert records) (i + 2) record !! j = Some v ->
               cell_value (get_cell ws (i + 2) (S j)) = v)
  /\ length (record_cells U is_all (batch_is_expert records) (i + 2) record)
     = length (sheet_headers records is_all)
  /\ cell_value (get_cell ws (i + 2) 1)
     = (if is_all then PStr (source_label (bureau_number record))
        else PInt (Z.of_nat i + 1))
  /\ i + 2 <= max_row ws.
Proof.
  cbn zeta. intros Hi.
  assert (forall j v,
            record_cells U is_all (batch_is_expert (first :: rest)) (i + 2) record !! j = Some v ->
            cell_value (get_cell (create_excel_worksheet U new_sheet (first :: rest) is_all)
                          (i + 2) (S j)) = v) as Hcells.
  { intros j v Hj. replace (i + 2) with (S (S i)) at 1 by lia.
    eapply built_values; [|exact Hj]. by apply sheet_rows_record. }
  split; [exact Hcells|]. split; [apply record_cells_length|]. split.
  - rewrite (Hcells 0 (if is_all then PStr (source_label (bureau_number record))
                       else PInt (Z.of_nat i + 1))); [done|].
    destruct is_all; cbn [record_cells app lookup list_lookup]; f_equal; f_equal; lia.
  - destruct (built_bounds U first rest is_all) as [-> _].
    apply lookup_lt_Some in Hi. lia.
Qed.

(** Property X10.  Every cell of the used range of a sheet with records
    has the thin border and the alignment of the cells (left, centred
    vertically, wrapped), the header row included; the cells under the
    header keep the font of a new cell and are not bold. *)
Theorem every_cell_is_restyled first rest is_all r c :
  let records := first :: rest in
  let ws := create_excel_worksheet U new_sheet records is_all in
  1 <= r <= length records + 1 -> 1 <= c <= length (sheet_headers records is_all) ->
  cell_border (get_cell ws r c) = THIN_BORDER
  /\ cell_alignment (get_cell ws r c) = CELL_ALIGNMENT
  /\ (2 <= r -> cell_font (get_cell ws r c) = cell_font blank_cell
                /\ bold (cell_font (get_cell ws r c)) = false).
Proof.
  cbn zeta. intros Hr Hc. rewrite built_get. rewrite bool_decide_eq_true_2 by done.
  split; [reflexivity|]. split; [reflexivity|]. intros Hr2.
  assert (cell_font (get_cell (filled_sheet U (first :: rest) is_all) r c)
          = cell_font blank_cell) as Hfont.
  { destruct (lookup_lt_is_Some_2 (first :: rest) (r - 2)) as [record Hrec]; [lia|].
    pose proof (record_cells_length U (first :: rest) is_all (r - 2 + 2) record) as Hlen.
    destruct (lookup_lt_is_Some_2
                (record_cells U is_all (batch_is_expert (first :: rest)) (r - 2 + 2) record)
                (c - 1)) as [v Hv]; [lia|].
    pose proof (filled_record U (first :: rest) is_all (r - 2) record (c - 1) v Hrec Hv) as H.
    replace (r - 2 + 2) with r in H by lia. replace (S (c - 1)) with c in H by lia.
    rewrite H. by destruct v. }
  split; [exact Hfont|]. cbn [restyled set_border set_alignment cell_font] in *.
  change (cell_font (restyled ?x)) with (cell_font x). by rewrite Hfont.
Qed.
End RowsOfTheSheet.

Lemma data_rows_hold_the_records_witness :
  cell_value (get_cell (create_excel_worksheet ascii_only new_sheet [example_row] false) 2 1)
  = PInt 1.
Proof.
  apply (data_rows_hold_the_records ascii_only example_row [] false 0 example_row).
  reflexivity.
Defined.

Lemma every_cell_is_restyled_witness :
  cell_border (get_cell (create_excel_worksheet ascii_only new_sheet [example_row] false) 2 26)
  = THIN_BORDER.
Proof.
  apply (every_cell_is_restyled ascii_only example_row [] false 2 26).
  - cbn [length]. lia.
  - vm_compute. lia.
Defined.

Local Close Scope nat_scope.
Local Open Scope N_scope.

(** ** The special marks on the sheet *)

Lemma split_on_pieces c s : Forall (fun p => ~ In c p) (split_on c s).
Proof.
  induction s as [|x s IH]; cbn.
  - repeat constructor. intros [].
  - destruct (N.eqb_spec x c) as [->|Hne].
    + constructor; [intros []|done].
    + destruct (split_on c s) as [|p ps]; [repeat constructor; intros [?|[]]; congruence|].
      apply Forall_cons in IH as [Hp Hps]. constructor; [|done].
      intros [?|?]; [congruence|done].
Qed.

Lemma contains_char_false c s : ~ In c s -> contains_char c s = false.
Proof.
  intros H. unfold contains_char. apply not_true_is_false. intros E.
  apply existsb_exists in E as (x & Hx & E). apply N.eqb_eq in E. by subst.
Qed.

Section MarksOnTheSheet.
Variable U : unicode_data.

Lemma lstrip_In x s : In x (lstrip U s) -> In x s.
Proof.
  induction s as [|c s IH]; [done|]. cbn. destruct (isspace U c); [|done].
  intros H. right. by apply IH.
Qed.

Lemma strip_In x s : In x (strip U s) -> In x s.
Proof.
  unfold strip, rstrip. intros H. apply in_rev, lstrip_In, in_rev in H.
  by apply lstrip_In.
Qed.

Lemma special_marks_mapping bn :
  get_value_mappings bn !! u "special_marks" = Some marks_labels.
Proof. apply get_value_mappings_common. vm_compute. reflexivity. Qed.

Lemma map_value_one_mark bn code :
  code <> [] -> ~ In 44 code ->
  map_value U bn (u "special_marks") (Some code)
  = default code (marks_labels !! code).
Proof.
  intros Hne Hc. unfold map_value. destruct code as [|x code]; [done|].
  rewrite special_marks_mapping.
  by rewrite (contains_char_false 44 (x :: code) Hc).
Qed.

(** Property X11.  The cell of the special marks (column 9) of a record
    row: the stored text is split on commas, every code is stripped, the
    empty ones are dropped, every code is replaced by its label (a code
    without a label is kept), and the labels are joined with a semicolon
    and a space; a record with no marks has the empty text. *)
Theorem special_marks_cell first rest is_all i record :
  let records := first :: rest in
  let ws := create_excel_worksheet U new_sheet records is_all in
  let raw := default [] (py_or (py_or (rec_get record "specialMarks")
                                      (rec_get record "special_marks")) (Some [])) in
  records !! i = Some record ->
  cell_value (get_cell ws (i + 2) 9)
  = PStr (join (u "; ")
            (map (fun code => default code (marks_labels !! code))
                 (List.filter nonempty (map (strip U) (split_on 44 raw)))))
  /\ (raw = [] -> cell_value (get_cell ws (i + 2) 9) = PStr []).
Proof.
  cbn zeta. intros Hi.
  set (raw := default [] (py_or (py_or (rec_get record "specialMarks")
                                       (rec_get record "special_marks")) (Some []))).
  assert (cell_value (get_cell (create_excel_worksheet U new_sheet (first :: rest) is_all)
                        (i + 2) 9)
          = PStr (join (u "; ")
               (map (fun code => default code (marks_labels !! code))
                    (List.filter nonempty (map (strip U) (split_on 44 raw)))))) as Hcell.
  { replace (i + 2)%nat with (S (S i)) at 1 by lia.
    erewrite (built_values U first rest is_all (S i) 8); [| by apply sheet_rows_record |].
    2: { cbn [record_cells app lookup list_lookup]. reflexivity. }
    fold raw. do 2 f_equal.
    rewrite (flat_map_filter_map (strip U) nonempty
               (fun t => map_value U (bureau_number record) (u "special_marks") (Some t))).
    apply map_ext_in. intros code Hcode. apply filter_In in Hcode as [Hcode Hne].
    apply in_map_iff in Hcode as (piece & <- & Hpiece).
    apply map_value_one_mark.
    - by destruct (strip U piece).
    - intros Hc. apply strip_In in Hc.
      pose proof (split_on_pieces 44 raw) as HF. rewrite Forall_forall in HF.
      apply (HF piece); [by apply list_elem_of_In|done]. }
  split; [exact Hcell|]. intros E. rewrite Hcell, E. reflexivity.
Qed.
End MarksOnTheSheet.

Lemma special_marks_cell_witness :
  cell_value (get_cell (create_excel_worksheet ascii_only new_sheet [example_row] false) 2 9)
  = PStr (u "Ампутант; Участник СВО").
Proof.
  etransitivity;
    [apply (proj1 (special_marks_cell ascii_only example_row [] false 0 example_row eq_refl))|].
  vm_compute. reflexivity.
Defined.

(** ** Units, labels and sheets *)

Lemma string_of_uint_digits d :
  Forall (fun c => 48 <= c <= 57) (bytes_of_string (NilEmpty.string_of_uint d)).
Proof. induction d; cbn; constructor; try done; vm_compute; split; discriminate. Qed.

Lemma int_to_str_chars z : Forall (fun c => c = 45 \/ 48 <= c <= 57) (int_to_str z).
Proof.
  unfold int_to_str, NilZero.string_of_int, NilZero.string_of_uint.
  assert (forall d, Forall (fun c => c = 45 \/ 48 <= c <= 57)
                      (bytes_of_string (match d with
                                        | Decimal.Nil => "0"%string
                                        | _ => NilEmpty.string_of_uint d
                                        end))) as Hd.
  { intros d. destruct d;
      try (eapply Forall_impl; [apply string_of_uint_digits|intros c ?; by right]).
    constructor; [right; vm_compute; split; discriminate|constructor]. }
  destruct (Z.to_int z); [apply Hd|]. cbn [bytes_of_string]. constructor; [by left|apply Hd].
Qed.

Lemma int_to_str_no_underscore z : ~ In 95 (int_to_str z).
Proof.
  intros H. pose proof (int_to_str_chars z) as HF. rewrite Forall_forall in HF.
  apply list_elem_of_In, HF in H. lia.
Qed.

Lemma startswith_app p t : startswith (p ++ t) p = true.
Proof.
  induction p as [|x p IH]; [by destruct t|]. cbn. by rewrite N.eqb_refl, IH.
Qed.

Lemma source_label_bureau t :
  ~ In 95 t -> source_label (u "bureau_" ++ t) = u "Бюро №" ++ t.
Proof.
  intros Ht. unfold source_label.
  rewrite startswith_app.
  change (u "bureau_" ++ t) with (u "bureau" ++ 95 :: t).
  rewrite split_on_app by (vm_compute; intuition discriminate).
  by rewrite split_on_no_sep.
Qed.

Lemma source_label_expert t :
  ~ In 95 t -> source_label (u "expert_" ++ t) = u "ЭС №" ++ t.
Proof.
  intros Ht. unfold source_label.
  assert (startswith (u "expert_" ++ t) (u "bureau_") = false) as -> by reflexivity.
  rewrite startswith_app.
  change (u "expert_" ++ t) with (u "expert" ++ 95 :: t).
  rewrite split_on_app by (vm_compute; intuition discriminate).
  by rewrite split_on_no_sep.
Qed.

Section WorkbookFacts.
Variable U : unicode_data.
Variable settings : Settings.

Lemma bureau_sheets records l : forall workbook,
  fold_left
    (fun workbook i =>
       if bool_decide (i ∈ excluded_bureaus settings) then workbook
       else add_sheet U workbook (bureau_title i)
              (records_of records (u "bureau_" ++ int_to_str i)) false)
    l workbook
  = workbook
      ++ map (fun i => (bureau_title i,
                        sheet_of U (records_of records (u "bureau_" ++ int_to_str i))))
             (filter (fun i => i ∉ excluded_bureaus settings) l).
Proof.
  induction l as [|i l IH]; intros workbook; cbn [fold_left].
  - by rewrite app_nil_r.
  - rewrite IH. case_bool_decide as Hi.
    + by rewrite filter_cons_False by (intros H; by apply H).
    + rewrite filter_cons_True by done. unfold add_sheet. cbn [map].
      by rewrite <- app_assoc.
Qed.

Lemma expert_sheets records l : forall workbook,
  fold_left
    (fun workbook expert =>
       add_sheet U workbook (expert_title expert)
         (records_of records (u "expert_" ++ int_to_str expert)) false)
    l workbook
  = workbook
      ++ map (fun e => (expert_title e,
                        sheet_of U (records_of records (u "expert_" ++ int_to_str e)))) l.
Proof.
  induction l as [|e l IH]; intros workbook; cbn [fold_left].
  - by rewrite app_nil_r.
  - rewrite IH. unfold add_sheet. cbn [map]. by rewrite <- app_assoc.
Qed.

(** Property X12.  The workbook for the selector [all], sheet by sheet:
    the sheet of all records holds every record, the sheet of a unit holds
    the records of that unit and no other, in the order of the batch, and
    the title of the sheet of a unit is the label the records of the unit
    carry in the first column of the sheet of all records, cut to 31
    characters. *)
Theorem all_workbook_holds_the_units records :
  create_excel_workbook U settings records (u "all")
  = (u "Все записи", create_excel_worksheet U new_sheet records true)
    :: map (fun i => (bureau_title i,
                      create_excel_worksheet U new_sheet
                        (records_of records (u "bureau_" ++ int_to_str i)) false))
           (sheet_bureaus settings)
    ++ map (fun e => (expert_title e,
                      create_excel_worksheet U new_sheet
                        (records_of records (u "expert_" ++ int_to_str e)) false))
           (experts settings)
  /\ (forall unit r, r ∈ records_of records unit <-> r ∈ records /\ bureau_number r = unit)
  /\ (forall unit, records_of records unit `sublist_of` records)
  /\ (forall i, bureau_title i = slice_to 31 (source_label (u "bureau_" ++ int_to_str i)))
  /\ (forall e, expert_title e = slice_to 31 (source_label (u "expert_" ++ int_to_str e))).
Proof.
  split; [|split; [|split; [|split]]].
  - unfold create_excel_workbook. rewrite bool_decide_eq_true_2 by done.
    rewrite expert_sheets, bureau_sheets. reflexivity.
  - intros unit r. unfold records_of. rewrite list_elem_of_filter. tauto.
  - intros unit. apply sublist_filter.
  - intros i. unfold bureau_title.
    by rewrite source_label_bureau by apply int_to_str_no_underscore.
  - intros e. unfold expert_title.
    by rewrite source_label_expert by apply int_to_str_no_underscore.
Qed.

(** Property X13.  The workbook for one unit has one sheet, and the sheet
    holds the whole batch: the selector chooses the title, it does not
    filter. The title is the source label of the selector, cut to 31
    characters, when the selector starts with [bureau_] or [expert_], and
    [Записи] otherwise. *)
Theorem single_unit_workbook records bureau_number :
  bureau_number <> u "all" ->
  exists title,
    create_excel_workbook U settings records bureau_number
    = [(title, create_excel_worksheet U new_sheet records false)]
    /\ title = (if startswith bureau_number (u "bureau_")
                     || startswith bureau_number (u "expert_")
                then slice_to 31 (source_label bureau_number)
                else u "Записи")
    /\ (length title <= 31)%nat.
Proof.
  intros Hne. unfold create_excel_workbook. rewrite bool_decide_eq_false_2 by done.
  unfold add_sheet. cbn [app]. eexists. split; [reflexivity|]. unfold source_label.
  destruct (startswith bureau_number (u "bureau_")); cbn [orb].
  - split; [reflexivity|apply length_slice_to].
  - destruct (startswith bureau_number (u "expert_")).
    + split; [reflexivity|apply length_slice_to].
    + split; [reflexivity|]. vm_compute. lia.
Qed.

(** Property X14.  The units that get a default password. On a table that
    holds rows nothing is inserted. On an empty table the rows inserted
    are [omo] with its own password and then, with the default password,
    the units that have a sheet in the workbook for the selector [all], in
    the order of the sheets: the title of the sheet of a unit is its
    source label cut to 31 characters. *)
Theorem default_passwords_follow_the_sheets omo_password default_password count records :
  let inserted := init_default_passwords settings omo_password default_password count in
  ((0 < count)%Z -> inserted = [])
  /\ ((count <= 0)%Z ->
      inserted
      = (u "omo", omo_password)
        :: map (fun i => (u "bureau_" ++ int_to_str i, default_password)) (sheet_bureaus settings)
        ++ map (fun e => (u "expert_" ++ int_to_str e, default_password)) (experts settings)
      /\ sheetnames (create_excel_workbook U settings records (u "all"))
         = u "Все записи"
           :: map (fun row => slice_to 31 (source_label row.1)) (tail inserted)).
Proof.
  cbn zeta. unfold init_default_passwords. split.
  - intros Hc. by rewrite (proj2 (Z.ltb_lt 0 count) Hc).
  - intros Hc. rewrite (proj2 (Z.ltb_ge 0 count) Hc).
    assert (forall l inserted,
              fold_left
                (fun inserted i =>
                   if bool_decide (i ∈ excluded_bureaus settings) then inserted
                   else inserted ++ [(u "bureau_" ++ int_to_str i, default_password)])
                l inserted
              = inserted ++ map (fun i => (u "bureau_" ++ int_to_str i, default_password))
                                (filter (fun i => i ∉ excluded_bureaus settings) l)) as Hb.
    { induction l as [|i l IH]; intros inserted; cbn [fold_left].
      - by rewrite app_nil_r.
      - rewrite IH. case_bool_decide as Hi.
        + by rewrite filter_cons_False by (intros H; by apply H).
        + rewrite filter_cons_True by done. cbn [map]. by rewrite <- app_assoc. }
    assert (forall l inserted,
              fold_left
                (fun inserted expert =>
                   inserted ++ [(u "expert_" ++ int_to_str expert, default_password)])
                l inserted
              = inserted ++ map (fun e => (u "expert_" ++ int_to_str e, default_password)) l)
      as He.
    { induction l as [|e l IH]; intros inserted; cbn [fold_left].
      - by rewrite app_nil_r.
      - rewrite IH. cbn [map]. by rewrite <- app_assoc. }
    rewrite He, Hb. fold (sheet_bureaus settings). split; [reflexivity|].
    rewrite all_workbook_names. cbn [app tail]. f_equal.
    rewrite map_app, !map_map. f_equal; apply map_ext; intros x; cbn [fst].
    + unfold bureau_title. by rewrite source_label_bureau by apply int_to_str_no_underscore.
    + unfold expert_title. by rewrite source_label_expert by apply int_to_str_no_underscore.
Qed.
End WorkbookFacts.

Lemma single_unit_workbook_witness :
  exists title,
    create_excel_workbook ascii_only default_settings [example_row] (u "omo")
    = [(title, create_excel_worksheet ascii_only new_sheet [example_row] false)]
    /\ title = u "Записи" /\ (length title <= 31)%nat.
Proof.
  apply (single_unit_workbook ascii_only default_settings [example_row] (u "omo")).
  discriminate.
Defined.

Lemma default_passwords_follow_the_sheets_witness :
  init_default_passwords default_settings (u "omo123") (u "00000") 3 = [].
Proof.
  apply (default_passwords_follow_the_sheets ascii_only default_settings
           (u "omo123") (u "00000") 3 []).
  reflexivity.
Defined.

(** ** The record queries *)

Lemma filter_filter_same {A} (p : A -> bool) (l : list A) :
  List.filter p (List.filter p l) = List.filter p l.
Proof.
  induction l as [|x l IH]; [done|]. cbn. destruct (p x) eqn:E; [|done].
  cbn. by rewrite E, IH.
Qed.

Lemma filter_all_true {A} (p : A -> bool) (l : list A) :
  Forall (fun x => p x = true) l -> List.filter p l = l.
Proof. induction 1 as [|x l Hx _ IH]; [done|]. cbn. by rewrite Hx, IH. Qed.

Lemma filter_nil_iff {A} (p : A -> bool) (l : list A) :
  List.filter p l = [] <-> Forall (fun x => p x = false) l.
Proof.
  induction l as [|c l IH]; [by split|]. cbn. destruct (p c) eqn:E.
  - split; [done|]. intros H. apply Forall_cons in H as [H _]. congruence.
  - rewrite IH. split; [by constructor|]. intros H. by apply Forall_cons in H as [_ H].
Qed.

Lemma clean_snils_filter D s : clean_snils D s = List.filter (isdigit D) s.
Proof. by destruct s. Qed.

(** Property X15.  [clean_snils] keeps the digits of its argument, in
    their order, and nothing else: its result holds digits only, a text of
    digits is left as it is, cleaning twice changes nothing, and the
    result is empty exactly when the text holds no digit. *)
Theorem clean_snils_keeps_digits D s :
  Forall (fun c => isdigit D c = true) (clean_snils D s)
  /\ clean_snils D (clean_snils D s) = clean_snils D s
  /\ (Forall (fun c => isdigit D c = true) s -> clean_snils D s = s)
  /\ (forall a b, clean_snils D (a ++ b) = clean_snils D a ++ clean_snils D b)
  /\ (clean_snils D s = [] <-> Forall (fun c => isdigit D c = false) s)
  /\ clean_snils D (u "123-456-789 01") = u "12345678901".
Proof.
  rewrite !clean_snils_filter. split; [|split; [|split; [|split; [|split]]]].
  - apply Forall_forall. intros c Hc. apply list_elem_of_In, filter_In in Hc. tauto.
  - apply filter_filter_same.
  - apply filter_all_true.
  - intros a b. rewrite !clean_snils_filter. apply List.filter_app.
  - apply filter_nil_iff.
  - reflexivity.
Qed.

Section QueryFacts.
Variable U : unicode_data.
Variable D : N -> bool.

(** Property X16.  In the statement [get_records] builds with the default
    order, and in the one [count_records] builds, the placeholders are
    [$1], [$2], ... in the order they occur, one for each parameter handed
    over with the statement, whatever the unit, the search text, the limit
    and the offset. *)
Theorem placeholders_match_params bureau_number limit offset search_query :
  placeholders (get_records U D bureau_number limit offset search_query default_order).1
  = map N.of_nat
      (seq 1 (length (get_records U D bureau_number limit offset search_query default_order).2))
  /\ placeholders (count_records U D bureau_number search_query).1
     = map N.of_nat (seq 1 (length (count_records U D bureau_number search_query).2)).
Proof.
  unfold get_records, count_records, build_filter.
  destruct (names_unit U bureau_number), search_query as [[|c s]|], limit, offset;
    split; vm_compute; reflexivity.
Qed.


(** Property X18.  The search text. Without one (or with the empty one)
    and without a unit, [count_records] counts all rows with no parameter
    and no [WHERE]; with one, the parameters are the digits of the text
    between two percent signs, for the SNILS, and the text itself between
    two percent signs, for the name; a text with no digit gives the SNILS
    the pattern of two percent signs. *)
Theorem search_filter search_query :
  (search_query = None \/ search_query = Some [] ->
   count_records U D None search_query = (u "SELECT COUNT(*) FROM records ", []))
  /\ (forall text, search_query = Some text -> text <> [] ->
      (count_records U D None search_query).2
      = [PStr (u "%" ++ List.filter (isdigit D) text ++ u "%"); PStr (u "%" ++ text ++ u "%")]
      /\ (forall limit offset order_by,
            (get_records U D None limit offset search_query order_by).2
            = (count_records U D None search_query).2
              ++ match limit with Some n => [PInt n] | None => [] end
              ++ match offset with Some n => [PInt n] | None => [] end)
      /\ (Forall (fun c => isdigit D c = false) text ->
          (count_records U D None search_query).2
          = [PStr (u "%%"); PStr (u "%" ++ text ++ u "%")])).
Proof.
  split.
  - intros [-> | ->]; reflexivity.
  - intros text -> Hne. destruct text as [|c s]; [done|].
    split; [reflexivity|]. split.
    + intros [limit|] [offset|] order_by; reflexivity.
    + intros Hno. unfold count_records, build_filter. cbn [names_unit snd].
      assert (clean_snils D (c :: s) = []) as ->; [|reflexivity].
      rewrite clean_snils_filter. by apply filter_nil_iff.
Qed.
End QueryFacts.

Lemma clean_snils_keeps_digits_witness :
  clean_snils (fun _ => false) (u "01234") = u "01234".
Proof.
  apply (proj1 (proj2 (proj2 (clean_snils_keeps_digits (fun _ => false) (u "01234"))))).
  repeat constructor.
Defined.


Lemma search_filter_witness :
  (count_records ascii_only (fun _ => false) None (Some (u "Ivan"))).2
  = [PStr (u "%%"); PStr (u "%Ivan%")].
Proof.
  destruct (search_filter ascii_only (fun _ => false) (Some (u "Ivan"))) as [_ H].
  destruct (H (u "Ivan") eq_refl ltac:(discriminate)) as (_ & _ & Hno).
  apply Hno. repeat constructor.
Defined.

(** ** The endpoints *)

Lemma json_get_del_ne d key key' : key <> key' -> json_get (json_del d key) key' = json_get d key'.
Proof.
  intros Hne. unfold json_get, json_del. induction d as [|[k v] d IH]; [done|].
  cbn. case_bool_decide as Hk; cbn.
  - subst k. rewrite bool_decide_eq_false_2 by done. exact IH.
  - case_bool_decide; [done|exact IH].
Qed.

Section SaveEndpoint.
Variable U : unicode_data.

(** Property X19.  The checks of the endpoint that saves, in their order.
    A request with no unit is refused with status 400 before the record is
    looked at; then a record whose [mseDate] is missing or counts as false
    is refused with the error of the missing examination date, whatever
    its other keys hold, [mse_date] included; then a full name that counts
    as true and is no text is refused with status 500; a request that
    passes is normalised by [create_or_update_record], so the row it gives
    has an examination date. *)
Theorem endpoint_checks bureau_number record_data :
  (bureau_number = None \/ bureau_number = Some [] ->
   create_or_update_record_endpoint U bureau_number record_data = Raise no_bureau)
  /\ (forall unit, bureau_number = Some unit -> unit <> [] ->
      truthy (json_get record_data (u "mseDate")) = false ->
      create_or_update_record_endpoint U bureau_number record_data = Raise missing_mse_date)
  /\ (forall unit, bureau_number = Some unit -> unit <> [] ->
      truthy (json_get record_data (u "mseDate")) = true ->
      truthy (json_get record_data (u "fullName")) = true ->
      (forall s, json_get record_data (u "fullName") <> PStr s) ->
      create_or_update_record_endpoint U bureau_number record_data = Raise endpoint_save_error)
  /\ (forall row, create_or_update_record_endpoint U bureau_number record_data = Ok row ->
      exists v, row !! u "mse_date" = Some v /\ v <> PNone)
  /\ status_code no_bureau = 400%Z /\ status_code endpoint_save_error = 500%Z.
Proof.
  assert (json_get (json_del record_data (u "bureauNumber")) (u "mseDate")
          = json_get record_data (u "mseDate")) as Hm.
  { apply json_get_del_ne. decide_false. }
  assert (json_get (json_del record_data (u "bureauNumber")) (u "fullName")
          = json_get record_data (u "fullName")) as Hf.
  { apply json_get_del_ne. decide_false. }
  split; [|split; [|split; [|split]]].
  - intros [-> | ->]; reflexivity.
  - intros unit -> Hne Hfalse. destruct unit as [|c unit]; [by destruct Hne|].
    unfold create_or_update_record_endpoint. rewrite Hm, Hfalse. reflexivity.
  - intros unit -> Hne Hdate Hname Hnot. destruct unit as [|c unit]; [by destruct Hne|].
    unfold create_or_update_record_endpoint. rewrite Hm, Hdate, Hf, Hname. cbn [negb].
    destruct (json_get record_data (u "fullName")) as [| | |s| |]; try reflexivity.
    by destruct (Hnot s).
  - intros row Hrow. destruct bureau_number as [[|c unit]|]; [discriminate| |discriminate].
    unfold create_or_update_record_endpoint in Hrow.
    destruct (negb (truthy (json_get (json_del record_data (u "bureauNumber")) (u "mseDate"))));
      [discriminate|].
    apply bind_Ok in Hrow as (data & _ & Hrow).
    apply create_or_update_record_Ok in Hrow as (td & Htd & Htruthy & Hnorm).
    apply (normalize_full_name_frame U _ _ (u "mse_date")) in Hnorm; [|decide_false].
    rewrite Hnorm. unfold dict_get in Htruthy.
    destruct (td !! u "mse_date") as [v|]; [|discriminate]. exists v.
    split; [reflexivity|]. intros ->. discriminate.
  - split; reflexivity.
Qed.
End SaveEndpoint.

Lemma endpoint_checks_witness :
  create_or_update_record_endpoint ascii_only (Some (u "bureau_3"))
    [(u "mse_date", PStr (u "2024-01-15")); (u "fullName", PStr (u "Ivan Petrov"))]
  = Raise missing_mse_date
  /\ create_or_update_record ascii_only (u "bureau_3")
       [(u "mse_date", PStr (u "2024-01-15")); (u "fullName", PStr (u "Ivan Petrov"))]
     = Ok (<[u "full_name" := PStr (u "Ivan Petrov")]>
             {[ u "mse_date" := PDate (mk_date 2024 1 15) ]}).
Proof.
  split.
  - apply (proj1 (proj2 (endpoint_checks ascii_only (Some (u "bureau_3")) _)) (u "bureau_3"));
      [reflexivity|discriminate|reflexivity].
  - vm_compute. reflexivity.
Defined.

Section DeleteFacts.
Context {store : Type}.
Variable U : unicode_data.
Variable get_record_by_id : store -> Z -> result (option record_row).
Variable delete_record : store -> Z -> result bool * store.

(** Property X20.  Who may delete a record. The endpoint answers with
    success only when the record exists, the caller is [omo] in any letter
    case or the unit of the record, and the store reports the deletion;
    when the record is missing, or belongs to another unit and the caller
    is not [omo], the answer is 404 and the store is left as it was. *)
Theorem delete_needs_the_owner db unit_name record_id :
  let outcome := delete_record_endpoint U get_record_by_id delete_record db unit_name record_id in
  (outcome.1 = Ok () ->
   exists record,
     get_record_by_id db record_id = Ok (Some record)
     /\ (lower U unit_name = u "omo" \/ bureau_number record = unit_name)
     /\ delete_record db record_id = (Ok true, outcome.2))
  /\ (get_record_by_id db record_id = Ok None -> outcome = (Raise record_not_found, db))
  /\ (forall record, get_record_by_id db record_id = Ok (Some record) ->
      lower U unit_name <> u "omo" -> bureau_number record <> unit_name ->
      outcome = (Raise record_not_found, db))
  /\ (forall record, get_record_by_id db record_id = Ok (Some record) ->
      lower U unit_name = u "omo" \/ bureau_number record = unit_name ->
      forall db', delete_record db record_id = (Ok true, db') -> outcome = (Ok (), db')).
Proof.
  cbn zeta. unfold delete_record_endpoint. split; [|split; [|split]].
  - destruct (get_record_by_id db record_id) as [[record|]|e]; [|done..].
    repeat case_bool_decide; cbn [negb andb]; try done;
      destruct (delete_record db record_id) as [[[|]|e] db'] eqn:Hd; try done;
      intros _; exists record; auto.
  - by intros ->.
  - intros record -> H1 H2. by rewrite !bool_decide_eq_false_2.
  - intros record -> Hown db' ->.
    destruct Hown as [H|H]; [rewrite (bool_decide_eq_true_2 _ H)|];
      [done|]. rewrite (bool_decide_eq_true_2 (bureau_number record = unit_name) H).
    by rewrite andb_false_r.
Qed.
End DeleteFacts.

(** On a table of records: a unit deletes its own record and no other
    row changes; the record of another unit stays. *)
Lemma delete_needs_the_owner_witness :
  let db : gmap Z record_row := {[ 7%Z := example_row ]} in
  delete_record_endpoint ascii_only table_get_record_by_id table_delete_record
    db (u "bureau_4") 7 = (Raise record_not_found, db)
  /\ delete_record_endpoint ascii_only table_get_record_by_id table_delete_record
       db (u "bureau_3") 7 = (Ok (), delete 7%Z db).
Proof.
  cbn zeta. split.
  - apply (proj1 (proj2 (proj2 (delete_needs_the_owner ascii_only
             table_get_record_by_id table_delete_record
             {[ 7%Z := example_row ]} (u "bureau_4") 7))) example_row).
    + reflexivity.
    + vm_compute. discriminate.
    + vm_compute. discriminate.
  - apply (proj2 (proj2 (proj2 (delete_needs_the_owner ascii_only
             table_get_record_by_id table_delete_record
             {[ 7%Z := example_row ]} (u "bureau_3") 7))) example_row).
    + reflexivity.
    + right. reflexivity.
    + reflexivity.
Defined.

Section ExportFacts.
Variable U : unicode_data.

(** Property X22.  What [export_records] does to a record before the
    sheets are built: the keys and their order stay; the value of a date
    key, in any letter case, becomes the text [format_excel_date] gives, a
    text even for [None]; every other value stays; and formatting a record
    whose date values are [None], texts or dates of the calendar a second
    time changes nothing, so the date cells of the sheet, formatted once
    more by the builder, show the same text. *)
Theorem export_formats_the_dates record :
  map fst (format_record U record) = map fst record
  /\ (forall key value, (key, value) ∈ record ->
        (lower U key ∈ export_date_keys ->
         (key, PStr (format_excel_date U value)) ∈ format_record U record)
        /\ (lower U key ∉ export_date_keys -> (key, value) ∈ format_record U record))
  /\ (Forall (fun item => lower U item.1 ∈ export_date_keys ->
                          match item.2 with
                          | PNone | PStr _ => True
                          | PDate d => valid_date d = true
                          | _ => False
                          end) record ->
      format_record U (format_record U record) = format_record U record).
Proof.
  split; [|split].
  - unfold format_record. rewrite map_map. apply map_ext.
    intros [key value]. by case_bool_decide.
  - intros key value Hin. unfold format_record. split; intros Hk.
    + apply list_elem_of_fmap. exists (key, value). split; [|done].
      by rewrite bool_decide_eq_true_2.
    + apply list_elem_of_fmap. exists (key, value). split; [|done].
      by rewrite bool_decide_eq_false_2.
  - intros HF. unfold format_record. rewrite map_map.
    apply map_ext_in. intros [key value] Hin.
    rewrite Forall_forall in HF. apply list_elem_of_In in Hin. specialize (HF _ Hin).
    cbn [fst snd] in HF. case_bool_decide as Hk.
    + rewrite bool_decide_eq_true_2 by done. do 2 f_equal. apply format_excel_date_twice.
      by apply HF.
    + by rewrite bool_decide_eq_false_2.
Qed.
End ExportFacts.

Lemma export_formats_the_dates_witness :
  format_record ascii_only
    (format_record ascii_only
       [(u "fullName", PStr (u "Ivan Petrov")); (u "mseDate", PStr (u "2024-01-15"));
        (u "birthDate", PDate (mk_date 1980 2 29)); (u "regDate", PStr (u "0985-03-01"))])
  = [(u "fullName", PStr (u "Ivan Petrov")); (u "mseDate", PStr (u "15.01.2024"));
     (u "birthDate", PStr (u "29.02.1980")); (u "regDate", PStr (u "01.03.985"))].
Proof.
  rewrite (proj2 (proj2 (export_formats_the_dates ascii_only
             [(u "fullName", PStr (u "Ivan Petrov")); (u "mseDate", PStr (u "2024-01-15"));
              (u "birthDate", PDate (mk_date 1980 2 29));
              (u "regDate", PStr (u "0985-03-01"))]))).
  - reflexivity.
  - repeat constructor.
Defined.

Section PasswordFacts.
Context {store : Type}.
Variable get_password : store -> str -> option str.
Variable upsert_password : store -> str -> pyval -> bool * store.

(** Property X21.  Changing a password. A request without a password, or
    with one that counts as false, is refused with status 400 whatever the
    unit; then a unit that [get_password_endpoint] does not find (no row,
    or an empty password) is refused with status 404; in both cases the
    store is left as it was, so the endpoint never gives a password to a
    unit that has none. An answer of success means that the unit had a
    password and that the statement ran. *)
Theorem passwords_change_for_known_units_only db bureau_number data :
  let outcome := update_password_endpoint get_password upsert_password db bureau_number data in
  (truthy (json_get data (u "password")) = false -> outcome = (Raise no_password, db))
  /\ (truthy (json_get data (u "password")) = true ->
      get_password_endpoint get_password db bureau_number = Raise bureau_not_found ->
      outcome = (Raise bureau_not_found, db))
  /\ (outcome.1 = Ok () ->
      truthy (json_get data (u "password")) = true
      /\ (exists password, get_password_endpoint get_password db bureau_number = Ok password
                           /\ password <> [])
      /\ upsert_password db bureau_number (json_get data (u "password")) = (true, outcome.2))
  /\ status_code no_password = 400%Z /\ status_code bureau_not_found = 404%Z.
Proof.
  cbn zeta. unfold update_password_endpoint, get_password_endpoint.
  split; [|split; [|split]].
  - by intros ->.
  - intros -> H. cbn [negb]. by destruct (get_password db bureau_number) as [[|c p]|].
  - destruct (truthy (json_get data (u "password"))); [|done]. cbn [negb].
    destruct (get_password db bureau_number) as [[|c p]|]; [done| |done].
    destruct (upsert_password db bureau_number (json_get data (u "password")))
      as [[|] db'] eqn:Hu; [|done].
    intros _. split; [done|]. split; [|done]. by exists (c :: p).
  - split; reflexivity.
Qed.
End PasswordFacts.

Lemma passwords_change_for_known_units_only_witness :
  let db : gmap str str := {[ u "bureau_3" := u "00000" ]} in
  update_password_endpoint table_get_password table_upsert_password db (u "bureau_4")
    [(u "password", PStr (u "secret"))]
  = (Raise bureau_not_found, db).
Proof.
  cbn zeta.
  apply (proj1 (proj2 (passwords_change_for_known_units_only
           table_get_password table_upsert_password
           {[ u "bureau_3" := u "00000" ]} (u "bureau_4") [(u "password", PStr (u "secret"))])));
    reflexivity.
Defined.

